(** * UUIDv1 Sandwicher: a shallow embedding of [app.py]

    The development follows the layout of the Python module: text helpers
    (hexadecimal formatting and parsing, as the f-strings and [int(_, 16)]
    of the source use them), the [uuid.UUID] value and its [fields], the
    analyzer's version heuristic, the range estimator, the fast encoder and
    the background generation workers with the task registry. *)

From Stdlib Require Import ZArith String Ascii List Lia Bool QArith SpecFloat.
From stdpp Require Import gmap strings list sorting.

Local Open Scope string_scope.
Local Open Scope Z_scope.

(** ** Text: Python [str] values as [string] *)

Module Text.

(** [s[n:]] *)
Fixpoint drop (n : nat) (s : string) : string :=
  match n, s with
  | O, _ => s
  | S n', String _ s' => drop n' s'
  | S _, EmptyString => EmptyString
  end.

(** [s[:n]] *)
Fixpoint take (n : nat) (s : string) : string :=
  match n, s with
  | O, _ => EmptyString
  | S n', String c s' => String c (take n' s')
  | S _, EmptyString => EmptyString
  end.

(** [s[a:b]] for [0 <= a <= b] *)
Definition slice (a b : nat) (s : string) : string := take (b - a) (drop a s).

(** [c * n] for a one-character string *)
Fixpoint repeat_char (c : ascii) (n : nat) : string :=
  match n with
  | O => EmptyString
  | S n' => String c (repeat_char c n')
  end.

(** [s.replace(c, "")] for a single character [c] *)
Fixpoint remove_char (c : ascii) (s : string) : string :=
  match s with
  | EmptyString => EmptyString
  | String a s' =>
      if Ascii.eqb a c then remove_char c s' else String a (remove_char c s')
  end.

(** [s.split(c)] for a single-character separator: the pieces between the
    separators, in order (never the empty list). *)
Fixpoint split_on (c : ascii) (s : string) : list string :=
  match s with
  | EmptyString => [EmptyString]
  | String a s' =>
      if Ascii.eqb a c then EmptyString :: split_on c s'
      else match split_on c s' with
           | piece :: rest => String a piece :: rest
           | [] => [String a EmptyString]
           end
  end.

(** [all(p(ch) for ch in s)] *)
Fixpoint all_chars (p : ascii -> bool) (s : string) : bool :=
  match s with
  | EmptyString => true
  | String a s' => p a && all_chars p s'
  end.

(** [s.zfill(w)]: zeros are inserted after a leading sign. *)
Definition zfill (w : nat) (s : string) : string :=
  let pad := repeat_char "0" (w - String.length s) in
  match s with
  | String "-" s' => String "-" (pad +:+ s')
  | String "+" s' => String "+" (pad +:+ s')
  | _ => pad +:+ s
  end.

End Text.

(** ** Hexadecimal digits *)

Module Hex.

(** The digit characters [format(_, "x")] produces. *)
Definition hex_char (d : Z) : ascii :=
  match d with
  | 0 => "0" | 1 => "1" | 2 => "2" | 3 => "3"
  | 4 => "4" | 5 => "5" | 6 => "6" | 7 => "7"
  | 8 => "8" | 9 => "9" | 10 => "a" | 11 => "b"
  | 12 => "c" | 13 => "d" | 14 => "e" | _ => "f"
  end%char.

(** The value of a digit character, in either case, as [int(_, 16)] and the
    class [[0-9a-f]] under [re.IGNORECASE] read it: by character code,
    48..57 for the decimal digits, 97..102 and 65..70 for the letters. *)
Definition hex_val (c : ascii) : option Z :=
  let code := Z.of_N (N_of_ascii c) in
  if (48 <=? code) && (code <=? 57) then Some (code - 48)
  else if (97 <=? code) && (code <=? 102) then Some (code - 87)
  else if (65 <=? code) && (code <=? 70) then Some (code - 55)
  else None.

Definition is_hex (c : ascii) : bool :=
  match hex_val c with Some _ => true | None => false end.

Definition all_hex (s : string) : bool := Text.all_chars is_hex s.

(** Digits of a non-negative integer, most significant first. The fuel is
    the number of binary digits, which bounds the number of hex digits. *)
Fixpoint hex_digits (fuel : nat) (n : Z) (acc : string) : string :=
  match fuel with
  | O => acc
  | S fuel' =>
      let acc' := String (hex_char (n mod 16)) acc in
      if n <? 16 then acc' else hex_digits fuel' (n / 16) acc'
  end.

Definition hex_of_nonneg (n : Z) : string :=
  hex_digits (S (Z.to_nat (Z.log2 n))) n EmptyString.

(** [f"{n:x}"] *)
Definition format_x (n : Z) : string :=
  if n <? 0 then String "-" (hex_of_nonneg (- n)) else hex_of_nonneg n.

(** [f"{n:0{w}x}"]: sign-aware zero padding to a minimum width, which is
    what [zfill] does to the unpadded rendering. *)
Definition format_0x (w : nat) (n : Z) : string := Text.zfill w (format_x n).

(** [int(s, 16)] on a string of hex digits; [None] stands for [ValueError]
    (the source only ever passes concatenations of formatted fields, so the
    sign, prefix and underscore forms [int] also accepts are left out). *)
Fixpoint int16_from (acc : Z) (s : string) : option Z :=
  match s with
  | EmptyString => Some acc
  | String c s' =>
      match hex_val c with
      | Some d => int16_from (16 * acc + d) s'
      | None => None
      end
  end.

Definition int16 (s : string) : option Z :=
  match s with
  | EmptyString => None
  | _ => int16_from 0 s
  end.

(** Proof-side view: the [w] low hex digits of [n], and the value of a digit
    string. *)
Fixpoint hex_fixed (w : nat) (n : Z) (acc : string) : string :=
  match w with
  | O => acc
  | S w' => hex_fixed w' (n / 16) (String (hex_char (n mod 16)) acc)
  end.

Fixpoint hexval_from (acc : Z) (s : string) : Z :=
  match s with
  | EmptyString => acc
  | String c s' => hexval_from (16 * acc + default 0 (hex_val c)) s'
  end.

Definition hexval (s : string) : Z := hexval_from 0 s.

End Hex.

(** ** Python exceptions and results *)

Inductive exception :=
  | ValueError
  | OverflowError
  | KeyError
  | ZeroDivisionError
  | OSError.

Inductive result (A : Type) :=
  | Ok (a : A)
  | Raise (e : exception).
Arguments Ok {A} a.
Arguments Raise {A} e.

#[global] Instance result_ret : MRet result := fun _ a => Ok a.
#[global] Instance result_bind : MBind result := fun _ _ k r =>
  match r with
  | Ok a => k a
  | Raise e => Raise e
  end.

Definition of_option {A} (e : exception) (o : option A) : result A :=
  match o with
  | Some a => Ok a
  | None => Raise e
  end.

(** ** The [uuid] library: the 128-bit value and its fields *)

Module uuid.

Record UUID := mkUUID { int : Z }.

(** [uuid.UUID(hex)]: hyphens are removed, 32 characters must remain and
    they are read as one hexadecimal number; anything else is a
    [ValueError]. The [urn:uuid:] prefix and the braces the library also
    tolerates are left out: [validate_uuid] rejects them beforehand. *)
Definition of_hex (hex : string) : result UUID :=
  let h := Text.remove_char "-" hex in
  if (String.length h =? 32)%nat then
    n ← of_option ValueError (Hex.int16 h); Ok (mkUUID n)
  else Raise ValueError.

(** [UUID.fields], one accessor per position of the tuple. *)
Definition time_low (u : UUID) : Z := Z.shiftr (int u) 96.
Definition time_mid (u : UUID) : Z := Z.land (Z.shiftr (int u) 80) 0xffff.
Definition time_hi_version (u : UUID) : Z := Z.land (Z.shiftr (int u) 64) 0xffff.
Definition clock_seq_hi_variant (u : UUID) : Z := Z.land (Z.shiftr (int u) 56) 0xff.
Definition clock_seq_low (u : UUID) : Z := Z.land (Z.shiftr (int u) 48) 0xff.
Definition node (u : UUID) : Z := Z.land (int u) 0xffffffffffff.

Definition fields (u : UUID) : list Z :=
  [time_low u; time_mid u; time_hi_version u;
   clock_seq_hi_variant u; clock_seq_low u; node u].

(** [uuid.UUID(fields=(...))]: every field is range-checked, then packed. *)
Definition of_fields (tl tm thv csh csl nd : Z) : result UUID :=
  if negb ((0 <=? tl) && (tl <? Z.shiftl 1 32)) then Raise ValueError
  else if negb ((0 <=? tm) && (tm <? Z.shiftl 1 16)) then Raise ValueError
  else if negb ((0 <=? thv) && (thv <? Z.shiftl 1 16)) then Raise ValueError
  else if negb ((0 <=? csh) && (csh <? Z.shiftl 1 8)) then Raise ValueError
  else if negb ((0 <=? csl) && (csl <? Z.shiftl 1 8)) then Raise ValueError
  else if negb ((0 <=? nd) && (nd <? Z.shiftl 1 48)) then Raise ValueError
  else
    let clock_seq := Z.lor (Z.shiftl csh 8) csl in
    Ok (mkUUID (Z.lor (Z.lor (Z.lor (Z.lor (Z.shiftl tl 96) (Z.shiftl tm 80))
                                     (Z.shiftl thv 64))
                              (Z.shiftl clock_seq 48))
                       nd)).

Inductive variant_kind := RESERVED_NCS | RFC_4122 | RESERVED_MICROSOFT | RESERVED_FUTURE.

(** [UUID.variant] *)
Definition variant (u : UUID) : variant_kind :=
  if Z.land (int u) (Z.shiftl 0x8000 48) =? 0 then RESERVED_NCS
  else if Z.land (int u) (Z.shiftl 0x4000 48) =? 0 then RFC_4122
  else if Z.land (int u) (Z.shiftl 0x2000 48) =? 0 then RESERVED_MICROSOFT
  else RESERVED_FUTURE.

(** [UUID.version]: the version nibble, reported only for the RFC 4122
    variant ([None] otherwise, as in Python). *)
Definition version (u : UUID) : option Z :=
  match variant u with
  | RFC_4122 => Some (Z.land (Z.shiftr (int u) 76) 0xf)
  | _ => None
  end.

End uuid.

(** ** Validation: [UUID_PATTERN] and [validate_uuid] *)

(** Consume exactly [n] hex digits. *)
Fixpoint eat_hex (n : nat) (s : string) : option string :=
  match n, s with
  | O, _ => Some s
  | S n', String c s' => if Hex.is_hex c then eat_hex n' s' else None
  | S _, EmptyString => None
  end.

Definition eat_char (c : ascii) (s : string) : option string :=
  match s with
  | String a s' => if Ascii.eqb a c then Some s' else None
  | EmptyString => None
  end.

(** [UUID_PATTERN.match(s)]: 8-4-4-4-12 hex digits, either case. (The
    pattern's [$] also lets one trailing newline through; that input never
    parses as a UUID afterwards and is left out.) *)
Definition UUID_PATTERN (s : string) : bool :=
  match
    s1 ← eat_hex 8 s; s2 ← eat_char "-" s1;
    s3 ← eat_hex 4 s2; s4 ← eat_char "-" s3;
    s5 ← eat_hex 4 s4; s6 ← eat_char "-" s5;
    s7 ← eat_hex 4 s6; s8 ← eat_char "-" s7;
    eat_hex 12 s8
  with
  | Some EmptyString => true
  | _ => false
  end.

(** [validate_uuid], on text without surrounding white space. *)
Definition validate_uuid (uuid_str : string) : bool :=
  match uuid_str with
  | EmptyString => false
  | _ =>
      if UUID_PATTERN uuid_str then
        match uuid.of_hex uuid_str with
        | Ok _ => true
        | Raise _ => false
        end
      else false
  end.

(** ** Python [float]: IEEE-754 binary64, after the library's [SpecFloat] *)

Module PyFloat.

Definition prec : Z := 53.
Definition emax : Z := 1024.

Abbreviation float := spec_float.

(** [float(n)] for an integer, correctly rounded (the integers of this
    program stay below [2^128], far from the overflow threshold). *)
Definition of_int (n : Z) : float := binary_normalize prec emax n 0 false.

Definition add (x y : float) : float := SFadd prec emax x y.
Definition sub (x y : float) : float := SFsub prec emax x y.
Definition mul (x y : float) : float := SFmul prec emax x y.

(** [a / b] on integers: the correctly rounded quotient, whatever the size
    of the operands. *)
Definition truediv (a b : Z) : result float :=
  if b =? 0 then Raise ZeroDivisionError
  else if a =? 0 then Ok (S754_zero (b <? 0))
  else
    let '(mz, ez, lz) := SFdiv_core_binary prec emax (Z.abs a) 0 (Z.abs b) 0 in
    Ok (binary_round_aux prec emax (xorb (a <? 0) (b <? 0)) mz ez lz).

(** A decimal literal [p/q] such as [0.0001] denotes the nearest double. *)
Definition literal (p q : Z) : float :=
  match truediv p q with
  | Ok x => x
  | Raise _ => S754_nan
  end.

(** [int(x)]: truncation toward zero. *)
Definition trunc (x : float) : result Z :=
  match x with
  | S754_zero _ => Ok 0
  | S754_finite s m e =>
      let a := if 0 <=? e then Z.shiftl (Zpos m) e else Z.shiftr (Zpos m) (- e) in
      Ok (if s then - a else a)
  | S754_infinity _ => Raise OverflowError
  | S754_nan => Raise ValueError
  end.

(** [round(x)]: the nearest integer, ties to even. *)
Definition round (x : float) : result Z :=
  match x with
  | S754_zero _ => Ok 0
  | S754_finite s m e =>
      let a :=
        if 0 <=? e then Z.shiftl (Zpos m) e
        else
          let q := Z.shiftr (Zpos m) (- e) in
          let r := Z.land (Zpos m) (Z.ones (- e)) in
          let half := Z.shiftl 1 (- e - 1) in
          if r <? half then q
          else if half <? r then q + 1
          else if Z.even q then q else q + 1 in
      Ok (if s then - a else a)
  | S754_infinity _ => Raise OverflowError
  | S754_nan => Raise ValueError
  end.

(** The real value of a finite float, for stating distances. *)
Definition to_Q (x : float) : Q :=
  match x with
  | S754_finite s m e =>
      let v := if 0 <=? e then inject_Z (Z.shiftl (Zpos m) e)
               else Qmake (Zpos m) (Pos.shiftl 1 (Z.to_N (- e))) in
      if s then Qopp v else v
  | _ => 0%Q
  end.

Definition is_finite (x : float) : bool :=
  match x with
  | S754_zero _ | S754_finite _ _ _ => true
  | _ => false
  end.

(** [datetime.timedelta(seconds=x)] for [x >= 0]: only the range check on
    the day count is modelled; more than 999999999 days is an
    [OverflowError]. *)
Definition timedelta_check (seconds : float) : result unit :=
  i ← trunc seconds;
  if 999999999 <? i / 86400 then Raise OverflowError else Ok tt.

End PyFloat.

(** ** [class UUIDv1Generator] *)

Module UUIDv1Generator.

Import PyFloat.

(** [generate_uuid_v1(timestamp)] with a timestamp given; [self_node] is the
    generator's [self.node]. *)
Definition generate_uuid_v1 (self_node : Z) (timestamp : float) : result uuid.UUID :=
  uuid_timestamp ← trunc (mul (add timestamp (of_int 12219292800)) (of_int 10000000));
  let time_low := Z.land uuid_timestamp 0xffffffff in
  let time_mid := Z.land (Z.shiftr uuid_timestamp 32) 0xffff in
  let time_hi := Z.land (Z.shiftr uuid_timestamp 48) 0x0fff in
  let time_hi_version := Z.lor time_hi (Z.shiftl 1 12) in
  micros ← trunc (mul timestamp (of_int 1000000));
  let clock_seq_low := Z.land micros 0xff in
  let clock_seq_high := Z.lor (Z.land (Z.shiftr micros 8) 0x3f) 0x80 in
  uuid.of_fields time_low time_mid time_hi_version clock_seq_high clock_seq_low self_node.

(** The integer the decoder rebuilds from the three time fields. *)
Definition uuid_time (uuid_obj : uuid.UUID) : Z :=
  let time_low := uuid.time_low uuid_obj in
  let time_mid := uuid.time_mid uuid_obj in
  let time_hi_version := Z.land (uuid.time_hi_version uuid_obj) 0x0fff in
  Z.lor (Z.lor (Z.shiftl time_hi_version 48) (Z.shiftl time_mid 32)) time_low.

(** [uuid_to_timestamp] *)
Definition uuid_to_timestamp (uuid_obj : uuid.UUID) : result float :=
  uuid_seconds ← truediv (uuid_time uuid_obj) 10000000;
  Ok (sub uuid_seconds (of_int 12219292800)).

(** [is_likely_uuid_v2] *)
Definition is_likely_uuid_v2 (uuid_obj : uuid.UUID) : bool :=
  let clock_seq_hi := uuid.clock_seq_hi_variant uuid_obj in
  let variant := Z.shiftr clock_seq_hi 6 in
  if variant =? 1 then
    let clock_seq_low := uuid.clock_seq_low uuid_obj in
    let clock_seq := Z.lor (Z.shiftl (Z.land clock_seq_hi 0x3f) 8) clock_seq_low in
    if (0x0001 <=? clock_seq) && (clock_seq <=? 0x3FFF) then true else false
  else false.

(** The part of [analyze_uuid]'s record the version logic decides: the
    reported version ([None] prints as ["None"]), the [possible_v2] flag,
    whether a timestamp is decoded, and the variant code and clock sequence
    computed from the fourth and fifth fields. *)
Record analysis := {
  version : option Z;
  possible_v2 : bool;
  timestamp : option float;
  variant_code : Z;
  clock_seq : Z
}.

Definition analyze_uuid (uuid_str : string) : result analysis :=
  uuid_obj ← uuid.of_hex uuid_str;
  let version0 := uuid.version uuid_obj in
  let is_v2 :=
    match version0 with
    | Some 1 | None => is_likely_uuid_v2 uuid_obj
    | _ => false
    end in
  let version := if is_v2 then Some 2 else version0 in
  let possible_v2 := is_v2 in
  ts ← match version with
       | Some 1 => t ← uuid_to_timestamp uuid_obj; Ok (Some t)
       | Some 2 => if possible_v2
                   then t ← uuid_to_timestamp uuid_obj; Ok (Some t)
                   else Ok None
       | _ => Ok None
       end;
  let clock_seq_hi := uuid.clock_seq_hi_variant uuid_obj in
  let clock_seq_low := uuid.clock_seq_low uuid_obj in
  Ok {| version := version;
        possible_v2 := possible_v2;
        timestamp := ts;
        variant_code := Z.shiftr clock_seq_hi 6;
        clock_seq := Z.lor (Z.shiftl (Z.land clock_seq_hi 0x3f) 8) clock_seq_low |}.

(** The hex-string extraction of the 60-bit timestamp that
    [estimate_range_size], both workers and the [generate_range] route
    repeat: the version digit is dropped from [time_hi]. *)
Definition timestamp_hex (uuid_obj : uuid.UUID) : result Z :=
  let time_low := Hex.format_0x 8 (uuid.time_low uuid_obj) in
  let time_mid := Hex.format_0x 4 (uuid.time_mid uuid_obj) in
  let time_hi := Hex.format_0x 4 (uuid.time_hi_version uuid_obj) in
  of_option ValueError (Hex.int16 (Text.drop 1 time_hi +:+ time_mid +:+ time_low)).

Record estimate := {
  start_timestamp_hex : Z;
  end_timestamp_hex : Z;
  total_possible : Z;
  estimated_time_seconds : float
}.

Inductive estimate_reply :=
  | Estimate (e : estimate)
  | EstimateError (msg : string).

(** [estimate_range_size]. The rendering [str(timedelta(...))] of
    [estimated_time_human] is kept only as the check that can raise. *)
Definition estimate_range_size (start_uuid end_uuid : string) : result estimate_reply :=
  let body :=
    start_uuid_obj ← uuid.of_hex start_uuid;
    end_uuid_obj ← uuid.of_hex end_uuid;
    s ← timestamp_hex start_uuid_obj;
    e ← timestamp_hex end_uuid_obj;
    let '(s, e) := if e <? s then (e, s) else (s, e) in
    let total := e - s + 1 in
    let seconds := mul (of_int total) (literal 1 10000) in
    _ ← timedelta_check seconds;
    Ok (Estimate {| start_timestamp_hex := s;
                    end_timestamp_hex := e;
                    total_possible := total;
                    estimated_time_seconds := seconds |}) in
  match body with
  | Raise ValueError => Ok (EstimateError "Invalid UUID format")
  | r => r
  end.

End UUIDv1Generator.

(** ** [class FastUUIDv1Generator]: the encoder *)

Module FastUUIDv1Generator.

(** [generate_uuid_v1_custom]; [None] is the value of the [except] branch,
    which integer input never reaches. *)
Definition generate_uuid_v1_custom
    (timestamp_hex : Z) (clock_seq mac_address save_char : string) : option string :=
  let hex_str := Text.zfill 15 (Hex.format_x timestamp_hex) in
  let high := Text.slice 0 3 hex_str in
  let mid := Text.slice 3 7 hex_str in
  let low := Text.drop 7 hex_str in
  Some (low +:+ "-" +:+ mid +:+ "-" +:+ save_char +:+ high +:+ "-"
        +:+ clock_seq +:+ "-" +:+ mac_address).

End FastUUIDv1Generator.

(** ** The task registry and the files on disk *)

Module Text2.

(** [s.startswith(p)] and [s.endswith(p)] *)
Definition startswith (p s : string) : bool := String.prefix p s.
Definition endswith (p s : string) : bool :=
  String.prefix (String.rev p) (String.rev s).

End Text2.

(** One entry of [generation_tasks]: a dict with a fixed set of keys, the
    optional ones as [option]. [progress] is a Python number; it is kept as
    the rational it denotes. *)
Record task := mk_task {
  status : string;
  progress : Q;
  count : Z;
  start_uuid : string;
  end_uuid : string;
  total_possible : option Z;
  created_at : Q;
  type : string;
  file_path : option string;
  cancelled : option bool;
  error : option string;
  message : option string
}.

Definition set_status (v : string) (t : task) : task :=
  mk_task v (progress t) (count t) (start_uuid t) (end_uuid t) (total_possible t)
          (created_at t) (type t) (file_path t) (cancelled t) (error t) (message t).
Definition set_progress (v : Q) (t : task) : task :=
  mk_task (status t) v (count t) (start_uuid t) (end_uuid t) (total_possible t)
          (created_at t) (type t) (file_path t) (cancelled t) (error t) (message t).
Definition set_count (v : Z) (t : task) : task :=
  mk_task (status t) (progress t) v (start_uuid t) (end_uuid t) (total_possible t)
          (created_at t) (type t) (file_path t) (cancelled t) (error t) (message t).
Definition set_start_uuid (v : string) (t : task) : task :=
  mk_task (status t) (progress t) (count t) v (end_uuid t) (total_possible t)
          (created_at t) (type t) (file_path t) (cancelled t) (error t) (message t).
Definition set_end_uuid (v : string) (t : task) : task :=
  mk_task (status t) (progress t) (count t) (start_uuid t) v (total_possible t)
          (created_at t) (type t) (file_path t) (cancelled t) (error t) (message t).
Definition set_file_path (v : string) (t : task) : task :=
  mk_task (status t) (progress t) (count t) (start_uuid t) (end_uuid t) (total_possible t)
          (created_at t) (type t) (Some v) (cancelled t) (error t) (message t).
Definition set_cancelled (v : bool) (t : task) : task :=
  mk_task (status t) (progress t) (count t) (start_uuid t) (end_uuid t) (total_possible t)
          (created_at t) (type t) (file_path t) (Some v) (error t) (message t).
Definition set_error (v : string) (t : task) : task :=
  mk_task (status t) (progress t) (count t) (start_uuid t) (end_uuid t) (total_possible t)
          (created_at t) (type t) (file_path t) (cancelled t) (Some v) (message t).
Definition set_message (v : string) (t : task) : task :=
  mk_task (status t) (progress t) (count t) (start_uuid t) (end_uuid t) (total_possible t)
          (created_at t) (type t) (file_path t) (cancelled t) (error t) (Some v).

(** The process state the workers and the handlers share: the global dict
    [generation_tasks] and the files, each a list of the lines written. *)
Record world := mk_world {
  generation_tasks : gmap string task;
  files : gmap string (list string)
}.

Definition with_tasks (f : gmap string task -> gmap string task) (w : world) : world :=
  mk_world (f (generation_tasks w)) (files w).
Definition with_files (f : gmap string (list string) -> gmap string (list string))
    (w : world) : world :=
  mk_world (generation_tasks w) (f (files w)).

(** [generation_tasks[task_id][key] = value]: a [KeyError] without the task. *)
Definition update_task (task_id : string) (f : task -> task) (w : world) : result world :=
  match generation_tasks w !! task_id with
  | Some t => Ok (with_tasks (insert task_id (f t)) w)
  | None => Raise KeyError
  end.

(** [task_id in generation_tasks and generation_tasks[task_id].get('cancelled', False)] *)
Definition is_cancelled (task_id : string) (w : world) : bool :=
  match generation_tasks w !! task_id with
  | Some t => default false (cancelled t)
  | None => false
  end.

(** [os.unlink(filename)] inside [try/except: pass] *)
Definition unlink (filename : string) (w : world) : world :=
  with_files (delete filename) w.

(** [open(filename, 'w')] and [NamedTemporaryFile(mode='w', delete=False)]:
    the file exists and is empty. *)
Definition create_file (filename : string) (w : world) : world :=
  with_files (insert filename []) w.

(** [f.write(line + "\n")] on the open handle *)
Definition write_line (filename line : string) (w : world) : world :=
  with_files (alter (fun ls => (ls ++ [line])%list) filename) w.

(** [cleanup_all_uuid_files] *)
Definition is_uuid_file (filename : string) : bool :=
  Text2.endswith ".txt" filename
  && (Text2.startswith "uuid_range_" filename || Text2.startswith "fast_uuids_" filename).

Definition cleanup_all_uuid_files (w : world) : world :=
  with_files (filter (fun kv => is_uuid_file kv.1 = false)) w.

(** [str(e)] for the exceptions the workers report *)
Definition str_exception (e : exception) : string :=
  match e with
  | ValueError => "badly formed hexadecimal UUID string"
  | OverflowError => "OverflowError"
  | KeyError => "KeyError"
  | ZeroDivisionError => "division by zero"
  | OSError => "OSError"
  end.

(** How a thread's target function ends: it returns, or an exception leaves
    it uncaught. *)
Inductive thread_exit := Returned | Died (e : exception).

(** ** The generation workers *)

Section Engine.

(** Rounding of a real result to a Python float, and the I/O oracle: whether
    writing the line for a timestamp raises. *)
Variable fl : Q -> Q.
Variable write_fails : Z -> bool.

(** [min(100, (count / total_possible) * 100)]; the division raises
    [ZeroDivisionError] on a zero total. *)
Definition progress_of (count total_possible : Z) : result Q :=
  if total_possible =? 0 then Raise ZeroDivisionError
  else
    let x := fl (fl (inject_Z count / inject_Z total_possible) * 100)%Q in
    Ok (if Qle_bool 100 x then 100%Q else x).

(** Body of the [try] inside the loop of [generate_range_background]; every
    exception is swallowed by [except Exception: pass]. *)
Definition range_body (filename task_id clock_seq mac_address save_char : string)
    (start_timestamp_hex total_possible current_timestamp_hex : Z) (w : world) : world :=
  match FastUUIDv1Generator.generate_uuid_v1_custom
          current_timestamp_hex clock_seq mac_address save_char with
  | Some (String c s) =>
      let uuid_str := String c s in
      if write_fails current_timestamp_hex then w
      else
        let w1 := write_line filename uuid_str w in
        let count := current_timestamp_hex - start_timestamp_hex + 1 in
        if count mod 1000 =? 0 then
          match progress_of count total_possible with
          | Ok progress =>
              match update_task task_id
                      (fun t => set_count count (set_progress progress t)) w1 with
              | Ok w2 => w2
              | Raise _ => w1
              end
          | Raise _ => w1
          end
        else w1
  | _ => w
  end.

(** The [for] loop of [generate_range_background]; [true] when the
    cancellation check returned from inside it. *)
Fixpoint range_loop (filename task_id clock_seq mac_address save_char : string)
    (start_timestamp_hex total_possible : Z) (todo : list Z) (w : world) : world * bool :=
  match todo with
  | [] => (w, false)
  | current_timestamp_hex :: rest =>
      if ((current_timestamp_hex - start_timestamp_hex) mod 1000 =? 0)
         && is_cancelled task_id w
      then (unlink filename w, true)
      else
        range_loop filename task_id clock_seq mac_address save_char
          start_timestamp_hex total_possible rest
          (range_body filename task_id clock_seq mac_address save_char
             start_timestamp_hex total_possible current_timestamp_hex w)
  end.

(** The outer [except Exception as e] of [generate_range_background]. *)
Definition range_handler (task_id : string) (temp_file : option string)
    (e : exception) (w : world) : world * thread_exit :=
  match update_task task_id (fun t => set_error (str_exception e) (set_status "error" t)) w with
  | Raise k => (w, Died k)
  | Ok w1 =>
      match temp_file with
      | Some filename => (unlink filename w1, Returned)
      | None => (w1, Returned)
      end
  end.

(** What both workers compute from the two UUID strings before looping:
    the ordered pair of timestamps, and the clock sequence, node and version
    digit rendered from the start UUID. *)
Record loop_args := {
  start_timestamp_hex : Z;
  end_timestamp_hex : Z;
  clock_seq : string;
  mac_address : string;
  save_char : string
}.

Definition loop_args_of (start_uuid end_uuid : string) : result loop_args :=
  start_uuid_obj ← uuid.of_hex start_uuid;
  end_uuid_obj ← uuid.of_hex end_uuid;
  s ← UUIDv1Generator.timestamp_hex start_uuid_obj;
  e ← UUIDv1Generator.timestamp_hex end_uuid_obj;
  let '(s, e) := if e <? s then (e, s) else (s, e) in
  Ok {| start_timestamp_hex := s;
        end_timestamp_hex := e;
        clock_seq :=
          Hex.format_0x 2 (uuid.clock_seq_hi_variant start_uuid_obj)
          +:+ Hex.format_0x 2 (uuid.clock_seq_low start_uuid_obj);
        mac_address := Hex.format_0x 12 (uuid.node start_uuid_obj);
        save_char :=
          Text.take 1 (Hex.format_0x 4 (uuid.time_hi_version start_uuid_obj)) |}.

(** [range(start_timestamp_hex, end_timestamp_hex + 1)] *)
Definition timestamps (a : loop_args) : list Z :=
  seqZ (start_timestamp_hex a) (end_timestamp_hex a + 1 - start_timestamp_hex a).

(** [generate_range_background] up to the loop: either the thread is over
    already, or the loop starts in the state returned. [filename] is the
    name [tempfile.NamedTemporaryFile] picks. *)
Definition range_prepare (filename start_uuid end_uuid task_id : string) (w : world)
    : (world * thread_exit) + (world * loop_args) :=
  let w := cleanup_all_uuid_files w in
  match update_task task_id (set_status "generating") w with
  | Raise e => inl (range_handler task_id None e w)
  | Ok w =>
      let w := create_file filename w in
      match update_task task_id (set_file_path filename) w with
      | Raise e => inl (range_handler task_id (Some filename) e w)
      | Ok w =>
          match loop_args_of start_uuid end_uuid with
          | Raise e => inl (range_handler task_id (Some filename) e w)
          | Ok a => inr (w, a)
          end
      end
  end.

(** [generate_range_background] after the loop. The number inside the final
    [message] text is left out. *)
Definition range_finish (filename task_id : string) (total_possible : Z)
    (r : world * bool) : world * thread_exit :=
  match r with
  | (w, true) => (w, Returned)
  | (w, false) =>
      if is_cancelled task_id w then (unlink filename w, Returned)
      else
        match update_task task_id
                (fun t => set_message "Generated UUIDs in range"
                            (set_count total_possible
                               (set_progress 100%Q (set_status "completed" t)))) w with
        | Raise e => range_handler task_id (Some filename) e w
        | Ok w => (w, Returned)
        end
  end.

(** [generate_range_background] *)
Definition generate_range_background (filename : string)
    (start_uuid end_uuid task_id : string) (total_possible : Z) (w : world)
    : world * thread_exit :=
  match range_prepare filename start_uuid end_uuid task_id w with
  | inl r => r
  | inr (w, a) =>
      range_finish filename task_id total_possible
        (range_loop filename task_id (clock_seq a) (mac_address a) (save_char a)
           (start_timestamp_hex a) total_possible (timestamps a) w)
  end.



(** Body of the [try] inside the loop of
    [generate_uuids_to_file_fast_with_progress]: the file, the running
    [count] and the registry; [except Exception: continue] keeps whatever
    was done before the exception. *)
Definition fast_body (filename task_id clock_seq mac_address save_char : string)
    (total_possible current_timestamp_hex : Z) (st : world * Z) : world * Z :=
  let '(w, count) := st in
  match FastUUIDv1Generator.generate_uuid_v1_custom
          current_timestamp_hex clock_seq mac_address save_char with
  | Some (String c s) =>
      let uuid_str := String c s in
      if write_fails current_timestamp_hex then (w, count)
      else
        let w1 := write_line filename uuid_str w in
        let count := count + 1 in
        if count mod 1000 =? 0 then
          match progress_of count total_possible with
          | Ok progress =>
              match update_task task_id
                      (fun t => set_count count (set_progress progress t)) w1 with
              | Ok w2 => (w2, count)
              | Raise _ => (w1, count)
              end
          | Raise _ => (w1, count)
          end
        else (w1, count)
  | _ => (w, count)
  end.

Fixpoint fast_loop (filename task_id clock_seq mac_address save_char : string)
    (start_timestamp_hex total_possible : Z) (todo : list Z) (st : world * Z)
    : world * Z * bool :=
  match todo with
  | [] => (st, false)
  | current_timestamp_hex :: rest =>
      if ((current_timestamp_hex - start_timestamp_hex) mod 1000 =? 0)
         && is_cancelled task_id st.1
      then ((unlink filename st.1, st.2), true)
      else
        fast_loop filename task_id clock_seq mac_address save_char
          start_timestamp_hex total_possible rest
          (fast_body filename task_id clock_seq mac_address save_char
             total_possible current_timestamp_hex st)
  end.

(** The state [generate_uuids_to_file_fast_with_progress] enters its loop
    in: the file is open and, when the task exists, its path recorded. *)
Definition fast_open (filename task_id : string) (w : world) : world :=
  let w := create_file filename w in
  match update_task task_id (set_file_path filename) w with
  | Ok w' => w'
  | Raise _ => w
  end.

Definition fast_total (total_possible : option Z) (a : loop_args) : Z :=
  match total_possible with
  | None => end_timestamp_hex a - start_timestamp_hex a + 1
  | Some n => n
  end.

(** [generate_uuids_to_file_fast_with_progress]: the triple
    [(success, message, count)] and the state it leaves. *)
Definition generate_uuids_to_file_fast_with_progress
    (start_uuid end_uuid filename task_id : string) (total_possible : option Z)
    (w : world) : world * (bool * string * Z) :=
  match loop_args_of start_uuid end_uuid with
  | Raise e => (w, (false, str_exception e, 0))
  | Ok a =>
      match
        fast_loop filename task_id (clock_seq a) (mac_address a) (save_char a)
          (start_timestamp_hex a) (fast_total total_possible a) (timestamps a)
          (fast_open filename task_id w, 0)
      with
      | ((w, count), true) => (w, (false, "cancelled", count))
      | ((w, count), false) => (w, (true, "ok", count))
      end
  end.

(** The outer [except Exception as e] of [generate_uuids_fast_background]. *)
Definition fast_handler (task_id : string) (e : exception) (w : world)
    : world * thread_exit :=
  match update_task task_id (fun t => set_error (str_exception e) (set_status "error" t)) w with
  | Raise k => (w, Died k)
  | Ok w1 => (w1, Returned)
  end.

(** The total [generate_uuids_fast_background] computes beforehand. *)
Definition fast_precomputed_total (start_uuid end_uuid : string) : option Z :=
  match loop_args_of start_uuid end_uuid with
  | Ok a => Some (end_timestamp_hex a - start_timestamp_hex a + 1)
  | Raise _ => None
  end.

Definition fast_filename (task_id : string) : string :=
  "fast_uuids_" +:+ task_id +:+ ".txt".

(** [generate_uuids_fast_background] after the generator returned. *)
Definition fast_finish (start_uuid end_uuid task_id : string)
    (r : world * (bool * string * Z)) : world * thread_exit :=
  let '(w, (success, msg, count)) := r in
  let filename := fast_filename task_id in
  if is_cancelled task_id w then (unlink filename w, Returned)
  else if success then
    match update_task task_id
            (fun t => set_end_uuid end_uuid
                        (set_start_uuid start_uuid
                           (set_message msg
                              (set_progress 100%Q
                                 (set_count count
                                    (set_file_path filename
                                       (set_status "completed" t))))))) w with
    | Raise e => fast_handler task_id e w
    | Ok w => (w, Returned)
    end
  else
    match update_task task_id (fun t => set_error msg (set_status "error" t)) w with
    | Raise e => fast_handler task_id e w
    | Ok w => (w, Returned)
    end.

(** [generate_uuids_fast_background]; file names are relative to the working
    directory, so [os.path.abspath] is the identity on them. *)
Definition generate_uuids_fast_background (start_uuid end_uuid task_id : string)
    (w : world) : world * thread_exit :=
  let w := cleanup_all_uuid_files w in
  match update_task task_id (set_status "generating") w with
  | Raise e => fast_handler task_id e w
  | Ok w =>
      if is_cancelled task_id w then (w, Returned)
      else
        fast_finish start_uuid end_uuid task_id
          (generate_uuids_to_file_fast_with_progress start_uuid end_uuid
             (fast_filename task_id) task_id
             (fast_precomputed_total start_uuid end_uuid) w)
  end.



End Engine.

(** ** Reading the output back *)

(** The 60-bit timestamp of an output line, extracted as the estimator
    extracts it. *)
Definition line_timestamp (line : string) : result Z :=
  u ← uuid.of_hex line; UUIDv1Generator.timestamp_hex u.

(** The line the encoder renders for a timestamp, and the lines a loop over
    [todo] leaves in the file: one per timestamp whose write succeeds. *)
Definition render (a : loop_args) (t : Z) : string :=
  default "" (FastUUIDv1Generator.generate_uuid_v1_custom
                t (clock_seq a) (mac_address a) (save_char a)).

Definition written (write_fails : Z -> bool) (a : loop_args) (todo : list Z)
    : list string :=
  render a <$> filter (fun t => write_fails t = false) todo.

(** A task without the two fields the loop updates. *)
Definition frame (t : task) : task := set_count 0 (set_progress 0%Q t).

(** Registries that differ at most in [progress] and [count] of one task. *)
Definition framed (task_id : string) (w w' : world) : Prop :=
  (forall k, k <> task_id -> generation_tasks w' !! k = generation_tasks w !! k)
  /\ frame <$> (generation_tasks w' !! task_id) = frame <$> (generation_tasks w !! task_id).

(** ** Request handlers *)

Inductive response :=
  | Json (code : Z) (body : list (string * string)).

(** The synchronous part of the [/api/generate-range] route: validation, the
    range size and the new registry entry; [task_id] and [now] stand for the
    MD5 digest and the clock. The worker thread it starts is
    [generate_range_background] on the arguments returned. *)
Definition generate_range (now : Q) (task_id start_uuid end_uuid : string) (w : world)
    : world * response * option Z :=
  if negb (validate_uuid start_uuid) then
    (w, Json 400 [("error", "Invalid start UUID format")], None)
  else if negb (validate_uuid end_uuid) then
    (w, Json 400 [("error", "Invalid end UUID format")], None)
  else
    match
      start_uuid_obj ← uuid.of_hex start_uuid;
      end_uuid_obj ← uuid.of_hex end_uuid;
      s ← UUIDv1Generator.timestamp_hex start_uuid_obj;
      e ← UUIDv1Generator.timestamp_hex end_uuid_obj;
      Ok (s, e)
    with
    | Raise _ => (w, Json 400 [("error", "Invalid UUID format")], None)
    | Ok (s, e) =>
        let '(s, e) := if e <? s then (e, s) else (s, e) in
        let total_possible := e - s + 1 in
        let t := {| status := "queued"; progress := 0%Q; count := 0;
                    start_uuid := start_uuid; end_uuid := end_uuid;
                    total_possible := Some total_possible;
                    created_at := now; type := "range";
                    file_path := None; cancelled := None;
                    error := None; message := None |} in
        (with_tasks (insert task_id t) w,
         Json 200 [("task_id", task_id); ("status", "queued")],
         Some total_possible)
    end.

(** [cancel_generation]: the handler's own effect. The thread it starts,
    which removes the entry two seconds later, is [cancel_cleanup_task]. *)
Definition cancel_generation (task_id : string) (w : world) : world * response :=
  match generation_tasks w !! task_id with
  | None => (w, Json 404 [("error", "Task not found")])
  | Some task =>
      let task := set_cancelled true
                    (set_error "Generation cancelled by user"
                       (set_status "cancelled" task)) in
      let w := with_tasks (insert task_id task) w in
      let w :=
        match file_path task with
        | Some p => if decide (is_Some (files w !! p)) then unlink p w else w
        | None => w
        end in
      (w, Json 200 [("message", "Generation cancelled successfully");
                    ("status", "cancelled")])
  end.

Definition cancel_cleanup_task (task_id : string) (w : world) : world :=
  with_tasks (delete task_id) w.

(** The synchronous part of the [/api/generate-range-fast] route; the flag
    says whether the worker thread was started. *)
Definition generate_range_fast (now : Q) (task_id start_uuid end_uuid : string) (w : world)
    : world * response * bool :=
  if negb (validate_uuid start_uuid) then
    (w, Json 400 [("error", "Invalid start UUID format")], false)
  else if negb (validate_uuid end_uuid) then
    (w, Json 400 [("error", "Invalid end UUID format")], false)
  else
    let t := {| status := "queued"; progress := 0%Q; count := 0;
                start_uuid := start_uuid; end_uuid := end_uuid;
                total_possible := None;
                created_at := now; type := "fast";
                file_path := None; cancelled := None;
                error := None; message := None |} in
    (with_tasks (insert task_id t) w,
     Json 200 [("task_id", task_id); ("status", "queued")],
     true).

(** ** What a status poll sees *)





(** ** Timestamps as real numbers *)

(** [n] is [x] with the fractional part dropped: rounding toward zero. *)
Definition truncation_of (x : Q) (n : Z) : Prop :=
  ((0 <= x)%Q -> (inject_Z n <= x < inject_Z n + 1)%Q)
  /\ ((x <= 0)%Q -> (inject_Z n - 1 < x <= inject_Z n)%Q).

(** Two doubles: [-12219292800 + 7 / 2^19], thirteen microseconds after the
    UUID epoch, and [1700000000 + 1 / 2^22], the double right after
    1700000000 (November 2023). *)
Definition t_1582 : PyFloat.float := S754_finite true 6406428583526393 (-19).
Definition t_2023 : PyFloat.float := S754_finite false 7130316800000001 (-22).

(** ** Properties of an output file, and a small scenario *)

(** The lines enumerate the inclusive range [lo .. hi]: one line per
    timestamp, in ascending order. *)
Definition enumerates (lo hi : Z) (lines : list string) : Prop :=
  Z.of_nat (length lines) = hi - lo + 1
  /\ (forall i line, lines !! i = Some line -> line_timestamp line = Ok (lo + Z.of_nat i))
  /\ line_timestamp <$> head lines = Some (Ok lo)
  /\ line_timestamp <$> last lines = Some (Ok hi)
  /\ (forall i j li lj,
        (i < j)%nat -> lines !! i = Some li -> lines !! j = Some lj ->
        exists ti tj,
          line_timestamp li = Ok ti /\ line_timestamp lj = Ok tj /\ ti < tj).

(** Clock sequence, node and version nibble of [u] are those of [v]. *)
Definition same_fixed_fields (u v : uuid.UUID) : Prop :=
  uuid.clock_seq_hi_variant u = uuid.clock_seq_hi_variant v
  /\ uuid.clock_seq_low u = uuid.clock_seq_low v
  /\ uuid.node u = uuid.node v
  /\ Z.shiftr (uuid.time_hi_version u) 12 = Z.shiftr (uuid.time_hi_version v) 12.

(** A request whose start UUID is the later of the two, and differs from the
    end UUID in clock sequence, node and version digit; the registry right
    after the [generate_range] route accepted it. *)
Definition demo_start : string := "0867d7f0-f8d5-21ef-9a39-aedb2c118010".
Definition demo_end : string := "0867d7ee-f8d5-11ef-8a38-aedb2c11800f".
Definition demo_task : string := "task".
Definition demo_file : string := "/tmp/tmpq1.txt".
Definition demo_world : world :=
  (generate_range 0%Q demo_task demo_start demo_end (mk_world ∅ ∅)).1.1.

(** Exact arithmetic for [fl], and two write oracles: no failure, and a
    failure on the second timestamp of the demo range. *)
Definition exact : Q -> Q := fun q => q.
Definition no_failure : Z -> bool := fun _ => false.
Definition second_write_fails : Z -> bool := fun t => t =? 139603707324520431.

(** ** Further text helpers *)

Module Text3.

(** [ord(c)] *)
Definition ord (c : ascii) : Z := Z.of_N (N_of_ascii c).

(** [str(n)] and [f"{n}"] for an integer. The fuel is the number of binary
    digits, which bounds the number of decimal digits. *)
Fixpoint dec_digits (fuel : nat) (n : Z) (acc : string) : string :=
  match fuel with
  | O => acc
  | S fuel' =>
      let acc' := String (Hex.hex_char (n mod 10)) acc in
      if n <? 10 then acc' else dec_digits fuel' (n / 10) acc'
  end.

Definition format_d (n : Z) : string :=
  if n <? 0 then String "-" (dec_digits (S (Z.to_nat (Z.log2 (- n)))) (- n) EmptyString)
  else dec_digits (S (Z.to_nat (Z.log2 n))) n EmptyString.

(** [sep.join(pieces)] *)
Fixpoint join (sep : string) (pieces : list string) : string :=
  match pieces with
  | [] => EmptyString
  | p :: rest =>
      match rest with
      | [] => p
      | _ => p +:+ sep +:+ join sep rest
      end
  end.

(** The characters [str.strip()] removes, among the code points below 256. *)
Definition is_space (c : ascii) : bool :=
  let n := ord c in
  ((9 <=? n) && (n <=? 13)) || ((28 <=? n) && (n <=? 32)) || (n =? 133) || (n =? 160).

(** [s.lstrip()], [s.rstrip()] and [s.strip()] *)
Fixpoint lstrip (s : string) : string :=
  match s with
  | EmptyString => EmptyString
  | String c s' => if is_space c then lstrip s' else s
  end.

Fixpoint rstrip (s : string) : string :=
  match s with
  | EmptyString => EmptyString
  | String c s' =>
      match rstrip s' with
      | EmptyString => if is_space c then EmptyString else String c EmptyString
      | r => String c r
      end
  end.

Definition strip (s : string) : string := rstrip (lstrip s).

(** The lower-case spelling of a hexadecimal string: [A-F] become [a-f]. *)
Definition lower_hex_char (c : ascii) : ascii :=
  let n := ord c in
  if (65 <=? n) && (n <=? 70) then ascii_of_N (Z.to_N (n + 32)) else c.

Fixpoint lower_hex (s : string) : string :=
  match s with
  | EmptyString => EmptyString
  | String c s' => String (lower_hex_char c) (lower_hex s')
  end.

End Text3.

(** ** Validation of raw request text *)

(** [validate_uuid] on any text: the pattern and the parse are applied to
    the text with surrounding white space stripped. *)
Definition validate_uuid_raw (uuid_str : string) : bool :=
  match uuid_str with
  | EmptyString => false
  | _ =>
      let uuid_str := Text3.strip uuid_str in
      if UUID_PATTERN uuid_str then
        match uuid.of_hex uuid_str with
        | Ok _ => true
        | Raise _ => false
        end
      else false
  end.

(** [validate_text_input]: the text without surrounding white space must
    have between 1 and [max_length] characters, none of [<], [>], the
    double and the single quote (codes 60, 62, 34, 39), and no control
    character (code below 32, or 127). *)
Definition validate_text_input (text : string) (max_length : Z) : bool :=
  match text with
  | EmptyString => false
  | _ =>
      let text := Text3.strip text in
      let len := Z.of_nat (String.length text) in
      if (len =? 0) || (max_length <? len) then false
      else if negb (Text.all_chars
                      (fun c => negb ((Text3.ord c =? 60) || (Text3.ord c =? 62)
                                      || (Text3.ord c =? 34) || (Text3.ord c =? 39)))
                      text)
      then false
      else if negb (Text.all_chars
                      (fun c => (32 <=? Text3.ord c) && negb (Text3.ord c =? 127)) text)
      then false
      else true
  end.

(** ** [str(uuid_obj)] *)

(** [UUID.__str__]: 32 hex digits, zero padded, in groups 8-4-4-4-12. *)
Definition str_UUID (u : uuid.UUID) : string :=
  let hex := Hex.format_0x 32 (uuid.int u) in
  Text.slice 0 8 hex +:+ "-" +:+ Text.slice 8 12 hex +:+ "-" +:+ Text.slice 12 16 hex
  +:+ "-" +:+ Text.slice 16 20 hex +:+ "-" +:+ Text.drop 20 hex.

(** ** [class UUIDv1Generator], continued: what the analyzer reports per
    version, and the generator of version-2-like UUIDs *)

Module Analyzer.

Import PyFloat Text3.

(** The [variant] entry of [analyze_uuid]'s result. *)
Definition variant_desc (uuid_obj : uuid.UUID) : string :=
  let clock_seq_hi := uuid.clock_seq_hi_variant uuid_obj in
  let variant := Z.shiftr clock_seq_hi 6 in
  if variant =? 0 then "Reserved (NCS backward compatibility)"
  else if variant =? 1 then "DCE 1.1, ISO/IEC 11578:1996"
  else if variant =? 2 then "Microsoft GUID"
  else "Reserved for future definition".

(** [get_dce_domain] *)
Definition get_dce_domain (clock_seq : Z) : string :=
  if clock_seq <? 0x1000 then "Local DCE Security Domain"
  else if clock_seq <? 0x2000 then "Network DCE Security Domain"
  else if clock_seq <? 0x3000 then "Distributed DCE Security Domain"
  else if clock_seq <? 0x4000 then "Enterprise DCE Security Domain"
  else "Custom DCE Security Domain".

(** [extract_posix_info]; the shifts and masks cannot raise, so the
    [except] branch is never taken. *)
Definition extract_posix_info (node_field : Z) : string :=
  let dce_domain := Z.land (Z.shiftr node_field 44) 0x0F in
  let uid := Z.land (Z.shiftr node_field 28) 0xFFFF in
  let gid := Z.land (Z.shiftr node_field 12) 0xFFFF in
  if (0 <? uid) || (0 <? gid) then
    "Domain: " +:+ format_d dce_domain +:+ ", UID: " +:+ format_d uid
    +:+ ", GID: " +:+ format_d gid
  else "No POSIX UID/GID information".

(** [get_version1_specific_fields]: the three entries computed from the
    UUID (the others are fixed texts). *)
Record version1_fields := {
  v1_timestamp_hex : string;
  v1_mac_address : string;
  v1_mac_address_formatted : string
}.

Definition get_version1_specific_fields (uuid_obj : uuid.UUID) : version1_fields :=
  let mac := Hex.format_0x 12 (uuid.node uuid_obj) in
  {| v1_timestamp_hex :=
       Hex.format_0x 4 (uuid.time_hi_version uuid_obj)
       +:+ Hex.format_0x 4 (uuid.time_mid uuid_obj)
       +:+ Hex.format_0x 8 (uuid.time_low uuid_obj);
     v1_mac_address := mac;
     v1_mac_address_formatted :=
       join ":" ((fun i => Text.slice i (i + 2) mac) <$> [0; 2; 4; 6; 8; 10]%nat) |}.

(** [get_possible_v2_specific_fields] and [get_version2_specific_fields]:
    the four entries computed from the UUID, the same in both. *)
Record version2_fields := {
  v2_timestamp_hex : string;
  v2_dce_domain : string;
  v2_posix_uid_gid : string;
  v2_security_identifier : string
}.

Definition get_possible_v2_specific_fields (uuid_obj : uuid.UUID) : version2_fields :=
  let clock_seq_hi := uuid.clock_seq_hi_variant uuid_obj in
  let clock_seq_low := uuid.clock_seq_low uuid_obj in
  let clock_seq := Z.lor (Z.shiftl (Z.land clock_seq_hi 0x3f) 8) clock_seq_low in
  let node_field := uuid.node uuid_obj in
  {| v2_timestamp_hex :=
       Hex.format_0x 4 (uuid.time_hi_version uuid_obj)
       +:+ Hex.format_0x 4 (uuid.time_mid uuid_obj)
       +:+ Hex.format_0x 8 (uuid.time_low uuid_obj);
     v2_dce_domain := get_dce_domain clock_seq;
     v2_posix_uid_gid := extract_posix_info node_field;
     v2_security_identifier := Hex.format_0x 4 clock_seq |}.

(** [generate_uuid_v2_like]. [now] is [datetime.now().timestamp()], the four
    integers are the draws of [random.randint], and [uuid1] is what the
    fallback [self.generate_uuid_v1()] returns. *)
Definition generate_uuid_v2_like (uuid1 : uuid.UUID) (now : float)
    (clock_seq_low dce_domain posix_uid posix_gid : Z) : uuid.UUID :=
  let attempt :=
    ticks ← trunc (mul now (of_int 10000000));
    let timestamp_ns := ticks + 122192928000000000 in
    let time_low := Z.land timestamp_ns 0xFFFFFFFF in
    let time_mid := Z.land (Z.shiftr timestamp_ns 32) 0xFFFF in
    let time_hi := Z.land (Z.shiftr timestamp_ns 48) 0x0FFF in
    let time_hi_version := Z.lor time_hi 0x1000 in
    let clock_seq_hi := 0x40 in
    let node_field :=
      Z.lor (Z.lor (Z.shiftl dce_domain 44) (Z.shiftl posix_uid 28))
            (Z.shiftl posix_gid 12) in
    let uuid_hex :=
      Hex.format_0x 8 time_low +:+ "-" +:+ Hex.format_0x 4 time_mid +:+ "-"
      +:+ Hex.format_0x 4 time_hi_version +:+ "-"
      +:+ Hex.format_0x 2 clock_seq_hi +:+ Hex.format_0x 2 clock_seq_low +:+ "-"
      +:+ Hex.format_0x 12 node_field in
    uuid.of_hex uuid_hex in
  match attempt with
  | Ok u => u
  | Raise _ => uuid1
  end.

End Analyzer.

(** ** Further request handlers *)

(** What a handler answers: a payload, or an error with its HTTP code. *)
Inductive reply (A : Type) :=
  | Reply (a : A)
  | Refused (code : Z) (msg : string).
Arguments Reply {A} a.
Arguments Refused {A} code msg.

(** [get_generation_status] *)
Definition get_generation_status (task_id : string) (w : world) : reply task :=
  match generation_tasks w !! task_id with
  | None => Refused 404 "Task not found"
  | Some task => Reply task
  end.

(** [download_generated_file]: the path of the file served and its lines.
    The download name, which [generate_unique_filename] makes up from the
    clock and an MD5 digest, is left out; it does not decide what is
    served. *)
Definition download_generated_file (task_id : string) (w : world)
    : reply (string * list string) :=
  match generation_tasks w !! task_id with
  | None => Refused 404 "Task not found"
  | Some task =>
      if negb (bool_decide (status task = "completed")) then Refused 400 "File not ready yet"
      else
        match file_path task with
        | Some (String c p) =>
            match files w !! String c p with
            | Some lines => Reply (String c p, lines)
            | None => Refused 404 "Generated file not found"
            end
        | _ => Refused 404 "Generated file not found"
        end
  end.

(** The [cleanup_task] route: the entry is removed, the file is kept. *)
Definition cleanup_task (task_id : string) (w : world) : world * response :=
  match generation_tasks w !! task_id with
  | None => (w, Json 404 [("error", "Task not found")])
  | Some _ =>
      (with_tasks (delete task_id) w,
       Json 200 [("message", "Task removed from memory (file preserved)")])
  end.

(** * Facts about text and hexadecimal digits *)

Section TextFacts.

Lemma app_nil_l_s (b : string) : "" +:+ b = b.
Proof. reflexivity. Qed.

Lemma app_cons_s x (a b : string) : String x a +:+ b = String x (a +:+ b).
Proof. reflexivity. Qed.

Lemma app_assoc_s (a b c : string) : (a +:+ b) +:+ c = a +:+ (b +:+ c).
Proof. induction a as [|x a IH]; [done | by rewrite !app_cons_s, IH]. Qed.

Lemma app_nil_r_s (a : string) : a +:+ "" = a.
Proof. induction a as [|x a IH]; [done | by rewrite app_cons_s, IH]. Qed.

Lemma length_app_s (a b : string) :
  String.length (a +:+ b) = (String.length a + String.length b)%nat.
Proof. induction a as [|x a IH]; [done | rewrite app_cons_s; simpl; by rewrite IH]. Qed.

Lemma drop_app_length (a b : string) : Text.drop (String.length a) (a +:+ b) = b.
Proof. induction a as [|x a IH]; [done | rewrite app_cons_s; simpl; done]. Qed.

Lemma take_app_length (a b : string) : Text.take (String.length a) (a +:+ b) = a.
Proof.
  induction a as [|x a IH]; [by destruct b | rewrite app_cons_s; simpl; by rewrite IH].
Qed.

Lemma drop_app_n (n : nat) (a b : string) :
  String.length a = n -> Text.drop n (a +:+ b) = b.
Proof. intros <-. apply drop_app_length. Qed.

Lemma take_app_n (n : nat) (a b : string) :
  String.length a = n -> Text.take n (a +:+ b) = a.
Proof. intros <-. apply take_app_length. Qed.

Lemma all_chars_app p (a b : string) :
  Text.all_chars p (a +:+ b) = Text.all_chars p a && Text.all_chars p b.
Proof.
  induction a as [|x a IH]; [done | rewrite app_cons_s; simpl; by rewrite IH, andb_assoc].
Qed.

Lemma remove_char_app c (a b : string) :
  Text.remove_char c (a +:+ b) = Text.remove_char c a +:+ Text.remove_char c b.
Proof.
  induction a as [|x a IH]; [done |]. rewrite app_cons_s. simpl.
  destruct (Ascii.eqb x c); by rewrite IH.
Qed.

Lemma length_repeat_char c n : String.length (Text.repeat_char c n) = n.
Proof. induction n; simpl; congruence. Qed.

Lemma repeat_char_snoc c n :
  Text.repeat_char c n +:+ String c "" = String c (Text.repeat_char c n).
Proof. induction n as [|n IH]; [done | simpl; by rewrite app_cons_s, IH]. Qed.

End TextFacts.

Section HexFacts.

Import Hex.

Lemma hex_val_hex_char d : 0 <= d < 16 -> hex_val (hex_char d) = Some d.
Proof.
  intros H.
  assert (d = 0 \/ d = 1 \/ d = 2 \/ d = 3 \/ d = 4 \/ d = 5 \/ d = 6 \/ d = 7 \/
          d = 8 \/ d = 9 \/ d = 10 \/ d = 11 \/ d = 12 \/ d = 13 \/ d = 14 \/ d = 15)
    as Hd by lia.
  repeat (destruct Hd as [-> | Hd]; [reflexivity |]). by subst.
Qed.

Lemma is_hex_hex_char d : 0 <= d < 16 -> is_hex (hex_char d) = true.
Proof. intros H. unfold is_hex. by rewrite hex_val_hex_char. Qed.

Lemma hex_val_range c d : hex_val c = Some d -> 0 <= d < 16.
Proof.
  destruct c as [[] [] [] [] [] [] [] []]; simpl; intros [= <-]; lia.
Qed.

Lemma remove_hyphen_hex (s : string) : all_hex s = true -> Text.remove_char "-" s = s.
Proof.
  induction s as [|c s IH]; simpl; [done |].
  intros [Hc Hs]%andb_true_iff. rewrite IH by done.
  destruct (Ascii.eqb_spec c "-") as [-> | _]; [discriminate | done].
Qed.

Lemma zfill_hex w (s : string) :
  all_hex s = true ->
  Text.zfill w s = Text.repeat_char "0" (w - String.length s) +:+ s.
Proof.
  destruct s as [|c s]; [done |]. simpl. intros [Hc _]%andb_true_iff.
  unfold Text.zfill.
  destruct c as [[] [] [] [] [] [] [] []]; try discriminate Hc; reflexivity.
Qed.

(** Fixed-width digits *)

Lemma hex_fixed_acc w : forall n acc, hex_fixed w n acc = hex_fixed w n "" +:+ acc.
Proof.
  induction w as [|w IH]; intros n acc; simpl; [done |].
  rewrite (IH _ (String _ acc)), (IH _ (String _ "")).
  by rewrite app_assoc_s.
Qed.

Lemma hex_fixed_split a b : forall n acc,
  hex_fixed (a + b) n acc = hex_fixed a (n / 16 ^ Z.of_nat b) (hex_fixed b n acc).
Proof.
  induction b as [|b IH]; intros n acc.
  - rewrite Nat.add_0_r. simpl. by rewrite Z.div_1_r.
  - rewrite Nat.add_succ_r. simpl hex_fixed. rewrite IH.
    f_equal. rewrite Nat2Z.inj_succ, Z.pow_succ_r by lia.
    rewrite Z.div_div by lia. done.
Qed.

Lemma hex_fixed_app a b n :
  hex_fixed (a + b) n "" = hex_fixed a (n / 16 ^ Z.of_nat b) "" +:+ hex_fixed b n "".
Proof. by rewrite hex_fixed_split, hex_fixed_acc. Qed.

Lemma length_hex_fixed w : forall n acc,
  String.length (hex_fixed w n acc) = (w + String.length acc)%nat.
Proof.
  induction w as [|w IH]; intros n acc; simpl; [done |].
  rewrite IH. simpl. lia.
Qed.

Lemma length_hexs w n : String.length (hex_fixed w n "") = w.
Proof. rewrite length_hex_fixed. simpl. lia. Qed.

Lemma all_hex_hex_fixed w : forall n acc,
  all_hex acc = true -> all_hex (hex_fixed w n acc) = true.
Proof.
  induction w as [|w IH]; intros n acc Hacc; simpl; [done |].
  apply IH. unfold all_hex. simpl. rewrite is_hex_hex_char; [done |].
  apply Z.mod_pos_bound. lia.
Qed.

Lemma all_hex_hexs w n : all_hex (hex_fixed w n "") = true.
Proof. by apply all_hex_hex_fixed. Qed.

Lemma hex_fixed_zero w : hex_fixed w 0 "" = Text.repeat_char "0" w.
Proof.
  induction w as [|w IH]; [done |].
  simpl hex_fixed. change (0 / 16) with 0. change (0 mod 16) with 0.
  rewrite hex_fixed_acc, IH. apply repeat_char_snoc.
Qed.

(** Padding a rendering that already has all the digits of [n] *)
Lemma hex_fixed_pad k j n :
  0 <= n < 16 ^ Z.of_nat k ->
  hex_fixed (j + k) n "" = Text.repeat_char "0" j +:+ hex_fixed k n "".
Proof.
  intros H. rewrite hex_fixed_app. rewrite Z.div_small by done.
  by rewrite hex_fixed_zero.
Qed.

Lemma hex_digits_S fuel n acc :
  hex_digits (S fuel) n acc =
  if n <? 16 then String (hex_char (n mod 16)) acc
  else hex_digits fuel (n / 16) (String (hex_char (n mod 16)) acc).
Proof. reflexivity. Qed.

(** The unpadded rendering is a fixed-width one of the right width. *)
Lemma hex_digits_fixed fuel : forall n acc,
  0 <= n < 2 ^ Z.of_nat (S fuel) ->
  exists k, (1 <= k)%nat /\ n < 16 ^ Z.of_nat k
            /\ (forall w, (1 <= w)%nat -> n < 16 ^ Z.of_nat w -> (k <= w)%nat)
            /\ hex_digits (S fuel) n acc = hex_fixed k n acc.
Proof.
  induction fuel as [|fuel IH]; intros n acc Hn.
  - exists 1%nat. change (2 ^ Z.of_nat 1) with 2 in Hn.
    simpl. destruct (Z.ltb_spec n 16); [|lia].
    repeat split; try lia.
  - rewrite hex_digits_S. destruct (Z.ltb_spec n 16) as [Hlt | Hge].
    + exists 1%nat. simpl. repeat split; lia.
    + assert (0 <= n / 16 < 2 ^ Z.of_nat (S fuel)) as Hq.
      { split; [apply Z.div_pos; lia |].
        apply Z.div_lt_upper_bound; [lia |].
        rewrite (Nat2Z.inj_succ (S fuel)), Z.pow_succ_r in Hn by lia. lia. }
      destruct (IH (n / 16) (String (hex_char (n mod 16)) acc) Hq)
        as (k & Hk1 & Hk2 & Hk3 & Hk4).
      exists (S k). repeat split.
      * lia.
      * rewrite Nat2Z.inj_succ, Z.pow_succ_r by lia.
        pose proof (Z.div_mod n 16 ltac:(lia)).
        pose proof (Z.mod_pos_bound n 16 ltac:(lia)). lia.
      * intros w Hw1 Hw2. destruct w as [|w]; [lia |].
        destruct w as [|w]; [simpl in Hw2; lia |].
        assert (k <= S w)%nat; [|lia].
        apply Hk3; [lia |].
        apply Z.div_lt_upper_bound; [lia |].
        rewrite (Nat2Z.inj_succ (S w)), Z.pow_succ_r in Hw2 by lia. lia.
      * rewrite Hk4. reflexivity.
Qed.

Lemma format_0x_fixed w n :
  (1 <= w)%nat -> 0 <= n < 16 ^ Z.of_nat w -> format_0x w n = hex_fixed w n "".
Proof.
  intros Hw Hn. unfold format_0x, format_x.
  destruct (Z.ltb_spec n 0); [lia |]. unfold hex_of_nonneg.
  destruct (hex_digits_fixed (Z.to_nat (Z.log2 n)) n "") as (k & Hk1 & Hk2 & Hk3 & ->).
  { split; [lia |]. rewrite Nat2Z.inj_succ, Z2Nat.id by apply Z.log2_nonneg.
    destruct (Z.eq_dec n 0) as [-> | Hne]; [done |].
    apply Z.log2_spec. lia. }
  rewrite zfill_hex by apply all_hex_hexs.
  rewrite length_hexs. specialize (Hk3 w Hw (proj2 Hn)).
  rewrite <- hex_fixed_pad by lia. f_equal. lia.
Qed.

(** Values of digit strings *)

Lemma hexval_from_app (a b : string) : forall acc,
  hexval_from acc (a +:+ b) = hexval_from (hexval_from acc a) b.
Proof. induction a as [|c a IH]; intros acc; simpl; [done | by rewrite IH]. Qed.

Lemma hexval_from_shift (s : string) : forall acc,
  hexval_from acc s = acc * 16 ^ Z.of_nat (String.length s) + hexval s.
Proof.
  unfold hexval. induction s as [|c s IH]; intros acc.
  - simpl. lia.
  - change (hexval_from acc (String c s))
      with (hexval_from (16 * acc + default 0 (hex_val c)) s).
    change (hexval_from 0 (String c s))
      with (hexval_from (16 * 0 + default 0 (hex_val c)) s).
    change (String.length (String c s)) with (S (String.length s)).
    rewrite IH, (IH (16 * 0 + _)).
    rewrite Nat2Z.inj_succ, Z.pow_succ_r by lia. lia.
Qed.

Lemma hexval_app (a b : string) :
  hexval (a +:+ b) = hexval a * 16 ^ Z.of_nat (String.length b) + hexval b.
Proof. unfold hexval at 1. rewrite hexval_from_app, hexval_from_shift. done. Qed.

Lemma hexval_bounds (s : string) : 0 <= hexval s < 16 ^ Z.of_nat (String.length s).
Proof.
  induction s as [|c s IH]; [simpl; unfold hexval; simpl; lia |].
  change (String c s) with (String c "" +:+ s). rewrite hexval_app.
  change (String c "" +:+ s) with (String c s).
  change (String.length (String c s)) with (S (String.length s)).
  rewrite Nat2Z.inj_succ, Z.pow_succ_r by lia.
  assert (0 <= hexval (String c "") < 16) as Hc.
  { unfold hexval. simpl. destruct (hex_val c) as [d|] eqn:E; simpl.
    - apply hex_val_range in E. lia.
    - lia. }
  nia.
Qed.

Lemma int16_from_hexval (s : string) : forall acc,
  all_hex s = true -> int16_from acc s = Some (hexval_from acc s).
Proof.
  induction s as [|c s IH]; intros acc; simpl; [done |].
  intros [Hc Hs]%andb_true_iff. unfold is_hex in Hc.
  destruct (hex_val c) as [d|]; [|done]. simpl. by apply IH.
Qed.

Lemma int16_hexval (s : string) :
  all_hex s = true -> s <> "" -> int16 s = Some (hexval s).
Proof.
  intros Hs Hne. destruct s as [|c s]; [done |].
  unfold int16. by apply int16_from_hexval.
Qed.

Lemma hexval_hexs w : forall n, hexval (hex_fixed w n "") = n mod 16 ^ Z.of_nat w.
Proof.
  induction w as [|w IH]; intros n.
  - simpl. unfold hexval. simpl. by rewrite Z.mod_1_r.
  - simpl hex_fixed. rewrite hex_fixed_acc, hexval_app, IH.
    change (String.length (String (hex_char (n mod 16)) "")) with 1%nat.
    unfold hexval at 1.
    change (hexval_from 0 (String (hex_char (n mod 16)) ""))
      with (16 * 0 + default 0 (hex_val (hex_char (n mod 16)))).
    rewrite hex_val_hex_char by (apply Z.mod_pos_bound; lia). simpl default.
    change (16 ^ Z.of_nat 1) with 16.
    rewrite (Nat2Z.inj_succ w), Z.pow_succ_r by lia.
    rewrite (Z.rem_mul_r n 16 (16 ^ Z.of_nat w)) by lia. lia.
Qed.

End HexFacts.

(** * Facts about UUID values *)

Section UuidFacts.

Import Hex.

Lemma eat_hex_spec n : forall s r,
  eat_hex n s = Some r ->
  exists g, s = g +:+ r /\ String.length g = n /\ all_hex g = true.
Proof.
  induction n as [|n IH]; intros s r H.
  - injection H as ->. by exists "".
  - destruct s as [|c s]; [done |]. simpl in H.
    destruct (is_hex c) eqn:Hc; [|done].
    destruct (IH _ _ H) as (g & -> & Hlen & Hg).
    exists (String c g). repeat split.
    + simpl. by rewrite Hlen.
    + unfold all_hex in *. simpl. by rewrite Hc, Hg.
Qed.

Lemma eat_char_spec c s r : eat_char c s = Some r -> s = String c r.
Proof.
  destruct s as [|a s]; [done |]. simpl.
  destruct (Ascii.eqb_spec a c) as [-> | _]; [|done]. by intros [= ->].
Qed.

(** The shape [UUID_PATTERN] accepts. *)
Lemma UUID_PATTERN_shape s :
  UUID_PATTERN s = true ->
  exists g1 g2 g3 g4 g5,
    s = g1 +:+ "-" +:+ g2 +:+ "-" +:+ g3 +:+ "-" +:+ g4 +:+ "-" +:+ g5
    /\ String.length g1 = 8%nat /\ String.length g2 = 4%nat
    /\ String.length g3 = 4%nat /\ String.length g4 = 4%nat
    /\ String.length g5 = 12%nat
    /\ all_hex g1 = true /\ all_hex g2 = true /\ all_hex g3 = true
    /\ all_hex g4 = true /\ all_hex g5 = true.
Proof.
  unfold UUID_PATTERN. intros H.
  destruct (eat_hex 8 s) as [s1|] eqn:E1; cbn [mbind option_bind] in H; [|done].
  destruct (eat_char "-" s1) as [s2|] eqn:E2; cbn [mbind option_bind] in H; [|done].
  destruct (eat_hex 4 s2) as [s3|] eqn:E3; cbn [mbind option_bind] in H; [|done].
  destruct (eat_char "-" s3) as [s4|] eqn:E4; cbn [mbind option_bind] in H; [|done].
  destruct (eat_hex 4 s4) as [s5|] eqn:E5; cbn [mbind option_bind] in H; [|done].
  destruct (eat_char "-" s5) as [s6|] eqn:E6; cbn [mbind option_bind] in H; [|done].
  destruct (eat_hex 4 s6) as [s7|] eqn:E7; cbn [mbind option_bind] in H; [|done].
  destruct (eat_char "-" s7) as [s8|] eqn:E8; cbn [mbind option_bind] in H; [|done].
  destruct (eat_hex 12 s8) as [s9|] eqn:E9; [|done].
  destruct s9; [|done].
  apply eat_hex_spec in E1 as (g1 & -> & ? & ?).
  apply eat_char_spec in E2 as ->.
  apply eat_hex_spec in E3 as (g2 & -> & ? & ?).
  apply eat_char_spec in E4 as ->.
  apply eat_hex_spec in E5 as (g3 & -> & ? & ?).
  apply eat_char_spec in E6 as ->.
  apply eat_hex_spec in E7 as (g4 & -> & ? & ?).
  apply eat_char_spec in E8 as ->.
  apply eat_hex_spec in E9 as (g5 & -> & ? & ?).
  exists g1, g2, g3, g4, g5. rewrite app_nil_r_s. by repeat split.
Qed.

(** Parsing five groups of hex digits separated by hyphens. *)
Lemma of_hex_groups g1 g2 g3 g4 g5 :
  all_hex g1 = true -> all_hex g2 = true -> all_hex g3 = true ->
  all_hex g4 = true -> all_hex g5 = true ->
  (String.length g1 + String.length g2 + String.length g3
   + String.length g4 + String.length g5 = 32)%nat ->
  uuid.of_hex (g1 +:+ "-" +:+ g2 +:+ "-" +:+ g3 +:+ "-" +:+ g4 +:+ "-" +:+ g5)
  = Ok (uuid.mkUUID (hexval (g1 +:+ g2 +:+ g3 +:+ g4 +:+ g5))).
Proof.
  intros H1 H2 H3 H4 H5 Hlen. unfold uuid.of_hex.
  assert (Text.remove_char "-"
            (g1 +:+ "-" +:+ g2 +:+ "-" +:+ g3 +:+ "-" +:+ g4 +:+ "-" +:+ g5)
          = g1 +:+ g2 +:+ g3 +:+ g4 +:+ g5) as ->.
  { rewrite !remove_char_app.
    rewrite (remove_hyphen_hex g1), (remove_hyphen_hex g2), (remove_hyphen_hex g3),
      (remove_hyphen_hex g4), (remove_hyphen_hex g5) by done.
    reflexivity. }
  rewrite !length_app_s.
  replace (_ =? 32)%nat with true by (symmetry; apply Nat.eqb_eq; lia).
  rewrite int16_hexval.
  - reflexivity.
  - unfold all_hex in *. rewrite !all_chars_app. by rewrite H1, H2, H3, H4, H5.
  - intros E. apply (f_equal String.length) in E. rewrite !length_app_s in E.
    simpl in E. lia.
Qed.

Lemma validate_uuid_pattern s : validate_uuid s = true -> UUID_PATTERN s = true.
Proof.
  unfold validate_uuid. destruct s; [done |].
  by destruct (UUID_PATTERN _).
Qed.

(** A validated string parses, to a 128-bit value. *)
Lemma of_hex_valid s :
  UUID_PATTERN s = true ->
  exists u, uuid.of_hex s = Ok u /\ 0 <= uuid.int u < 2 ^ 128.
Proof.
  intros (g1 & g2 & g3 & g4 & g5 & -> & L1 & L2 & L3 & L4 & L5
          & H1 & H2 & H3 & H4 & H5)%UUID_PATTERN_shape.
  eexists. split.
  - apply of_hex_groups; try done. lia.
  - simpl. pose proof (hexval_bounds (g1 +:+ g2 +:+ g3 +:+ g4 +:+ g5)) as Hb.
    rewrite !length_app_s, L1, L2, L3, L4, L5 in Hb.
    change (16 ^ Z.of_nat (8 + (4 + (4 + (4 + 12))))) with (2 ^ 128) in Hb. done.
Qed.

(** The fields, arithmetically. *)

Lemma land_ones_mod a n : 0 <= n -> Z.land a (Z.ones n) = a mod 2 ^ n.
Proof. apply Z.land_ones. Qed.

Lemma time_low_div u : uuid.time_low u = uuid.int u / 2 ^ 96.
Proof. unfold uuid.time_low. by rewrite Z.shiftr_div_pow2. Qed.

Lemma time_mid_div u : uuid.time_mid u = (uuid.int u / 2 ^ 80) mod 2 ^ 16.
Proof.
  unfold uuid.time_mid. change 0xffff with (Z.ones 16).
  by rewrite Z.land_ones, Z.shiftr_div_pow2.
Qed.

Lemma time_hi_version_div u : uuid.time_hi_version u = (uuid.int u / 2 ^ 64) mod 2 ^ 16.
Proof.
  unfold uuid.time_hi_version. change 0xffff with (Z.ones 16).
  by rewrite Z.land_ones, Z.shiftr_div_pow2.
Qed.

Lemma clock_seq_hi_variant_div u :
  uuid.clock_seq_hi_variant u = (uuid.int u / 2 ^ 56) mod 2 ^ 8.
Proof.
  unfold uuid.clock_seq_hi_variant. change 0xff with (Z.ones 8).
  by rewrite Z.land_ones, Z.shiftr_div_pow2.
Qed.

Lemma clock_seq_low_div u : uuid.clock_seq_low u = (uuid.int u / 2 ^ 48) mod 2 ^ 8.
Proof.
  unfold uuid.clock_seq_low. change 0xff with (Z.ones 8).
  by rewrite Z.land_ones, Z.shiftr_div_pow2.
Qed.

Lemma node_div u : uuid.node u = uuid.int u mod 2 ^ 48.
Proof.
  unfold uuid.node. change 0xffffffffffff with (Z.ones 48).
  by rewrite Z.land_ones.
Qed.

(** Joining a shifted value with a smaller one is an addition. *)
Lemma lor_shiftl_add a b n :
  0 <= n -> 0 <= b < 2 ^ n -> Z.lor (Z.shiftl a n) b = a * 2 ^ n + b.
Proof.
  intros Hn Hb. rewrite <- Z.add_lor_land, Z.shiftl_mul_pow2 by done.
  assert (Z.land (a * 2 ^ n) b = 0) as ->; [|lia].
  destruct (Z.eq_dec b 0) as [-> | Hb0]; [apply Z.land_0_r |].
  apply Z.bits_inj'. intros i Hi. rewrite Z.land_spec, Z.bits_0.
  destruct (Z.lt_ge_cases i n) as [Hlt | Hge].
  - rewrite Z.mul_pow2_bits_low by done. done.
  - rewrite (Z.bits_above_log2 b i); [apply andb_false_r | lia |].
    apply Z.log2_lt_pow2; [lia |].
    apply Z.lt_le_trans with (2 ^ n); [lia |].
    apply Z.pow_le_mono_r; lia.
Qed.

End UuidFacts.

(** * The 60-bit timestamp of a UUID *)

Section TimestampFacts.

Import Hex UUIDv1Generator.

Lemma fields_range u :
  0 <= uuid.int u < 2 ^ 128 ->
  0 <= uuid.time_low u < 2 ^ 32 /\ 0 <= uuid.time_mid u < 2 ^ 16
  /\ 0 <= uuid.time_hi_version u < 2 ^ 16
  /\ 0 <= uuid.clock_seq_hi_variant u < 2 ^ 8
  /\ 0 <= uuid.clock_seq_low u < 2 ^ 8 /\ 0 <= uuid.node u < 2 ^ 48.
Proof.
  intros H. rewrite time_low_div, time_mid_div, time_hi_version_div,
    clock_seq_hi_variant_div, clock_seq_low_div, node_div.
  repeat split; try (apply Z.mod_pos_bound; lia).
  - apply Z.div_pos; lia.
  - apply Z.div_lt_upper_bound; lia.
Qed.

(** The decoder's bit-level join, as arithmetic. *)
Lemma uuid_time_arith u :
  0 <= uuid.int u < 2 ^ 128 ->
  uuid_time u
  = (uuid.time_hi_version u mod 2 ^ 12) * 2 ^ 48
    + uuid.time_mid u * 2 ^ 32 + uuid.time_low u.
Proof.
  intros H. destruct (fields_range u H) as (Hl & Hm & Hh & _).
  unfold uuid_time. change 0x0fff with (Z.ones 12). rewrite Z.land_ones by lia.
  rewrite (lor_shiftl_add _ (Z.shiftl (uuid.time_mid u) 32) 48);
    [| lia | rewrite Z.shiftl_mul_pow2 by lia; lia].
  rewrite (Z.shiftl_mul_pow2 (uuid.time_mid u)) by lia.
  replace (uuid.time_hi_version u mod 2 ^ 12 * 2 ^ 48 + uuid.time_mid u * 2 ^ 32)
    with (Z.shiftl (uuid.time_hi_version u mod 2 ^ 12 * 2 ^ 16 + uuid.time_mid u) 32)
    by (rewrite Z.shiftl_mul_pow2; lia).
  rewrite lor_shiftl_add by lia. rewrite Z.shiftl_mul_pow2 by lia. lia.
Qed.

Lemma uuid_time_range u : 0 <= uuid.int u < 2 ^ 128 -> 0 <= uuid_time u < 2 ^ 60.
Proof.
  intros H. rewrite uuid_time_arith by done.
  destruct (fields_range u H) as (Hl & Hm & Hh & _).
  pose proof (Z.mod_pos_bound (uuid.time_hi_version u) (2 ^ 12) ltac:(lia)). lia.
Qed.

Lemma drop1_hexs4 n : Text.drop 1 (hex_fixed 4 n "") = hex_fixed 3 n "".
Proof.
  rewrite (hex_fixed_app 1 3). apply drop_app_n, length_hexs.
Qed.

Lemma take1_hexs4 n : Text.take 1 (hex_fixed 4 n "") = hex_fixed 1 (n / 16 ^ 3) "".
Proof.
  rewrite (hex_fixed_app 1 3). apply take_app_n, length_hexs.
Qed.

(** The hex-string extraction computes the same 60-bit integer as the
    bit-level join of the three time fields. *)
Lemma timestamp_hex_uuid_time u :
  0 <= uuid.int u < 2 ^ 128 -> timestamp_hex u = Ok (uuid_time u).
Proof.
  intros H. destruct (fields_range u H) as (Hl & Hm & Hh & _).
  unfold timestamp_hex.
  rewrite !format_0x_fixed by (first [lia | simpl; lia]).
  rewrite drop1_hexs4, int16_hexval.
  - unfold of_option. f_equal. rewrite uuid_time_arith by done.
    rewrite !hexval_app, !length_app_s, !length_hexs, !hexval_hexs.
    change (16 ^ Z.of_nat (4 + 8)) with (2 ^ 48).
    change (16 ^ Z.of_nat 3) with (2 ^ 12). change (16 ^ Z.of_nat 4) with (2 ^ 16).
    change (16 ^ Z.of_nat 8) with (2 ^ 32).
    rewrite (Z.mod_small (uuid.time_mid u)), (Z.mod_small (uuid.time_low u)) by lia.
    lia.
  - unfold all_hex. rewrite !all_chars_app. by rewrite !all_hex_hexs.
  - intros E. apply (f_equal String.length) in E.
    rewrite !length_app_s, !length_hexs in E. simpl in E. lia.
Qed.

End TimestampFacts.

(** * The encoder *)

Section EncoderFacts.

Import Hex FastUUIDv1Generator.

Lemma eat_hex_app g : forall r,
  all_hex g = true -> eat_hex (String.length g) (g +:+ r) = Some r.
Proof.
  induction g as [|c g IH]; intros r H; [done |].
  change (is_hex c && all_hex g = true) in H. apply andb_true_iff in H as [Hc Hg].
  rewrite app_cons_s. change (String.length (String c g)) with (S (String.length g)).
  cbn [eat_hex]. rewrite Hc. by apply IH.
Qed.

Lemma eat_hex_app_n n g r :
  String.length g = n -> all_hex g = true -> eat_hex n (g +:+ r) = Some r.
Proof. intros <-. apply eat_hex_app. Qed.

Lemma eat_char_app c r : eat_char c (String c "" +:+ r) = Some r.
Proof. rewrite app_cons_s, app_nil_l_s. cbn [eat_char]. by rewrite Ascii.eqb_refl. Qed.

Lemma UUID_PATTERN_groups g1 g2 g3 g4 g5 :
  String.length g1 = 8%nat -> String.length g2 = 4%nat ->
  String.length g3 = 4%nat -> String.length g4 = 4%nat ->
  String.length g5 = 12%nat ->
  all_hex g1 = true -> all_hex g2 = true -> all_hex g3 = true ->
  all_hex g4 = true -> all_hex g5 = true ->
  UUID_PATTERN (g1 +:+ "-" +:+ g2 +:+ "-" +:+ g3 +:+ "-" +:+ g4 +:+ "-" +:+ g5) = true.
Proof.
  intros L1 L2 L3 L4 L5 H1 H2 H3 H4 H5. unfold UUID_PATTERN.
  rewrite (eat_hex_app_n 8 g1) by done. cbn [mbind option_bind].
  rewrite eat_char_app. cbn [mbind option_bind].
  rewrite (eat_hex_app_n 4 g2) by done. cbn [mbind option_bind].
  rewrite eat_char_app. cbn [mbind option_bind].
  rewrite (eat_hex_app_n 4 g3) by done. cbn [mbind option_bind].
  rewrite eat_char_app. cbn [mbind option_bind].
  rewrite (eat_hex_app_n 4 g4) by done. cbn [mbind option_bind].
  rewrite eat_char_app. cbn [mbind option_bind].
  rewrite <- (app_nil_r_s g5) at 1.
  rewrite (eat_hex_app_n 12 g5) by done. reflexivity.
Qed.

Lemma split_on_hex g :
  all_hex g = true -> Text.split_on "-" g = [g].
Proof.
  induction g as [|c g IH]; intros H; [done |].
  change (is_hex c && all_hex g = true) in H. apply andb_true_iff in H as [Hc Hg].
  cbn [Text.split_on].
  destruct (Ascii.eqb_spec c "-") as [-> | _]; [discriminate |].
  by rewrite IH.
Qed.

Lemma split_on_hex_app g : forall r,
  all_hex g = true ->
  Text.split_on "-" (g +:+ "-" +:+ r) = g :: Text.split_on "-" r.
Proof.
  induction g as [|c g IH]; intros r H; [done |].
  change (is_hex c && all_hex g = true) in H. apply andb_true_iff in H as [Hc Hg].
  rewrite app_cons_s. cbn [Text.split_on].
  destruct (Ascii.eqb_spec c "-") as [-> | _]; [discriminate |].
  by rewrite IH.
Qed.

Lemma hexs15_split t :
  hex_fixed 15 t ""
  = hex_fixed 3 (t / 2 ^ 48) "" +:+ hex_fixed 4 (t / 2 ^ 32) "" +:+ hex_fixed 8 t "".
Proof.
  rewrite (hex_fixed_app 7 8), (hex_fixed_app 3 4), app_assoc_s.
  rewrite Z.div_div by lia. reflexivity.
Qed.

Lemma slices_3_4 (a b c : string) :
  String.length a = 3%nat -> String.length b = 4%nat ->
  Text.slice 0 3 (a +:+ b +:+ c) = a
  /\ Text.slice 3 7 (a +:+ b +:+ c) = b
  /\ Text.drop 7 (a +:+ b +:+ c) = c.
Proof.
  intros La Lb. unfold Text.slice. repeat split.
  - change (Text.drop 0 ?s) with s. by apply take_app_n.
  - rewrite (drop_app_n 3) by done. by apply take_app_n.
  - rewrite <- app_assoc_s. apply drop_app_n. rewrite length_app_s. lia.
Qed.

(** What the encoder renders for a 60-bit timestamp. *)
Lemma generate_uuid_v1_custom_eq t clock_seq mac_address save_char :
  0 <= t < 2 ^ 60 ->
  generate_uuid_v1_custom t clock_seq mac_address save_char
  = Some (hex_fixed 8 t "" +:+ "-" +:+ hex_fixed 4 (t / 2 ^ 32) "" +:+ "-"
          +:+ save_char +:+ hex_fixed 3 (t / 2 ^ 48) "" +:+ "-"
          +:+ clock_seq +:+ "-" +:+ mac_address).
Proof.
  intros H. unfold generate_uuid_v1_custom.
  change (Text.zfill 15 (format_x t)) with (format_0x 15 t).
  rewrite format_0x_fixed by (first [lia | simpl; lia]).
  rewrite hexs15_split.
  destruct (slices_3_4 (hex_fixed 3 (t / 2 ^ 48) "") (hex_fixed 4 (t / 2 ^ 32) "")
              (hex_fixed 8 t "")) as (-> & -> & ->); try apply length_hexs.
  reflexivity.
Qed.

End EncoderFacts.

(** * Decoding what the encoder renders *)

Section DecodeFacts.

Import Hex FastUUIDv1Generator UUIDv1Generator.

Lemma div_mod_parts q r d :
  0 <= r < d -> (q * d + r) / d = q /\ (q * d + r) mod d = r.
Proof.
  intros H. split.
  - rewrite Z.div_add_l by lia. rewrite Z.div_small by lia. lia.
  - rewrite Z.add_comm, Z.mod_add by lia. apply Z.mod_small. lia.
Qed.

Lemma div_parts q r d : 0 <= r < d -> (q * d + r) / d = q.
Proof. apply div_mod_parts. Qed.

Lemma mod_parts q r d : 0 <= r < d -> (q * d + r) mod d = r.
Proof. apply div_mod_parts. Qed.

(** The fields of a value given by its six parts. *)
Lemma fields_of_parts u L M TH C N :
  0 <= L < 2 ^ 32 -> 0 <= M < 2 ^ 16 -> 0 <= TH < 2 ^ 16 ->
  0 <= C < 2 ^ 16 -> 0 <= N < 2 ^ 48 ->
  uuid.int u = (((L * 2 ^ 16 + M) * 2 ^ 16 + TH) * 2 ^ 16 + C) * 2 ^ 48 + N ->
  0 <= uuid.int u < 2 ^ 128
  /\ uuid.time_low u = L /\ uuid.time_mid u = M /\ uuid.time_hi_version u = TH
  /\ uuid.clock_seq_hi_variant u = C / 2 ^ 8
  /\ uuid.clock_seq_low u = C mod 2 ^ 8
  /\ uuid.node u = N.
Proof.
  intros HL HM HTH HC HN E.
  rewrite time_low_div, time_mid_div, time_hi_version_div,
    clock_seq_hi_variant_div, clock_seq_low_div, node_div, E.
  split; [lia |].
  assert (0 <= C / 2 ^ 8 < 2 ^ 8) as HCh
    by (split; [apply Z.div_pos; lia | apply Z.div_lt_upper_bound; lia]).
  pose proof (Z.mod_pos_bound C (2 ^ 8) ltac:(lia)) as HCl.
  pose proof (Z.div_mod C (2 ^ 8) ltac:(lia)) as EC.
  repeat split.
  - replace ((((L * 2 ^ 16 + M) * 2 ^ 16 + TH) * 2 ^ 16 + C) * 2 ^ 48 + N)
      with (L * 2 ^ 96 + (((M * 2 ^ 16 + TH) * 2 ^ 16 + C) * 2 ^ 48 + N)) by lia.
    apply div_parts. lia.
  - replace ((((L * 2 ^ 16 + M) * 2 ^ 16 + TH) * 2 ^ 16 + C) * 2 ^ 48 + N)
      with ((L * 2 ^ 16 + M) * 2 ^ 80 + ((TH * 2 ^ 16 + C) * 2 ^ 48 + N)) by lia.
    rewrite div_parts by lia. apply mod_parts. lia.
  - replace ((((L * 2 ^ 16 + M) * 2 ^ 16 + TH) * 2 ^ 16 + C) * 2 ^ 48 + N)
      with (((L * 2 ^ 16 + M) * 2 ^ 16 + TH) * 2 ^ 64 + (C * 2 ^ 48 + N)) by lia.
    rewrite div_parts by lia. apply mod_parts. lia.
  - replace ((((L * 2 ^ 16 + M) * 2 ^ 16 + TH) * 2 ^ 16 + C) * 2 ^ 48 + N)
      with (((((L * 2 ^ 16 + M) * 2 ^ 16 + TH) * 2 ^ 8) + C / 2 ^ 8) * 2 ^ 56
            + ((C mod 2 ^ 8) * 2 ^ 48 + N)) by lia.
    rewrite div_parts by lia. apply mod_parts. lia.
  - rewrite div_parts by lia.
    replace ((((L * 2 ^ 16 + M) * 2 ^ 16 + TH) * 2 ^ 16 + C))
      with (((((L * 2 ^ 16 + M) * 2 ^ 16 + TH) * 2 ^ 8) + C / 2 ^ 8) * 2 ^ 8
            + C mod 2 ^ 8) by lia.
    apply mod_parts. lia.
  - apply mod_parts. lia.
Qed.

Lemma timestamp_parts t :
  0 <= t < 2 ^ 60 ->
  0 <= t mod 2 ^ 32 < 2 ^ 32 /\ 0 <= (t / 2 ^ 32) mod 2 ^ 16 < 2 ^ 16
  /\ 0 <= t / 2 ^ 48 < 2 ^ 12
  /\ t = (t / 2 ^ 48) * 2 ^ 48 + ((t / 2 ^ 32) mod 2 ^ 16) * 2 ^ 32 + t mod 2 ^ 32.
Proof.
  intros H.
  pose proof (Z.mod_pos_bound t (2 ^ 32) ltac:(lia)).
  pose proof (Z.mod_pos_bound (t / 2 ^ 32) (2 ^ 16) ltac:(lia)).
  pose proof (Z.div_mod t (2 ^ 32) ltac:(lia)).
  pose proof (Z.div_mod (t / 2 ^ 32) (2 ^ 16) ltac:(lia)) as E.
  rewrite Z.div_div in E by lia. change (2 ^ 32 * 2 ^ 16) with (2 ^ 48) in E.
  assert (0 <= t / 2 ^ 48 < 2 ^ 12)
    by (split; [apply Z.div_pos; lia | apply Z.div_lt_upper_bound; lia]).
  lia.
Qed.

(** A rendered line parses back, field by field. *)
Lemma decode_generated t clock_seq mac_address save_char :
  0 <= t < 2 ^ 60 ->
  String.length clock_seq = 4%nat -> all_hex clock_seq = true ->
  String.length mac_address = 12%nat -> all_hex mac_address = true ->
  String.length save_char = 1%nat -> all_hex save_char = true ->
  exists line u,
    generate_uuid_v1_custom t clock_seq mac_address save_char = Some line
    /\ line <> ""
    /\ UUID_PATTERN line = true
    /\ uuid.of_hex line = Ok u
    /\ 0 <= uuid.int u < 2 ^ 128
    /\ uuid.time_low u = t mod 2 ^ 32
    /\ uuid.time_mid u = (t / 2 ^ 32) mod 2 ^ 16
    /\ uuid.time_hi_version u = hexval save_char * 2 ^ 12 + t / 2 ^ 48
    /\ uuid.clock_seq_hi_variant u = hexval clock_seq / 2 ^ 8
    /\ uuid.clock_seq_low u = hexval clock_seq mod 2 ^ 8
    /\ uuid.node u = hexval mac_address
    /\ timestamp_hex u = Ok t.
Proof.
  intros Ht Lc Hc Lm Hm Ls Hs.
  destruct (timestamp_parts t Ht) as (HL & HM & HH & Et).
  pose proof (hexval_bounds clock_seq) as Bc. rewrite Lc in Bc.
  pose proof (hexval_bounds mac_address) as Bm. rewrite Lm in Bm.
  pose proof (hexval_bounds save_char) as Bs. rewrite Ls in Bs.
  change (16 ^ Z.of_nat 4) with (2 ^ 16) in Bc.
  change (16 ^ Z.of_nat 12) with (2 ^ 48) in Bm.
  change (16 ^ Z.of_nat 1) with (2 ^ 4) in Bs.
  set (g3 := save_char +:+ hex_fixed 3 (t / 2 ^ 48) "").
  assert (String.length g3 = 4%nat) as L3
    by (unfold g3; rewrite length_app_s, Ls, length_hexs; reflexivity).
  assert (all_hex g3 = true) as H3.
  { unfold g3, all_hex in *. by rewrite all_chars_app, Hs, all_hex_hexs. }
  eexists _, (uuid.mkUUID _). split; [by apply generate_uuid_v1_custom_eq |].
  split.
  { intros E. apply (f_equal String.length) in E. rewrite !length_app_s in E.
    rewrite length_hexs in E. simpl in E. lia. }
  assert (forall r, save_char +:+ hex_fixed 3 (t / 2 ^ 48) "" +:+ r = g3 +:+ r) as Eg
    by (intros r; unfold g3; by rewrite app_assoc_s).
  rewrite Eg. split.
  { apply UUID_PATTERN_groups; try done; try apply length_hexs; apply all_hex_hexs. }
  split.
  { apply of_hex_groups; try done; try apply all_hex_hexs.
    rewrite !length_hexs, L3, Lc, Lm. reflexivity. }
  set (u := uuid.mkUUID _).
  assert (uuid.int u
          = ((((t mod 2 ^ 32) * 2 ^ 16 + (t / 2 ^ 32) mod 2 ^ 16) * 2 ^ 16
              + (hexval save_char * 2 ^ 12 + t / 2 ^ 48)) * 2 ^ 16
             + hexval clock_seq) * 2 ^ 48 + hexval mac_address) as Eu.
  { unfold u, g3. cbn [uuid.int].
    rewrite !hexval_app, !length_app_s, !length_hexs, !hexval_hexs, Ls, Lc, Lm.
    change (16 ^ Z.of_nat 3) with (2 ^ 12). change (16 ^ Z.of_nat 4) with (2 ^ 16).
    change (16 ^ Z.of_nat 8) with (2 ^ 32). change (16 ^ Z.of_nat 12) with (2 ^ 48).
    change (16 ^ Z.of_nat (4 + 12)) with (2 ^ 64).
    change (16 ^ Z.of_nat (1 + 3 + (4 + 12))) with (2 ^ 80).
    change (16 ^ Z.of_nat (4 + (1 + 3 + (4 + 12)))) with (2 ^ 96).
    rewrite (Z.mod_small (t / 2 ^ 48)) by lia. ring. }
  assert (0 <= hexval save_char * 2 ^ 12 + t / 2 ^ 48 < 2 ^ 16) as HTH by lia.
  destruct (fields_of_parts u _ _ _ _ _ HL HM HTH Bc Bm Eu)
    as (Hr & F1 & F2 & F3 & F4 & F5 & F6).
  repeat (split; [done |]).
  rewrite timestamp_hex_uuid_time by done. f_equal.
  rewrite uuid_time_arith, F1, F2, F3 by done.
  replace ((hexval save_char * 2 ^ 12 + t / 2 ^ 48) mod 2 ^ 12) with (t / 2 ^ 48).
  - lia.
  - rewrite Z.add_comm, Z.mod_add by lia. symmetry. apply Z.mod_small. lia.
Qed.

End DecodeFacts.

(** * The encoder round trip and the range size *)

Section RangeFacts.

Import Hex FastUUIDv1Generator UUIDv1Generator.

(** C10. For a 60-bit timestamp, a 4-digit clock sequence, a 12-digit node
    and a one-digit version marker, [generate_uuid_v1_custom] returns a
    string of the 8-4-4-4-12 form whose third group starts with the marker;
    the third group without its first character, then the second and the
    first group, read as one hexadecimal number, give the timestamp back. *)
Theorem generate_uuid_v1_custom_roundtrip
    (t : Z) (clock_seq mac_address save_char : string) :
  0 <= t < 2 ^ 60 ->
  String.length clock_seq = 4%nat -> all_hex clock_seq = true ->
  String.length mac_address = 12%nat -> all_hex mac_address = true ->
  String.length save_char = 1%nat -> all_hex save_char = true ->
  exists line g1 g2 g3 g4 g5,
    generate_uuid_v1_custom t clock_seq mac_address save_char = Some line
    /\ UUID_PATTERN line = true
    /\ Text.split_on "-" line = [g1; g2; g3; g4; g5]
    /\ Text.take 1 g3 = save_char
    /\ int16 (Text.drop 1 g3 +:+ g2 +:+ g1) = Some t.
Proof.
  intros Ht Lc Hc Lm Hm Ls Hs.
  destruct (timestamp_parts t Ht) as (HL & HM & HH & Et).
  set (g3 := save_char +:+ hex_fixed 3 (t / 2 ^ 48) "").
  assert (String.length g3 = 4%nat) as L3
    by (unfold g3; rewrite length_app_s, Ls, length_hexs; reflexivity).
  assert (all_hex g3 = true) as H3.
  { unfold g3, all_hex in *. by rewrite all_chars_app, Hs, all_hex_hexs. }
  exists (hex_fixed 8 t "" +:+ "-" +:+ hex_fixed 4 (t / 2 ^ 32) "" +:+ "-"
          +:+ g3 +:+ "-" +:+ clock_seq +:+ "-" +:+ mac_address),
    (hex_fixed 8 t ""), (hex_fixed 4 (t / 2 ^ 32) ""), g3, clock_seq, mac_address.
  split.
  { rewrite generate_uuid_v1_custom_eq by done. unfold g3.
    by rewrite (app_assoc_s save_char). }
  split.
  { apply UUID_PATTERN_groups; try done; try apply length_hexs; apply all_hex_hexs. }
  split.
  { rewrite !split_on_hex_app by (done || apply all_hex_hexs).
    by rewrite split_on_hex. }
  split; [unfold g3; by apply take_app_n |].
  unfold g3. rewrite (drop_app_n 1) by done.
  rewrite int16_hexval.
  - f_equal. rewrite !hexval_app, !length_app_s, !length_hexs, !hexval_hexs.
    change (16 ^ Z.of_nat (4 + 8)) with (2 ^ 48).
    change (16 ^ Z.of_nat 3) with (2 ^ 12). change (16 ^ Z.of_nat 4) with (2 ^ 16).
    change (16 ^ Z.of_nat 8) with (2 ^ 32).
    rewrite (Z.mod_small (t / 2 ^ 48)) by lia. lia.
  - unfold all_hex. rewrite !all_chars_app. by rewrite !all_hex_hexs.
  - intros E. apply (f_equal String.length) in E.
    rewrite !length_app_s, !length_hexs in E. simpl in E. lia.
Qed.

Lemma generate_uuid_v1_custom_roundtrip_witness :
  exists line g1 g2 g3 g4 g5,
    generate_uuid_v1_custom 139603707324520430 "8a38" "aedb2c11800f" "1" = Some line
    /\ UUID_PATTERN line = true
    /\ Text.split_on "-" line = [g1; g2; g3; g4; g5]
    /\ Text.take 1 g3 = "1"
    /\ int16 (Text.drop 1 g3 +:+ g2 +:+ g1) = Some 139603707324520430.
Proof.
  apply (generate_uuid_v1_custom_roundtrip
           139603707324520430 "8a38" "aedb2c11800f" "1");
    first [lia | reflexivity].
Defined.

(** What the workers compute from two validated strings. *)
Lemma loop_args_of_valid A B :
  UUID_PATTERN A = true -> UUID_PATTERN B = true ->
  exists uA uB,
    uuid.of_hex A = Ok uA /\ uuid.of_hex B = Ok uB
    /\ 0 <= uuid.int uA < 2 ^ 128 /\ 0 <= uuid.int uB < 2 ^ 128
    /\ loop_args_of A B
       = Ok (Build_loop_args
               (Z.min (uuid_time uA) (uuid_time uB))
               (Z.max (uuid_time uA) (uuid_time uB))
               (hex_fixed 2 (uuid.clock_seq_hi_variant uA) ""
                +:+ hex_fixed 2 (uuid.clock_seq_low uA) "")
               (hex_fixed 12 (uuid.node uA) "")
               (hex_fixed 1 (uuid.time_hi_version uA / 2 ^ 12) "")).
Proof.
  intros (uA & EA & RA)%of_hex_valid (uB & EB & RB)%of_hex_valid.
  exists uA, uB. repeat (split; [done |]).
  unfold loop_args_of. rewrite EA, EB. cbn [mbind result_bind].
  rewrite !timestamp_hex_uuid_time by done. cbn [mbind result_bind].
  destruct (fields_range uA RA) as (_ & _ & Hh & Hch & Hcl & Hn).
  rewrite !format_0x_fixed by (first [lia | simpl; lia]).
  rewrite take1_hexs4. change (16 ^ 3) with (2 ^ 12).
  destruct (Z.ltb_spec (uuid_time uB) (uuid_time uA)).
  - by rewrite Z.min_r, Z.max_l by lia.
  - by rewrite Z.min_l, Z.max_r by lia.
Qed.



(** C1, at the two ends of the 60-bit space: the estimator raises
    [OverflowError] (from the rendering of the estimated duration) and
    returns no [total_possible], in either order. *)
Theorem estimate_range_size_overflow :
  estimate_range_size "00000000-0000-1000-8000-000000000000"
                      "ffffffff-ffff-1fff-8000-000000000000" = Raise OverflowError
  /\ estimate_range_size "ffffffff-ffff-1fff-8000-000000000000"
                         "00000000-0000-1000-8000-000000000000" = Raise OverflowError.
Proof. split; vm_compute; reflexivity. Qed.

End RangeFacts.

(** * The generation loop *)

Section LoopFacts.

Variable fl : Q -> Q.
Variable write_fails : Z -> bool.
Variables filename task_id : string.

Lemma framed_refl w : framed task_id w w.
Proof. by split. Qed.

Lemma framed_trans w1 w2 w3 : framed task_id w1 w2 -> framed task_id w2 w3 -> framed task_id w1 w3.
Proof.
  intros [H1 H2] [H3 H4]. split.
  - intros k Hk. by rewrite H3, H1.
  - by rewrite H4, H2.
Qed.

Lemma framed_cancelled w w' : framed task_id w w' -> is_cancelled task_id w' = is_cancelled task_id w.
Proof.
  intros [_ H]. unfold is_cancelled.
  destruct (generation_tasks w' !! task_id) as [t'|],
           (generation_tasks w !! task_id) as [t|]; try done.
  assert (frame t' = frame t) as E by (simpl in H; congruence).
  apply (f_equal cancelled) in E. simpl in E. by rewrite E.
Qed.

Lemma framed_update_progress w w' c p :
  update_task task_id (fun t => set_count c (set_progress p t)) w = Ok w' ->
  framed task_id w w' /\ files w' = files w.
Proof.
  unfold update_task. destruct (generation_tasks w !! task_id) as [t|] eqn:E; [|done].
  intros [= <-]. split; [|done]. split; simpl.
  - intros k Hk. by rewrite lookup_insert_ne.
  - by rewrite lookup_insert_eq, E.
Qed.

Lemma render_some (a : loop_args) t :
  exists c s,
    FastUUIDv1Generator.generate_uuid_v1_custom
      t (clock_seq a) (mac_address a) (save_char a) = Some (String c s)
    /\ render a t = String c s.
Proof.
  unfold render, FastUUIDv1Generator.generate_uuid_v1_custom.
  destruct (Text.drop 7 _) as [|c s].
  - eexists _, _. split; reflexivity.
  - eexists _, _. rewrite app_cons_s. split; reflexivity.
Qed.

(** One iteration: the registry is framed, and the file gets the rendered
    line unless the write fails. *)
Lemma range_body_spec (a : loop_args) total t w :
  let w' := range_body fl write_fails filename task_id
              (clock_seq a) (mac_address a) (save_char a)
              (start_timestamp_hex a) total t w in
  framed task_id w w'
  /\ files w' = if write_fails t then files w
                else alter (fun ls => (ls ++ [render a t])%list) filename (files w).
Proof.
  unfold range_body. destruct (render_some a t) as (c & s & -> & ->).
  destruct (write_fails t); [split; [apply framed_refl | done] |].
  set (w1 := write_line _ _ w).
  assert (framed task_id w w1 /\ files w1 = alter (fun ls => (ls ++ [String c s])%list)
                                      filename (files w)) as [F1 E1]
    by (split; [by split | done]).
  destruct (_ =? 0); [|done].
  destruct (progress_of _ _ _) as [p|]; [|done].
  destruct (update_task _ _ w1) as [w2|] eqn:E2; [|done].
  apply framed_update_progress in E2 as [F2 E2].
  split; [by eapply framed_trans | by rewrite E2].
Qed.

(** The whole loop. *)
Lemma range_loop_spec (a : loop_args) total todo : forall w,
  exists w' b,
    range_loop fl write_fails filename task_id
      (clock_seq a) (mac_address a) (save_char a)
      (start_timestamp_hex a) total todo w = (w', b)
    /\ framed task_id w w'
    /\ (forall f, f <> filename -> files w' !! f = files w !! f)
    /\ files w' !! filename
       = (if b then None
          else (fun ls => (ls ++ written write_fails a todo)%list) <$> (files w !! filename))
    /\ (b = true -> is_cancelled task_id w = true).
Proof.
  induction todo as [|t todo IH]; intros w.
  - exists w, false. simpl.
    split; [done |]. split; [apply framed_refl |]. split; [done |]. split; [|done].
    unfold written. simpl. destruct (files w !! filename); simpl; [|done].
    by rewrite app_nil_r.
  - cbn [range_loop].
    destruct ((t - start_timestamp_hex a) mod 1000 =? 0); cbn [andb];
      [destruct (is_cancelled task_id w) eqn:Hc |].
    + exists (unlink filename w), true.
      split; [done |]. split; [by split |]. split; [|split; [|done]].
      * intros f Hf. simpl. by rewrite lookup_delete_ne.
      * simpl. by rewrite lookup_delete_eq.
    + destruct (range_body_spec a total t w) as [F1 E1].
      destruct (IH (range_body fl write_fails filename task_id (clock_seq a)
                      (mac_address a) (save_char a) (start_timestamp_hex a) total t w))
        as (w' & b & -> & F2 & O2 & E2 & C2).
      exists w', b. split; [done |]. split; [by eapply framed_trans |]. split; [|split].
      * intros f Hf. rewrite O2 by done. rewrite E1.
        destruct (write_fails t); [done | by rewrite lookup_alter_ne].
      * rewrite E2. destruct b; [done |]. rewrite E1. unfold written.
        rewrite filter_cons. destruct (write_fails t) eqn:Hw.
        -- rewrite decide_False by done. done.
        -- rewrite decide_True by done. rewrite lookup_alter_eq.
           destruct (files w !! filename); simpl; [|done].
           by rewrite <- app_assoc.
      * intros Hb. apply C2 in Hb. rewrite (framed_cancelled _ _ F1), Hc in Hb. done.
    + destruct (range_body_spec a total t w) as [F1 E1].
      destruct (IH (range_body fl write_fails filename task_id (clock_seq a)
                      (mac_address a) (save_char a) (start_timestamp_hex a) total t w))
        as (w' & b & -> & F2 & O2 & E2 & C2).
      exists w', b. split; [done |]. split; [by eapply framed_trans |]. split; [|split].
      * intros f Hf. rewrite O2 by done. rewrite E1.
        destruct (write_fails t); [done | by rewrite lookup_alter_ne].
      * rewrite E2. destruct b; [done |]. rewrite E1. unfold written.
        rewrite filter_cons. destruct (write_fails t) eqn:Hw.
        -- rewrite decide_False by done. done.
        -- rewrite decide_True by done. rewrite lookup_alter_eq.
           destruct (files w !! filename); simpl; [|done].
           by rewrite <- app_assoc.
      * intros Hb. rewrite <- (framed_cancelled _ _ F1). by apply C2.
Qed.

End LoopFacts.

(** * The range worker as a whole *)

Section RangeWorkerFacts.

Variable fl : Q -> Q.
Variable write_fails : Z -> bool.
Variables filename task_id : string.

Lemma cleanup_tasks w : generation_tasks (cleanup_all_uuid_files w) = generation_tasks w.
Proof. reflexivity. Qed.

Lemma set_progress_count_frame t1 t2 c p :
  frame t1 = frame t2 ->
  set_count c (set_progress p t1) = set_count c (set_progress p t2).
Proof.
  destruct t1, t2. unfold frame, set_count, set_progress. simpl.
  intros [= -> -> -> -> -> -> -> -> -> ->]. reflexivity.
Qed.

(** With the task registered and both strings well formed, the preparation
    reaches the loop. *)
Lemma range_prepare_spec A B w tk a :
  generation_tasks w !! task_id = Some tk ->
  loop_args_of A B = Ok a ->
  exists w1,
    range_prepare filename A B task_id w = inr (w1, a)
    /\ generation_tasks w1
       = <[task_id := set_file_path filename (set_status "generating" tk)]>
           (generation_tasks w)
    /\ files w1 = <[filename := []]> (files (cleanup_all_uuid_files w)).
Proof.
  intros Htk Ha. unfold range_prepare, update_task.
  rewrite cleanup_tasks, Htk. cbn [generation_tasks create_file with_files with_tasks].
  rewrite lookup_insert_eq, Ha. eexists. split; [reflexivity |].
  split; [|reflexivity].
  cbn [generation_tasks files with_tasks with_files create_file cleanup_all_uuid_files].
  by rewrite insert_insert_eq.
Qed.

(** The final state: either there is no output file, or it holds exactly
    the lines whose write succeeded. *)
Lemma generate_range_background_files A B w tk a total :
  generation_tasks w !! task_id = Some tk ->
  loop_args_of A B = Ok a ->
  let w' := (generate_range_background fl write_fails filename A B task_id total w).1 in
  files w' !! filename = None
  \/ files w' !! filename = Some (written write_fails a (timestamps a)).
Proof.
  intros Htk Ha. unfold generate_range_background.
  destruct (range_prepare_spec A B w tk a Htk Ha) as (w1 & -> & T1 & F1).
  destruct (range_loop_spec fl write_fails filename task_id a total (timestamps a) w1)
    as (w2 & b & -> & Fr & Oth & Fil & Hb).
  rewrite F1, lookup_insert_eq in Fil. simpl in Fil.
  unfold range_finish. destruct b; [by left |].
  destruct (is_cancelled task_id w2).
  { left. simpl. by rewrite lookup_delete_eq. }
  unfold update_task. destruct (generation_tasks w2 !! task_id) as [t2|] eqn:E2.
  - right. done.
  - unfold range_handler, update_task. rewrite E2. right. done.
Qed.

(** A run that is not cancelled completes, whatever writes fail. *)
Lemma generate_range_background_completes A B w tk a total :
  generation_tasks w !! task_id = Some tk ->
  is_cancelled task_id w = false ->
  loop_args_of A B = Ok a ->
  exists w',
    generate_range_background fl write_fails filename A B task_id total w = (w', Returned)
    /\ generation_tasks w' !! task_id
       = Some (set_message "Generated UUIDs in range"
                 (set_count total
                    (set_progress 100%Q
                       (set_status "completed" (set_file_path filename tk)))))
    /\ files w' !! filename = Some (written write_fails a (timestamps a)).
Proof.
  intros Htk Hc Ha. unfold generate_range_background.
  destruct (range_prepare_spec A B w tk a Htk Ha) as (w1 & -> & T1 & F1).
  destruct (range_loop_spec fl write_fails filename task_id a total (timestamps a) w1)
    as (w2 & b & -> & Fr & Oth & Fil & Hb).
  rewrite F1, lookup_insert_eq in Fil. simpl in Fil.
  assert (is_cancelled task_id w1 = false) as Hc1.
  { unfold is_cancelled in *. rewrite T1, lookup_insert_eq. simpl.
    by rewrite Htk in Hc. }
  destruct b; [rewrite Hb in Hc1; done |].
  unfold range_finish. rewrite (framed_cancelled _ _ _ Fr), Hc1.
  destruct Fr as [_ Fr]. rewrite T1, lookup_insert_eq in Fr.
  unfold update_task.
  destruct (generation_tasks w2 !! task_id) as [t2|] eqn:E2; [|done].
  eexists. split; [reflexivity |]. split; [|done].
  cbn [generation_tasks with_tasks]. rewrite lookup_insert_eq. f_equal.
  assert (frame t2 = frame (set_file_path filename (set_status "generating" tk))) as E
    by (simpl in Fr; congruence).
  destruct t2, tk. unfold frame, set_count, set_progress in E. simpl in E.
  injection E as -> -> -> -> -> -> -> -> -> ->. reflexivity.
Qed.

End RangeWorkerFacts.

(** * The fast worker as a whole *)

Section FastWorkerFacts.

Variable fl : Q -> Q.
Variable write_fails : Z -> bool.
Variables filename task_id : string.

Lemma fast_body_spec (a : loop_args) total t w c :
  let st' := fast_body fl write_fails filename task_id
               (clock_seq a) (mac_address a) (save_char a) total t (w, c) in
  framed task_id w st'.1
  /\ files st'.1 = (if write_fails t then files w
                    else alter (fun ls => (ls ++ [render a t])%list) filename (files w))
  /\ st'.2 = (if write_fails t then c else c + 1).
Proof.
  unfold fast_body. destruct (render_some a t) as (ch & s & -> & ->).
  destruct (write_fails t); [split; [apply framed_refl | done] |].
  set (w1 := write_line _ _ w).
  assert (framed task_id w w1) as F1 by (by split).
  destruct (_ =? 0); [|by repeat split].
  destruct (progress_of _ _ _) as [p|]; [|by repeat split].
  destruct (update_task _ _ w1) as [w2|] eqn:E2; [|by repeat split].
  apply framed_update_progress in E2 as [F2 E2]. cbn [fst snd].
  split; [by eapply framed_trans | by rewrite E2].
Qed.

Lemma fast_loop_spec (a : loop_args) total todo : forall w c,
  exists w' c' b,
    fast_loop fl write_fails filename task_id
      (clock_seq a) (mac_address a) (save_char a)
      (start_timestamp_hex a) total todo (w, c) = ((w', c'), b)
    /\ framed task_id w w'
    /\ (forall f, f <> filename -> files w' !! f = files w !! f)
    /\ files w' !! filename
       = (if b then None
          else (fun ls => (ls ++ written write_fails a todo)%list) <$> (files w !! filename))
    /\ (b = true -> is_cancelled task_id w = true)
    /\ (b = false -> c' = c + Z.of_nat (length (written write_fails a todo))).
Proof.
  induction todo as [|t todo IH]; intros w c.
  - exists w, c, false. simpl.
    split; [done |]. split; [apply framed_refl |]. split; [done |].
    split; [|split; [done | intros _; unfold written; simpl; lia]].
    unfold written. simpl. destruct (files w !! filename); simpl; [|done].
    by rewrite app_nil_r.
  - cbn [fast_loop fst snd].
    assert (forall st',
      st' = fast_body fl write_fails filename task_id (clock_seq a) (mac_address a)
              (save_char a) total t (w, c) ->
      exists w' c' b,
        fast_loop fl write_fails filename task_id (clock_seq a) (mac_address a)
          (save_char a) (start_timestamp_hex a) total todo st' = (w', c', b)
        /\ framed task_id w w'
        /\ (forall f, f <> filename -> files w' !! f = files w !! f)
        /\ files w' !! filename
           = (if b then None
              else (fun ls => (ls ++ written write_fails a (t :: todo))%list)
                     <$> files w !! filename)
        /\ (b = true -> is_cancelled task_id st'.1 = true)
        /\ (b = false ->
            c' = c + Z.of_nat (length (written write_fails a (t :: todo))))) as Step.
    { intros st' ->.
      destruct (fast_body_spec a total t w c) as (F1 & E1 & C1).
      destruct (fast_body fl write_fails filename task_id (clock_seq a) (mac_address a)
                  (save_char a) total t (w, c)) as [w1 c1]. simpl in F1, E1, C1.
      destruct (IH w1 c1) as (w' & c' & b & -> & F2 & O2 & E2 & B2 & N2).
      exists w', c', b. split; [done |]. split; [by eapply framed_trans |].
      split; [|split; [|split; [done |]]].
      - intros f Hf. rewrite O2 by done. rewrite E1.
        destruct (write_fails t); [done | by rewrite lookup_alter_ne].
      - rewrite E2. destruct b; [done |]. rewrite E1. unfold written.
        rewrite filter_cons. destruct (write_fails t) eqn:Hw.
        + rewrite decide_False by done. done.
        + rewrite decide_True by done. rewrite lookup_alter_eq.
          destruct (files w !! filename); simpl; [|done].
          by rewrite <- app_assoc.
      - intros Hb. rewrite (N2 Hb), C1. unfold written. rewrite filter_cons.
        destruct (write_fails t) eqn:Hw.
        + rewrite decide_False by done. done.
        + rewrite decide_True by done. rewrite !length_fmap, length_cons. lia. }
    destruct ((t - start_timestamp_hex a) mod 1000 =? 0); cbn [andb];
      [destruct (is_cancelled task_id w) eqn:Hc |].
    + exists (unlink filename w), c, true.
      split; [done |]. split; [by split |]. split; [|split; [|done]].
      * intros f Hf. simpl. by rewrite lookup_delete_ne.
      * simpl. by rewrite lookup_delete_eq.
    + destruct (Step _ eq_refl) as (w' & c' & b & E & F & O & Fi & B & N).
      exists w', c', b. repeat (split; [done |]). split; [|done].
      intros Hb. apply B in Hb.
      destruct (fast_body_spec a total t w c) as (F1 & _ & _).
      rewrite (framed_cancelled _ _ _ F1), Hc in Hb. done.
    + destruct (Step _ eq_refl) as (w' & c' & b & E & F & O & Fi & B & N).
      exists w', c', b. repeat (split; [done |]). split; [|done].
      intros Hb. apply B in Hb.
      destruct (fast_body_spec a total t w c) as (F1 & _ & _).
      by rewrite (framed_cancelled _ _ _ F1) in Hb.
Qed.

End FastWorkerFacts.

Section FastWorkerRun.

Variable fl : Q -> Q.
Variable write_fails : Z -> bool.
Variable task_id : string.

(** A fast run that is not cancelled completes, whatever writes fail. *)
Lemma generate_uuids_fast_background_completes A B w tk a :
  generation_tasks w !! task_id = Some tk ->
  is_cancelled task_id w = false ->
  loop_args_of A B = Ok a ->
  exists w',
    generate_uuids_fast_background fl write_fails A B task_id w = (w', Returned)
    /\ generation_tasks w' !! task_id
       = Some (set_end_uuid B
                 (set_start_uuid A
                    (set_message "ok"
                       (set_progress 100%Q
                          (set_count
                             (Z.of_nat (length (written write_fails a (timestamps a))))
                             (set_file_path (fast_filename task_id)
                                (set_status "completed" tk)))))))
    /\ files w' !! fast_filename task_id
       = Some (written write_fails a (timestamps a)).
Proof.
  intros Htk Hc Ha. unfold generate_uuids_fast_background, update_task.
  change (generation_tasks (cleanup_all_uuid_files w)) with (generation_tasks w).
  rewrite Htk.
  set (w1 := with_tasks _ (cleanup_all_uuid_files w)).
  assert (generation_tasks w1 = <[task_id := set_status "generating" tk]> (generation_tasks w))
    as T1 by reflexivity.
  assert (is_cancelled task_id w1 = false) as Hc1.
  { unfold is_cancelled in *. rewrite T1, lookup_insert_eq. simpl. by rewrite Htk in Hc. }
  rewrite Hc1. unfold generate_uuids_to_file_fast_with_progress. rewrite Ha.
  set (w2 := fast_open (fast_filename task_id) task_id w1).
  assert (generation_tasks w2
          = <[task_id := set_file_path (fast_filename task_id)
                           (set_status "generating" tk)]> (generation_tasks w)
          /\ files w2 !! fast_filename task_id = Some []) as [T2 F2].
  { unfold w2, fast_open, update_task.
    cbn [generation_tasks files with_tasks with_files create_file].
    rewrite T1, lookup_insert_eq.
    cbn [generation_tasks files with_tasks with_files create_file].
    rewrite T1, insert_insert_eq, lookup_insert_eq. done. }
  assert (is_cancelled task_id w2 = false) as Hc2.
  { unfold is_cancelled in *. rewrite T2, lookup_insert_eq. simpl. by rewrite Htk in Hc. }
  destruct (fast_loop_spec fl write_fails (fast_filename task_id) task_id a
              (fast_total (fast_precomputed_total A B) a) (timestamps a) w2 0)
    as (w3 & c3 & b & -> & Fr & Oth & Fil & Hb & Hn).
  rewrite F2 in Fil. simpl in Fil.
  destruct b; [rewrite Hb in Hc2; done |].
  rewrite (Hn eq_refl). unfold fast_finish.
  rewrite (framed_cancelled _ _ _ Fr), Hc2.
  destruct Fr as [_ Fr]. rewrite T2, lookup_insert_eq in Fr.
  unfold update_task.
  destruct (generation_tasks w3 !! task_id) as [t3|] eqn:E3; [|done].
  eexists. split; [reflexivity |]. split; [|done].
  cbn [generation_tasks with_tasks]. rewrite lookup_insert_eq. f_equal.
  assert (frame t3 = frame (set_file_path (fast_filename task_id)
                              (set_status "generating" tk))) as E
    by (simpl in Fr; congruence).
  destruct t3, tk. unfold frame, set_count, set_progress in E. simpl in E.
  injection E as -> -> -> -> -> -> -> -> -> ->. reflexivity.
Qed.

End FastWorkerRun.

(** * What the workers generate *)

Section GeneratedFacts.

Import Hex.

Local Abbreviation uuid_time := UUIDv1Generator.uuid_time.

Lemma Ok_inj {A} (x y : A) : Ok x = Ok y -> x = y.
Proof. by intros [= ->]. Qed.

Lemma filter_all_true {A} (p : A -> bool) (l : list A) :
  (forall x, p x = false) -> filter (fun x => p x = false) l = l.
Proof.
  intros H. induction l as [|x l IH]; [done |].
  rewrite filter_cons, decide_True by apply H. by rewrite IH.
Qed.

Lemma written_no_failure write_fails a todo :
  (forall t, write_fails t = false) -> written write_fails a todo = render a <$> todo.
Proof. intros H. unfold written. by rewrite filter_all_true. Qed.

Lemma written_elem write_fails a todo line :
  line ∈ written write_fails a todo -> exists t, t ∈ todo /\ line = render a t.
Proof.
  unfold written. intros (t & -> & Ht)%list_elem_of_fmap.
  apply list_elem_of_filter in Ht as [_ Ht]. by exists t.
Qed.

(** Every line rendered for a timestamp of the range carries the fields of
    the start UUID the caller passed, and decodes to that timestamp. *)
Lemma render_decode A B uA uB a t :
  UUID_PATTERN A = true -> UUID_PATTERN B = true ->
  uuid.of_hex A = Ok uA -> uuid.of_hex B = Ok uB ->
  loop_args_of A B = Ok a ->
  t ∈ timestamps a ->
  Z.min (uuid_time uA) (uuid_time uB) <= t <= Z.max (uuid_time uA) (uuid_time uB)
  /\ exists u,
       uuid.of_hex (render a t) = Ok u
       /\ line_timestamp (render a t) = Ok t
       /\ uuid.clock_seq_hi_variant u = uuid.clock_seq_hi_variant uA
       /\ uuid.clock_seq_low u = uuid.clock_seq_low uA
       /\ uuid.node u = uuid.node uA
       /\ Z.shiftr (uuid.time_hi_version u) 12 = Z.shiftr (uuid.time_hi_version uA) 12.
Proof.
  intros VA VB EA EB Ha Ht.
  destruct (loop_args_of_valid A B VA VB) as (uA' & uB' & EA' & EB' & RA & RB & Ha').
  rewrite EA in EA'. rewrite EB in EB'. injection EA' as <-. injection EB' as <-.
  rewrite Ha in Ha'. apply Ok_inj in Ha' as ->.
  pose proof (uuid_time_range uA RA) as TA. pose proof (uuid_time_range uB RB) as TB.
  unfold timestamps in Ht. cbn [start_timestamp_hex end_timestamp_hex] in Ht.
  apply elem_of_seqZ in Ht.
  split; [lia |].
  destruct (fields_range uA RA) as (_ & _ & Hh & Hch & Hcl & Hn).
  set (cs := hex_fixed 2 (uuid.clock_seq_hi_variant uA) ""
             +:+ hex_fixed 2 (uuid.clock_seq_low uA) "").
  set (mac := hex_fixed 12 (uuid.node uA) "").
  set (sc := hex_fixed 1 (uuid.time_hi_version uA / 2 ^ 12) "").
  assert (0 <= uuid.time_hi_version uA / 2 ^ 12 < 2 ^ 4) as Hv
    by (split; [apply Z.div_pos; lia | apply Z.div_lt_upper_bound; lia]).
  destruct (decode_generated t cs mac sc) as
    (line & u & Eline & _ & _ & Eu & Ru & F1 & F2 & F3 & F4 & F5 & F6 & Ets).
  { lia. }
  { unfold cs. rewrite length_app_s, !length_hexs. reflexivity. }
  { unfold cs, all_hex. rewrite all_chars_app. by rewrite !all_hex_hexs. }
  { apply length_hexs. }
  { apply all_hex_hexs. }
  { apply length_hexs. }
  { apply all_hex_hexs. }
  assert (render (Build_loop_args (Z.min (uuid_time uA) (uuid_time uB))
                    (Z.max (uuid_time uA) (uuid_time uB)) cs mac sc) t = line) as ->.
  { unfold render. cbn [clock_seq mac_address save_char]. by rewrite Eline. }
  assert (hexval cs = uuid.clock_seq_hi_variant uA * 2 ^ 8 + uuid.clock_seq_low uA) as Ecs.
  { unfold cs. rewrite hexval_app, length_hexs, !hexval_hexs.
    change (16 ^ Z.of_nat 2) with (2 ^ 8). rewrite !Z.mod_small by lia. done. }
  exists u. split; [done |]. split.
  { unfold line_timestamp. rewrite Eu. done. }
  split; [rewrite F4, Ecs; by apply div_parts |].
  split; [rewrite F5, Ecs; by apply mod_parts |].
  split.
  { rewrite F6. unfold mac. rewrite hexval_hexs.
    change (16 ^ Z.of_nat 12) with (2 ^ 48). apply Z.mod_small. lia. }
  rewrite !Z.shiftr_div_pow2 by lia. rewrite F3. unfold sc. rewrite hexval_hexs.
  change (16 ^ Z.of_nat 1) with (2 ^ 4). rewrite Z.mod_small by lia.
  apply div_parts.
  destruct (timestamp_parts t ltac:(lia)) as (_ & _ & ? & _). lia.
Qed.

End GeneratedFacts.

(** * Claims about the generated range *)

Section RangeClaims.

Local Abbreviation uuid_time := UUIDv1Generator.uuid_time.

(** The total the [generate_range] route registers and hands to the worker. *)
Lemma generate_range_total now task_id A B w0 uA uB :
  validate_uuid A = true -> validate_uuid B = true ->
  uuid.of_hex A = Ok uA -> uuid.of_hex B = Ok uB ->
  (generate_range now task_id A B w0).2
  = Some (Z.max (uuid_time uA) (uuid_time uB) - Z.min (uuid_time uA) (uuid_time uB) + 1).
Proof.
  intros VA VB EA EB. unfold generate_range. rewrite VA, VB. cbn [negb].
  destruct (of_hex_valid A (validate_uuid_pattern A VA)) as (uA' & EA' & RA).
  destruct (of_hex_valid B (validate_uuid_pattern B VB)) as (uB' & EB' & RB).
  rewrite EA in EA'. rewrite EB in EB'.
  apply Ok_inj in EA' as <-. apply Ok_inj in EB' as <-.
  rewrite EA, EB. cbn [mbind result_bind].
  rewrite !timestamp_hex_uuid_time by done. cbn [mbind result_bind].
  destruct (Z.ltb_spec (uuid_time uB) (uuid_time uA)); cbn [snd]; f_equal; lia.
Qed.

Lemma enumerates_render a lo hi :
  lo <= hi ->
  (forall t, lo <= t <= hi -> line_timestamp (render a t) = Ok t) ->
  enumerates lo hi (render a <$> seqZ lo (hi + 1 - lo)).
Proof.
  intros Hn Hts.
  assert (forall i line,
            (render a <$> seqZ lo (hi + 1 - lo)) !! i = Some line ->
            line = render a (lo + Z.of_nat i) /\ lo <= lo + Z.of_nat i <= hi) as Hl.
  { intros i line Hi. rewrite list_lookup_fmap in Hi.
    destruct (seqZ lo (hi + 1 - lo) !! i) as [t|] eqn:E; [|done].
    apply lookup_seqZ in E as [-> ?]. injection Hi as <-. split; [done | lia]. }
  assert (forall i, (Z.of_nat i < hi + 1 - lo) ->
            (render a <$> seqZ lo (hi + 1 - lo)) !! i
            = Some (render a (lo + Z.of_nat i))) as Hi.
  { intros i Hlt. rewrite list_lookup_fmap.
    rewrite (proj2 (lookup_seqZ lo (hi + 1 - lo) i (lo + Z.of_nat i))); [done |].
    split; [done | lia]. }
  unfold enumerates. split; [|split; [|split; [|split]]].
  - rewrite length_fmap, length_seqZ. lia.
  - intros i line [-> Hr]%Hl. by apply Hts.
  - rewrite head_lookup, Hi by lia. simpl. rewrite Z.add_0_r. f_equal. apply Hts. lia.
  - rewrite last_lookup, length_fmap, length_seqZ, Hi by lia. simpl. f_equal.
    replace (lo + Z.of_nat (Init.Nat.pred (Z.to_nat (hi + 1 - lo)))) with hi by lia.
    apply Hts. lia.
  - intros i j li lj Hij [-> Hi']%Hl [-> Hj]%Hl.
    eexists _, _. split; [by apply Hts |]. split; [by apply Hts | lia].
Qed.

(** C2. With both UUID strings valid, the task registered and not cancelled
    and no write failing, both workers leave the same output file: exactly
    [total_possible] lines, one per timestamp from the smaller to the larger
    of the two extracted 60-bit timestamps, strictly increasing; equal
    timestamps give exactly one line. *)
Theorem range_generation_enumerates
    (fl : Q -> Q) (write_fails : Z -> bool) (filename task_id A B : string)
    (total : Z) (w : world) (tk : task) :
  validate_uuid A = true -> validate_uuid B = true ->
  generation_tasks w !! task_id = Some tk ->
  is_cancelled task_id w = false ->
  (forall t, write_fails t = false) ->
  exists uA uB lines,
    uuid.of_hex A = Ok uA /\ uuid.of_hex B = Ok uB
    /\ files (generate_range_background fl write_fails filename A B task_id total w).1
         !! filename = Some lines
    /\ files (generate_uuids_fast_background fl write_fails A B task_id w).1
         !! fast_filename task_id = Some lines
    /\ (forall now w0,
          (generate_range now task_id A B w0).2
          = Some (Z.max (uuid_time uA) (uuid_time uB)
                  - Z.min (uuid_time uA) (uuid_time uB) + 1))
    /\ enumerates (Z.min (uuid_time uA) (uuid_time uB))
                  (Z.max (uuid_time uA) (uuid_time uB)) lines
    /\ (uuid_time uA = uuid_time uB -> length lines = 1%nat).
Proof.
  intros VA VB Htk Hc Hw.
  pose proof (validate_uuid_pattern A VA) as PA.
  pose proof (validate_uuid_pattern B VB) as PB.
  destruct (loop_args_of_valid A B PA PB) as (uA & uB & EA & EB & RA & RB & Ha).
  set (a := Build_loop_args _ _ _ _ _) in Ha.
  destruct (generate_range_background_completes fl write_fails filename task_id
              A B w tk a total Htk Hc Ha) as (wr & Er & _ & Fr).
  destruct (generate_uuids_fast_background_completes fl write_fails task_id
              A B w tk a Htk Hc Ha) as (wf & Ef & _ & Ff).
  rewrite written_no_failure in Fr, Ff by done.
  exists uA, uB, (render a <$> timestamps a).
  split; [done |]. split; [done |].
  split; [by rewrite Er |]. split; [by rewrite Ef |].
  split; [intros now w0; by apply generate_range_total |].
  assert (enumerates (Z.min (uuid_time uA) (uuid_time uB))
            (Z.max (uuid_time uA) (uuid_time uB)) (render a <$> timestamps a)) as He.
  { apply enumerates_render; [lia |]. intros t Ht.
    destruct (render_decode A B uA uB a t PA PB EA EB Ha) as (_ & u & _ & Hts & _).
    - unfold timestamps, a. cbn [start_timestamp_hex end_timestamp_hex].
      apply elem_of_seqZ. lia.
    - done. }
  split; [done |].
  intros Heq. destruct He as (Hlen & _). rewrite Heq in Hlen. lia.
Qed.

Lemma range_generation_enumerates_witness :
  exists uA uB lines,
    uuid.of_hex demo_start = Ok uA /\ uuid.of_hex demo_end = Ok uB
    /\ files (generate_range_background exact no_failure demo_file
                demo_start demo_end demo_task 3 demo_world).1
         !! demo_file = Some lines
    /\ files (generate_uuids_fast_background exact no_failure
                demo_start demo_end demo_task demo_world).1
         !! fast_filename demo_task = Some lines
    /\ (forall now w0,
          (generate_range now demo_task demo_start demo_end w0).2
          = Some (Z.max (uuid_time uA) (uuid_time uB)
                  - Z.min (uuid_time uA) (uuid_time uB) + 1))
    /\ enumerates (Z.min (uuid_time uA) (uuid_time uB))
                  (Z.max (uuid_time uA) (uuid_time uB)) lines
    /\ (uuid_time uA = uuid_time uB -> length lines = 1%nat).
Proof.
  eapply (range_generation_enumerates exact no_failure demo_file demo_task
            demo_start demo_end 3 demo_world).
  - vm_compute; reflexivity.
  - vm_compute; reflexivity.
  - vm_compute; reflexivity.
  - vm_compute; reflexivity.
  - intros t; reflexivity.
Defined.

(** C3, as stated, fails: in the demo request the start UUID is the later
    one, so after the swap the range starts at the end UUID's timestamp; the
    first generated line still carries clock sequence, node and version
    nibble that differ from those of that post-swap start. *)
Lemma generated_fields_not_post_swap :
  exists lines line u uA uB,
    files (generate_range_background exact no_failure demo_file
             demo_start demo_end demo_task 3 demo_world).1 !! demo_file = Some lines
    /\ lines !! 0%nat = Some line
    /\ uuid.of_hex line = Ok u
    /\ uuid.of_hex demo_start = Ok uA /\ uuid.of_hex demo_end = Ok uB
    /\ uuid_time uB < uuid_time uA
    /\ line_timestamp line = Ok (uuid_time uB)
    /\ uuid.clock_seq_hi_variant u <> uuid.clock_seq_hi_variant uB
    /\ uuid.clock_seq_low u <> uuid.clock_seq_low uB
    /\ uuid.node u <> uuid.node uB
    /\ Z.shiftr (uuid.time_hi_version u) 12 <> Z.shiftr (uuid.time_hi_version uB) 12.
Proof.
  eexists _, _, _, _, _.
  split; [vm_compute; reflexivity |].
  split; [reflexivity |].
  split; [vm_compute; reflexivity |].
  split; [vm_compute; reflexivity |].
  split; [vm_compute; reflexivity |].
  split; [vm_compute; reflexivity |].
  split; [vm_compute; reflexivity |].
  repeat split; vm_compute; discriminate.
Qed.

(** C3, amended. With both UUID strings valid and the task registered and
    not cancelled, every line either worker writes parses to a UUID whose
    clock sequence, node and version nibble are those of the start UUID as
    the caller passed it, whichever of the two timestamps is smaller. *)
Theorem generated_fields_from_start_argument
    (fl : Q -> Q) (write_fails : Z -> bool) (filename task_id A B : string)
    (total : Z) (w : world) (tk : task) :
  validate_uuid A = true -> validate_uuid B = true ->
  generation_tasks w !! task_id = Some tk ->
  is_cancelled task_id w = false ->
  exists uA lines,
    uuid.of_hex A = Ok uA
    /\ files (generate_range_background fl write_fails filename A B task_id total w).1
         !! filename = Some lines
    /\ files (generate_uuids_fast_background fl write_fails A B task_id w).1
         !! fast_filename task_id = Some lines
    /\ forall line, line ∈ lines ->
         exists u, uuid.of_hex line = Ok u /\ same_fixed_fields u uA.
Proof.
  intros VA VB Htk Hc.
  pose proof (validate_uuid_pattern A VA) as PA.
  pose proof (validate_uuid_pattern B VB) as PB.
  destruct (loop_args_of_valid A B PA PB) as (uA & uB & EA & EB & RA & RB & Ha).
  set (a := Build_loop_args _ _ _ _ _) in Ha.
  destruct (generate_range_background_completes fl write_fails filename task_id
              A B w tk a total Htk Hc Ha) as (wr & Er & _ & Fr).
  destruct (generate_uuids_fast_background_completes fl write_fails task_id
              A B w tk a Htk Hc Ha) as (wf & Ef & _ & Ff).
  exists uA, (written write_fails a (timestamps a)).
  split; [done |]. split; [by rewrite Er |]. split; [by rewrite Ef |].
  intros line (t & Ht & ->)%written_elem.
  destruct (render_decode A B uA uB a t PA PB EA EB Ha Ht)
    as (_ & u & Eu & _ & F1 & F2 & F3 & F4).
  exists u. by repeat split.
Qed.

Lemma generated_fields_from_start_argument_witness :
  exists uA lines,
    uuid.of_hex demo_start = Ok uA
    /\ files (generate_range_background exact second_write_fails demo_file
                demo_start demo_end demo_task 3 demo_world).1
         !! demo_file = Some lines
    /\ files (generate_uuids_fast_background exact second_write_fails
                demo_start demo_end demo_task demo_world).1
         !! fast_filename demo_task = Some lines
    /\ forall line, line ∈ lines ->
         exists u, uuid.of_hex line = Ok u /\ same_fixed_fields u uA.
Proof.
  eapply (generated_fields_from_start_argument exact second_write_fails demo_file
            demo_task demo_start demo_end 3 demo_world);
    vm_compute; reflexivity.
Defined.




End RangeClaims.

(** * Cancellation *)

Section CancelFacts.

(** C8, as stated, fails: cancelling the completed demo task turns its
    status into [cancelled], records an error message and deletes the
    output file. *)
Lemma cancel_completed_task_changes_it :
  exists w tk lines tk',
    generate_range_background exact no_failure demo_file
      demo_start demo_end demo_task 3 demo_world = (w, Returned)
    /\ generation_tasks w !! demo_task = Some tk
    /\ status tk = "completed" /\ error tk = None
    /\ files w !! demo_file = Some lines /\ length lines = 3%nat
    /\ generation_tasks (cancel_generation demo_task w).1 !! demo_task = Some tk'
    /\ status tk' = "cancelled"
    /\ error tk' = Some "Generation cancelled by user"
    /\ files (cancel_generation demo_task w).1 !! demo_file = None.
Proof.
  eexists _, _, _, _.
  split; [vm_compute; reflexivity |].
  split; [vm_compute; reflexivity |].
  split; [reflexivity |]. split; [reflexivity |].
  split; [vm_compute; reflexivity |]. split; [reflexivity |].
  split; [vm_compute; reflexivity |].
  split; [reflexivity |]. split; [reflexivity |].
  vm_compute; reflexivity.
Qed.

Lemma set_cancelled_again tk tk' :
  tk' = set_cancelled true
          (set_error "Generation cancelled by user" (set_status "cancelled" tk)) ->
  set_cancelled true
    (set_error "Generation cancelled by user" (set_status "cancelled" tk')) = tk'.
Proof. intros ->. by destruct tk. Qed.

(** C8, amended. Cancelling a registered task, whatever its state, sets its
    status to [cancelled], its error message and its [cancelled] flag,
    keeps its other fields and the other tasks, and deletes the file its
    [file_path] names; it is a no-op exactly in the sense of idempotence:
    cancelling once more changes neither the registry nor the files. *)
Theorem cancel_generation_effect (task_id : string) (w : world) (tk : task) :
  generation_tasks w !! task_id = Some tk ->
  let w' := (cancel_generation task_id w).1 in
  generation_tasks w' !! task_id
  = Some (set_cancelled true
            (set_error "Generation cancelled by user" (set_status "cancelled" tk)))
  /\ (forall k, k <> task_id -> generation_tasks w' !! k = generation_tasks w !! k)
  /\ (forall p, file_path tk = Some p -> files w' !! p = None)
  /\ (forall f, file_path tk <> Some f -> files w' !! f = files w !! f)
  /\ (cancel_generation task_id w').1 = w'.
Proof.
  intros Htk. unfold cancel_generation. rewrite Htk.
  set (tk' := set_cancelled true _).
  assert (file_path tk' = file_path tk) as Efp by reflexivity.
  set (w1 := with_tasks (insert task_id tk') w).
  assert (forall w2,
            w2 = match file_path tk' with
                 | Some p => if decide (is_Some (files w1 !! p)) then unlink p w1 else w1
                 | None => w1
                 end ->
            generation_tasks w2 = <[task_id := tk']> (generation_tasks w)
            /\ (forall p, file_path tk = Some p -> files w2 !! p = None)
            /\ (forall f, file_path tk <> Some f -> files w2 !! f = files w !! f)) as Hw2.
  { intros w2 ->. rewrite Efp. destruct (file_path tk) as [p|].
    - destruct (decide (is_Some (files w1 !! p))) as [Hs | Hn].
      + split; [done |]. split.
        * intros p' [= <-]. simpl. by rewrite lookup_delete_eq.
        * intros f Hf. simpl. rewrite lookup_delete_ne by congruence. done.
      + split; [done |]. split.
        * intros p' [= <-]. by apply eq_None_not_Some.
        * done.
    - split; [done |]. split; [done | done]. }
  cbn [fst].
  destruct (Hw2 _ eq_refl) as (T2 & F2 & O2).
  set (w2 := match file_path tk' with Some _ => _ | None => _ end) in *.
  split; [by rewrite T2, lookup_insert_eq |].
  split; [intros k Hk; by rewrite T2, lookup_insert_ne |].
  split; [done |]. split; [done |].
  rewrite T2, lookup_insert_eq. cbn [fst].
  rewrite (set_cancelled_again tk tk' eq_refl).
  assert (with_tasks (insert task_id tk') w2 = w2) as ->.
  { destruct w2 as [m fs]. unfold with_tasks. simpl in *. f_equal.
    by rewrite T2, insert_insert_eq. }
  rewrite Efp. destruct (file_path tk) as [p|]; [|done].
  rewrite (F2 p eq_refl). by rewrite decide_False by (by intros [? ?]).
Qed.

Lemma cancel_generation_effect_witness :
  let w := (generate_range_background exact no_failure demo_file
              demo_start demo_end demo_task 3 demo_world).1 in
  let tk := set_message "Generated UUIDs in range"
              (set_count 3 (set_progress 100%Q
                 (set_status "completed"
                    (set_file_path demo_file
                       (mk_task "queued" 0%Q 0 demo_start demo_end (Some 3) 0%Q "range"
                          None None None None))))) in
  let w' := (cancel_generation demo_task w).1 in
  generation_tasks w' !! demo_task
  = Some (set_cancelled true
            (set_error "Generation cancelled by user" (set_status "cancelled" tk)))
  /\ (forall k, k <> demo_task -> generation_tasks w' !! k = generation_tasks w !! k)
  /\ (forall p, file_path tk = Some p -> files w' !! p = None)
  /\ (forall f, file_path tk <> Some f -> files w' !! f = files w !! f)
  /\ (cancel_generation demo_task w').1 = w'.
Proof.
  apply (cancel_generation_effect demo_task). vm_compute; reflexivity.
Defined.

End CancelFacts.

(** * The analyzer's version heuristic *)

Section AnalyzerFacts.

Import UUIDv1Generator.

Lemma land_pow2 a n :
  0 <= n -> Z.land a (2 ^ n) = if Z.testbit a n then 2 ^ n else 0.
Proof.
  intros Hn. apply Z.bits_inj'. intros i Hi.
  rewrite Z.land_spec, Z.pow2_bits_eqb by done.
  destruct (Z.eqb_spec n i) as [-> | Hne].
  - destruct (Z.testbit a i) eqn:E; simpl.
    + by rewrite Z.pow2_bits_true.
    + by rewrite Z.bits_0.
  - rewrite andb_false_r. destruct (Z.testbit a n).
    + by rewrite Z.pow2_bits_false.
    + by rewrite Z.bits_0.
Qed.

(** The two variant bits, as the analyzer and as the library read them. *)
Lemma variant_bits u :
  let vb := Z.shiftr (uuid.clock_seq_hi_variant u) 6 in
  0 <= vb < 4
  /\ Z.testbit (uuid.int u) 62 = Z.testbit vb 0
  /\ Z.testbit (uuid.int u) 63 = Z.testbit vb 1.
Proof.
  unfold uuid.clock_seq_hi_variant. split; [|split].
  - change 0xff with (Z.ones 8). rewrite Z.land_ones, Z.shiftr_div_pow2 by lia.
    pose proof (Z.mod_pos_bound (Z.shiftr (uuid.int u) 56) (2 ^ 8) ltac:(lia)).
    split; [apply Z.div_pos; lia | apply Z.div_lt_upper_bound; lia].
  - rewrite Z.shiftr_spec, Z.land_spec, Z.shiftr_spec by lia.
    change (0 + 6 + 56) with 62. change (Z.testbit 255 (0 + 6)) with true.
    by rewrite andb_true_r.
  - rewrite Z.shiftr_spec, Z.land_spec, Z.shiftr_spec by lia.
    change (1 + 6 + 56) with 63. change (Z.testbit 255 (1 + 6)) with true.
    by rewrite andb_true_r.
Qed.

Lemma variant_of_bits u :
  uuid.variant u
  = match Z.shiftr (uuid.clock_seq_hi_variant u) 6 with
    | 0 | 1 => uuid.RESERVED_NCS
    | 2 => uuid.RFC_4122
    | _ => if Z.testbit (uuid.int u) 61 then uuid.RESERVED_FUTURE
           else uuid.RESERVED_MICROSOFT
    end.
Proof.
  destruct (variant_bits u) as (Hr & H62 & H63).
  unfold uuid.variant.
  change (Z.shiftl 0x8000 48) with (2 ^ 63). change (Z.shiftl 0x4000 48) with (2 ^ 62).
  change (Z.shiftl 0x2000 48) with (2 ^ 61).
  rewrite !land_pow2 by lia. rewrite H62, H63.
  set (vb := Z.shiftr (uuid.clock_seq_hi_variant u) 6) in *.
  assert (vb = 0 \/ vb = 1 \/ vb = 2 \/ vb = 3) as [E | [E | [E | E]]] by lia;
    rewrite E; try reflexivity.
  change (Z.testbit 3 1) with true. change (Z.testbit 3 0) with true.
  cbn [Z.eqb]. change (2 ^ 63 =? 0) with false. change (2 ^ 62 =? 0) with false.
  cbn iota. by destruct (Z.testbit (uuid.int u) 61).
Qed.

Lemma uuid_to_timestamp_ok u : exists x, uuid_to_timestamp u = Ok x.
Proof.
  unfold uuid_to_timestamp, PyFloat.truediv.
  change (10000000 =? 0) with false. cbn [mbind result_bind].
  destruct (uuid_time u =? 0); [by eexists |].
  destruct (SFdiv_core_binary _ _ _ _ _ _) as [[mz ez] lz]. by eexists.
Qed.

(** C4, as stated, fails in both directions: a version-1 UUID with variant
    bits [10] and clock sequence [0x0a38] keeps version 1, one with variant
    bits [01] is re-labelled, and one with variant bits [00] ends with no
    version at all. *)
Lemma variant_10_is_not_relabelled :
  exists r10 u10 r01 u01 r00,
    analyze_uuid "0867d7ee-f8d5-11ef-8a38-aedb2c11800f" = Ok r10
    /\ uuid.of_hex "0867d7ee-f8d5-11ef-8a38-aedb2c11800f" = Ok u10
    /\ Z.land (Z.shiftr (uuid.int u10) 76) 0xf = 1
    /\ Z.shiftr (uuid.clock_seq_hi_variant u10) 6 = 2
    /\ 1 <= clock_seq r10 <= 0x3FFF
    /\ version r10 = Some 1 /\ possible_v2 r10 = false
    /\ analyze_uuid "0867d7ee-f8d5-11ef-4a38-aedb2c11800f" = Ok r01
    /\ uuid.of_hex "0867d7ee-f8d5-11ef-4a38-aedb2c11800f" = Ok u01
    /\ Z.land (Z.shiftr (uuid.int u01) 76) 0xf = 1
    /\ Z.shiftr (uuid.clock_seq_hi_variant u01) 6 = 1
    /\ version r01 = Some 2 /\ possible_v2 r01 = true
    /\ analyze_uuid "0867d7ee-f8d5-11ef-0a38-aedb2c11800f" = Ok r00
    /\ version r00 = None /\ possible_v2 r00 = false.
Proof.
  eexists _, _, _, _, _.
  split; [vm_compute; reflexivity |].
  split; [vm_compute; reflexivity |].
  split; [reflexivity |]. split; [reflexivity |].
  split; [vm_compute; split; discriminate |].
  split; [reflexivity |]. split; [reflexivity |].
  split; [vm_compute; reflexivity |].
  split; [vm_compute; reflexivity |].
  split; [reflexivity |]. split; [reflexivity |].
  split; [reflexivity |]. split; [reflexivity |].
  split; [vm_compute; reflexivity |].
  split; reflexivity.
Qed.

(** C4, amended. For a UUID whose version nibble reads 1, the analyzer
    reports version 2 with [possible_v2] exactly when the two top bits of
    [clock_seq_hi] are [01] and the 14-bit clock sequence lies in
    [1 .. 0x3FFF]; otherwise [possible_v2] is off and the version is 1 when
    those bits are [10] (the RFC 4122 variant) and absent for the other
    bit patterns. *)
Theorem analyze_uuid_v2_heuristic (uuid_str : string) (u : uuid.UUID) :
  uuid.of_hex uuid_str = Ok u ->
  Z.land (Z.shiftr (uuid.int u) 76) 0xf = 1 ->
  exists r,
    analyze_uuid uuid_str = Ok r
    /\ variant_code r = Z.shiftr (uuid.clock_seq_hi_variant u) 6
    /\ clock_seq r
       = Z.lor (Z.shiftl (Z.land (uuid.clock_seq_hi_variant u) 0x3f) 8)
               (uuid.clock_seq_low u)
    /\ ((version r = Some 2 /\ possible_v2 r = true)
        <-> (variant_code r = 1 /\ 1 <= clock_seq r <= 0x3FFF))
    /\ (~ (variant_code r = 1 /\ 1 <= clock_seq r <= 0x3FFF) ->
        possible_v2 r = false
        /\ version r = if variant_code r =? 2 then Some 1 else None).
Proof.
  intros Eu Hv. unfold analyze_uuid. rewrite Eu. cbn [mbind result_bind].
  destruct (uuid_to_timestamp_ok u) as (x & Ex).
  destruct (variant_bits u) as (Hr & _ & _).
  unfold uuid.version. rewrite variant_of_bits, Hv.
  unfold is_likely_uuid_v2.
  set (vb := Z.shiftr (uuid.clock_seq_hi_variant u) 6) in *.
  set (cs := Z.lor _ (uuid.clock_seq_low u)).
  assert (vb = 0 \/ vb = 1 \/ vb = 2 \/ vb = 3) as [E | [E | [E | E]]] by lia;
    rewrite E; cbn [Z.eqb Pos.eqb].
  - cbn [mbind result_bind]. eexists. split; [reflexivity |].
    cbn [version possible_v2 variant_code clock_seq].
    split; [done |]. split; [done |]. split; [split; intros [? ?]; done |].
    intros _. done.
  - fold cs. destruct (Z.leb_spec 1 cs), (Z.leb_spec cs 0x3FFF); cbn [andb];
      rewrite ?Ex; cbn [mbind result_bind];
      (eexists; split; [reflexivity |]);
      cbn [version possible_v2 variant_code clock_seq]; fold cs;
      (split; [done |]); (split; [done |]);
      (split; [split; intros [? ?]; try done; lia |]);
      intros Hn; try done; exfalso; apply Hn; split; [done | lia].
  - rewrite Ex. cbn [mbind result_bind]. eexists. split; [reflexivity |].
    cbn [version possible_v2 variant_code clock_seq].
    split; [done |]. split; [done |]. split; [split; intros [? ?]; done |].
    intros _. done.
  - destruct (Z.testbit (uuid.int u) 61);
      cbn [mbind result_bind];
      (eexists; split; [reflexivity |]);
      cbn [version possible_v2 variant_code clock_seq];
      (split; [done |]); (split; [done |]); (split; [split; intros [? ?]; done |]);
      intros _; done.
Qed.

Lemma analyze_uuid_v2_heuristic_witness :
  exists r,
    analyze_uuid "0867d7ee-f8d5-11ef-4a38-aedb2c11800f" = Ok r
    /\ variant_code r
       = Z.shiftr (uuid.clock_seq_hi_variant
                     (uuid.mkUUID 0x0867d7eef8d511ef4a38aedb2c11800f)) 6
    /\ clock_seq r
       = Z.lor (Z.shiftl (Z.land (uuid.clock_seq_hi_variant
                                    (uuid.mkUUID 0x0867d7eef8d511ef4a38aedb2c11800f))
                                 0x3f) 8)
               (uuid.clock_seq_low (uuid.mkUUID 0x0867d7eef8d511ef4a38aedb2c11800f))
    /\ ((version r = Some 2 /\ possible_v2 r = true)
        <-> (variant_code r = 1 /\ 1 <= clock_seq r <= 0x3FFF))
    /\ (~ (variant_code r = 1 /\ 1 <= clock_seq r <= 0x3FFF) ->
        possible_v2 r = false
        /\ version r = if variant_code r =? 2 then Some 1 else None).
Proof.
  apply (analyze_uuid_v2_heuristic "0867d7ee-f8d5-11ef-4a38-aedb2c11800f"
           (uuid.mkUUID 0x0867d7eef8d511ef4a38aedb2c11800f));
    vm_compute; reflexivity.
Defined.

End AnalyzerFacts.

(** * Progress *)

Section ProgressFacts.

Variable fl : Q -> Q.
Hypothesis fl_mono : forall x y : Q, (x <= y)%Q -> (fl x <= fl y)%Q.
Hypothesis fl_nonneg : (0 <= fl 0)%Q.
Variable total : Z.
Hypothesis total_pos : 0 < total.



Lemma progress_of_total c :
  exists p, progress_of fl c total = Ok p.
Proof.
  unfold progress_of. destruct (Z.eqb_spec total 0); [lia |]. by eexists.
Qed.



End ProgressFacts.

(** * The states of a range run *)

Section RangeStates.

Variable fl : Q -> Q.
Hypothesis fl_mono : forall x y : Q, (x <= y)%Q -> (fl x <= fl y)%Q.
Hypothesis fl_nonneg : (0 <= fl 0)%Q.
Variable write_fails : Z -> bool.
Variables filename task_id : string.
Variable a : loop_args.
Variable total : Z.
Hypothesis total_pos : 0 < total.





End RangeStates.

(** * A whole run, as a status poll sees it *)

Section RunStates.

Variable fl : Q -> Q.
Hypothesis fl_mono : forall x y : Q, (x <= y)%Q -> (fl x <= fl y)%Q.
Hypothesis fl_nonneg : (0 <= fl 0)%Q.
Variable write_fails : Z -> bool.
Variable task_id : string.
Variable total : Z.
Hypothesis total_pos : 0 < total.





End RunStates.

Section RangeRun.

Variable fl : Q -> Q.
Hypothesis fl_mono : forall x y : Q, (x <= y)%Q -> (fl x <= fl y)%Q.
Hypothesis fl_nonneg : (0 <= fl 0)%Q.
Variable write_fails : Z -> bool.
Variables filename task_id : string.


End RangeRun.

Section FastStates.

Variable fl : Q -> Q.
Hypothesis fl_mono : forall x y : Q, (x <= y)%Q -> (fl x <= fl y)%Q.
Hypothesis fl_nonneg : (0 <= fl 0)%Q.
Variable write_fails : Z -> bool.
Variables filename task_id : string.
Variable a : loop_args.
Variable total : Z.
Hypothesis total_pos : 0 < total.



End FastStates.

Section FastRun.

Variable fl : Q -> Q.
Hypothesis fl_mono : forall x y : Q, (x <= y)%Q -> (fl x <= fl y)%Q.
Hypothesis fl_nonneg : (0 <= fl 0)%Q.
Variable write_fails : Z -> bool.
Variable task_id : string.


End FastRun.

(** * Claims about the progress a poll reads *)

Section ProgressClaims.



End ProgressClaims.

(** * The conversion between Unix seconds and UUID ticks *)

Section ConversionFacts.

Import PyFloat UUIDv1Generator.

Lemma pos_shiftl_pow2 (k : N) : Z.pos (Pos.shiftl 1 k) = 2 ^ Z.of_N k.
Proof.
  destruct k as [|p]; [reflexivity |].
  unfold Pos.shiftl. rewrite <- (Z.shiftl_1_l (Z.of_N (N.pos p))).
  unfold Z.shiftl. cbn [Z.of_N].
  induction p using Pos.peano_ind.
  - reflexivity.
  - rewrite !Pos.iter_succ. rewrite Pos2Z.inj_xO. by rewrite IHp.
Qed.

(** [int(x)] drops the fractional part. *)
Lemma trunc_toward_zero x n : trunc x = Ok n -> truncation_of (to_Q x) n.
Proof.
  destruct x as [s| s | |s m e]; try done.
  - intros [= <-]. split; intros _; split; done.
  - cbn [trunc to_Q]. intros [= <-].
    destruct (Z.leb_spec 0 e) as [He | He].
    + set (a := Z.shiftl (Z.pos m) e).
      assert (0 <= a) as Ha by (by apply Z.shiftl_nonneg).
      destruct s; split; intros Hx; unfold Qle, Qlt in *; simpl in *; lia.
    + rewrite Z.shiftr_div_pow2 by lia.
      pose proof (pos_shiftl_pow2 (Z.to_N (- e))) as Hp.
      rewrite Z2N.id in Hp by lia.
      assert (0 < 2 ^ (- e)) as Hpos by (apply Z.pow_pos_nonneg; lia).
      pose proof (Z.div_mod (Z.pos m) (2 ^ (- e)) ltac:(lia)) as Hdm.
      pose proof (Z.mod_pos_bound (Z.pos m) (2 ^ (- e)) Hpos) as Hmb.
      set (q := Z.pos m / 2 ^ (- e)) in *.
      set (r := Z.pos m mod 2 ^ (- e)) in *.
      destruct s; split; intros Hx; unfold Qle, Qlt, Qminus, Qplus, Qopp in *;
        cbn [Qnum Qden inject_Z Pos.mul] in *; rewrite ?Hp in *; nia.
Qed.

(** [uuid.UUID(fields=...)] on fields within range. *)
Lemma of_fields_pack tl tm thv csh csl nd :
  0 <= tl < 2 ^ 32 -> 0 <= tm < 2 ^ 16 -> 0 <= thv < 2 ^ 16 ->
  0 <= csh < 2 ^ 8 -> 0 <= csl < 2 ^ 8 -> 0 <= nd < 2 ^ 48 ->
  uuid.of_fields tl tm thv csh csl nd
  = Ok (uuid.mkUUID
          ((((tl * 2 ^ 16 + tm) * 2 ^ 16 + thv) * 2 ^ 16 + (csh * 2 ^ 8 + csl)) * 2 ^ 48 + nd)).
Proof.
  intros Htl Htm Hthv Hcsh Hcsl Hnd. unfold uuid.of_fields.
  rewrite !Z.shiftl_1_l.
  repeat match goal with
  | |- context [negb ((0 <=? ?x) && (?x <? ?b))] =>
      replace ((0 <=? x) && (x <? b)) with true
        by (symmetry; apply andb_true_iff; split; [apply Z.leb_le | apply Z.ltb_lt]; lia);
      cbn [negb]
  end.
  do 2 f_equal.
  rewrite (lor_shiftl_add csh csl 8) by lia.
  replace (Z.shiftl tl 96) with (Z.shiftl (Z.shiftl tl 16) 80)
    by (rewrite Z.shiftl_shiftl by lia; reflexivity).
  rewrite <- Z.shiftl_lor, (lor_shiftl_add tl tm 16) by lia.
  replace (Z.shiftl (tl * 2 ^ 16 + tm) 80)
    with (Z.shiftl (Z.shiftl (tl * 2 ^ 16 + tm) 16) 64)
    by (rewrite Z.shiftl_shiftl by lia; reflexivity).
  rewrite <- Z.shiftl_lor, (lor_shiftl_add _ thv 16) by lia.
  replace (Z.shiftl ((tl * 2 ^ 16 + tm) * 2 ^ 16 + thv) 64)
    with (Z.shiftl (Z.shiftl ((tl * 2 ^ 16 + tm) * 2 ^ 16 + thv) 16) 48)
    by (rewrite Z.shiftl_shiftl by lia; reflexivity).
  rewrite <- Z.shiftl_lor, (lor_shiftl_add _ (csh * 2 ^ 8 + csl) 16) by lia.
  apply lor_shiftl_add; lia.
Qed.

(** The three slices of an integer, of either sign, re-join to its low 60
    bits. *)
Lemma masked_parts n :
  ((n / 2 ^ 48) mod 2 ^ 12) * 2 ^ 48 + ((n / 2 ^ 32) mod 2 ^ 16) * 2 ^ 32 + n mod 2 ^ 32
  = n mod 2 ^ 60.
Proof.
  pose proof (Z.div_mod n (2 ^ 60) ltac:(lia)) as Hn.
  pose proof (Z.mod_pos_bound n (2 ^ 60) ltac:(lia)) as Hm.
  set (q := n / 2 ^ 60) in *. set (m := n mod 2 ^ 60) in *.
  assert (n / 2 ^ 48 = q * 2 ^ 12 + m / 2 ^ 48) as E48.
  { rewrite Hn. replace (2 ^ 60 * q + m) with (q * 2 ^ 12 * 2 ^ 48 + m) by lia.
    by rewrite Z.div_add_l. }
  assert (n / 2 ^ 32 = q * 2 ^ 28 + m / 2 ^ 32) as E32.
  { rewrite Hn. replace (2 ^ 60 * q + m) with (q * 2 ^ 28 * 2 ^ 32 + m) by lia.
    by rewrite Z.div_add_l. }
  assert (n mod 2 ^ 32 = m mod 2 ^ 32) as E0.
  { rewrite Hn. replace (2 ^ 60 * q + m) with (m + q * 2 ^ 28 * 2 ^ 32) by lia.
    by rewrite Z.mod_add. }
  destruct (timestamp_parts m Hm) as (_ & _ & H48 & Hsum).
  rewrite E48, E32, E0.
  replace (q * 2 ^ 12 + m / 2 ^ 48) with (m / 2 ^ 48 + q * 2 ^ 12) by lia.
  rewrite Z.mod_add by lia. rewrite (Z.mod_small (m / 2 ^ 48)) by lia.
  replace (q * 2 ^ 28 + m / 2 ^ 32) with (m / 2 ^ 32 + q * 2 ^ 12 * 2 ^ 16) by lia.
  rewrite Z.mod_add by lia. lia.
Qed.

(** The UUID built for a timestamp: its time fields re-join, both as the
    decoder and as the estimator read them, to the low 60 bits of the tick
    count, and its version digit is 1. *)
Lemma generate_uuid_v1_time self_node t n micros :
  0 <= self_node < 2 ^ 48 ->
  trunc (mul (add t (of_int 12219292800)) (of_int 10000000)) = Ok n ->
  trunc (mul t (of_int 1000000)) = Ok micros ->
  exists u,
    generate_uuid_v1 self_node t = Ok u
    /\ 0 <= uuid.int u < 2 ^ 128
    /\ uuid_time u = n mod 2 ^ 60
    /\ Z.shiftr (uuid.time_hi_version u) 12 = 1
    /\ uuid.node u = self_node.
Proof.
  intros Hnode Hn Hmicros. unfold generate_uuid_v1.
  rewrite Hn, Hmicros. cbn [mbind result_bind].
  change 0xffffffff with (Z.ones 32). change 0xffff with (Z.ones 16).
  change 0x0fff with (Z.ones 12). change 0xff with (Z.ones 8).
  change 0x3f with (Z.ones 6). change 0x80 with (Z.shiftl 1 7).
  rewrite !Z.land_ones, !Z.shiftr_div_pow2 by lia.
  rewrite (Z.lor_comm _ (Z.shiftl 1 12)), (Z.lor_comm _ (Z.shiftl 1 7)).
  pose proof (Z.mod_pos_bound n (2 ^ 32) ltac:(lia)) as B1.
  pose proof (Z.mod_pos_bound (n / 2 ^ 32) (2 ^ 16) ltac:(lia)) as B2.
  pose proof (Z.mod_pos_bound (n / 2 ^ 48) (2 ^ 12) ltac:(lia)) as B3.
  pose proof (Z.mod_pos_bound micros (2 ^ 8) ltac:(lia)) as B4.
  pose proof (Z.mod_pos_bound (micros / 2 ^ 8) (2 ^ 6) ltac:(lia)) as B5.
  rewrite (lor_shiftl_add 1 _ 12), (lor_shiftl_add 1 _ 7) by lia.
  set (tl := n mod 2 ^ 32) in *. set (tm := (n / 2 ^ 32) mod 2 ^ 16) in *.
  set (th := (n / 2 ^ 48) mod 2 ^ 12) in *.
  set (cl := micros mod 2 ^ 8) in *. set (ch := (micros / 2 ^ 8) mod 2 ^ 6) in *.
  rewrite of_fields_pack by lia.
  eexists. split; [reflexivity |].
  set (u := uuid.mkUUID _).
  destruct (fields_of_parts u tl tm (1 * 2 ^ 12 + th) ((1 * 2 ^ 7 + ch) * 2 ^ 8 + cl) self_node)
    as (Hr & Fl & Fm & Fh & _ & _ & Fn); [lia.. | reflexivity |].
  split; [done |]. split; [|split; [|done]].
  - rewrite uuid_time_arith by done. rewrite Fl, Fm, Fh.
    replace (1 * 2 ^ 12 + th) with (th + 1 * 2 ^ 12) by lia.
    rewrite Z.mod_add by lia. rewrite (Z.mod_small th) by lia.
    apply masked_parts.
  - rewrite Fh, Z.shiftr_div_pow2 by lia. rewrite Z.div_add_l by lia.
    rewrite Z.div_small by lia. lia.
Qed.

End ConversionFacts.

(** * Claims about the timestamp conversion *)

Section ConversionClaims.

Import PyFloat UUIDv1Generator.

(** C5, counterexample. Thirteen microseconds after the UUID epoch the tick
    count is 133.514404296875: the UUID carries 133 where the nearest tick
    is 134. *)
Lemma tick_count_is_not_nearest :
  (to_Q t_1582 == - inject_Z 12219292800 + (7 # 524288))%Q
  /\ (to_Q (mul (add t_1582 (of_int 12219292800)) (of_int 10000000))
      == 546875 # 4096)%Q
  /\ round (mul (add t_1582 (of_int 12219292800)) (of_int 10000000)) = Ok 134
  /\ exists u, generate_uuid_v1 0 t_1582 = Ok u /\ uuid_time u = 133.
Proof.
  split; [vm_compute; reflexivity |]. split; [vm_compute; reflexivity |].
  split; [vm_compute; reflexivity |].
  exists (uuid.mkUUID 10537345689966553781551411232768).
  split; vm_compute; reflexivity.
Qed.

(** C5. Whenever the two float products of [generate_uuid_v1] are finite,
    the UUID it builds carries, in its three time fields, the low 60 bits
    of [int((timestamp + 12219292800) * 10000000)]: the float product with
    its fractional part dropped (rounded toward zero), not rounded to the
    nearest tick. *)
Theorem generate_uuid_v1_truncates
    (self_node : Z) (t : float) (n micros : Z) :
  0 <= self_node < 2 ^ 48 ->
  trunc (mul (add t (of_int 12219292800)) (of_int 10000000)) = Ok n ->
  trunc (mul t (of_int 1000000)) = Ok micros ->
  truncation_of (to_Q (mul (add t (of_int 12219292800)) (of_int 10000000))) n
  /\ exists u,
       generate_uuid_v1 self_node t = Ok u
       /\ uuid_time u = n mod 2 ^ 60
       /\ timestamp_hex u = Ok (n mod 2 ^ 60)
       /\ Z.shiftr (uuid.time_hi_version u) 12 = 1.
Proof.
  intros Hnode Hn Hmicros. split; [by apply trunc_toward_zero |].
  destruct (generate_uuid_v1_time self_node t n micros Hnode Hn Hmicros)
    as (u & Hu & Hr & Ht & Hv & _).
  exists u. split; [done |]. split; [done |]. split; [|done].
  rewrite timestamp_hex_uuid_time by done. by rewrite Ht.
Qed.

Lemma generate_uuid_v1_truncates_witness :
  truncation_of (to_Q (mul (add t_2023 (of_int 12219292800)) (of_int 10000000)))
    139192928000000000
  /\ exists u,
       generate_uuid_v1 0xaedb2c11800f t_2023 = Ok u
       /\ uuid_time u = 139192928000000000 mod 2 ^ 60
       /\ timestamp_hex u = Ok (139192928000000000 mod 2 ^ 60)
       /\ Z.shiftr (uuid.time_hi_version u) 12 = 1.
Proof.
  apply (generate_uuid_v1_truncates 0xaedb2c11800f t_2023
           139192928000000000 1700000000000000).
  - lia.
  - vm_compute; reflexivity.
  - vm_compute; reflexivity.
Defined.

(** C6, counterexample. The double right after 1700000000 comes back as
    1700000000: the round trip is off by [2^-22] seconds, about 238
    nanoseconds. *)
Lemma round_trip_off_by_238ns :
  exists u r,
    generate_uuid_v1 0 t_2023 = Ok u
    /\ uuid_to_timestamp u = Ok r
    /\ (to_Q t_2023 - to_Q r == 1 # 4194304)%Q
    /\ (1 # 10000000 < 1 # 4194304)%Q.
Proof.
  eexists _, _. split; [vm_compute; reflexivity |].
  split; [vm_compute; reflexivity |].
  split; [vm_compute; reflexivity | reflexivity].
Qed.

(** C6. Whenever the two float products of [generate_uuid_v1] are finite,
    decoding the UUID it builds returns the double
    [ticks / 10000000 - 12219292800], both operations rounded, where
    [ticks] are the low 60 bits of the truncated tick count: what comes
    back depends on the timestamp only through its tick count. *)
Theorem uuid_to_timestamp_of_generated
    (self_node : Z) (t : float) (n micros : Z) :
  0 <= self_node < 2 ^ 48 ->
  trunc (mul (add t (of_int 12219292800)) (of_int 10000000)) = Ok n ->
  trunc (mul t (of_int 1000000)) = Ok micros ->
  exists u uuid_seconds,
    generate_uuid_v1 self_node t = Ok u
    /\ truediv (n mod 2 ^ 60) 10000000 = Ok uuid_seconds
    /\ uuid_to_timestamp u = Ok (sub uuid_seconds (of_int 12219292800)).
Proof.
  intros Hnode Hn Hmicros.
  destruct (generate_uuid_v1_time self_node t n micros Hnode Hn Hmicros)
    as (u & Hu & _ & Ht & _).
  destruct (uuid_to_timestamp_ok u) as (r & Hr).
  exists u. unfold uuid_to_timestamp in *. rewrite Ht in Hr |- *.
  destruct (truediv (n mod 2 ^ 60) 10000000) as [s|]; [|discriminate Hr].
  exists s. split; [exact Hu |]. split; reflexivity.
Qed.

Lemma uuid_to_timestamp_of_generated_witness :
  exists u uuid_seconds,
    generate_uuid_v1 0xaedb2c11800f t_2023 = Ok u
    /\ truediv (139192928000000000 mod 2 ^ 60) 10000000 = Ok uuid_seconds
    /\ uuid_to_timestamp u = Ok (sub uuid_seconds (of_int 12219292800)).
Proof.
  apply (uuid_to_timestamp_of_generated 0xaedb2c11800f t_2023
           139192928000000000 1700000000000000).
  - lia.
  - vm_compute; reflexivity.
  - vm_compute; reflexivity.
Defined.

End ConversionClaims.

(** * The canonical string of a UUID *)

Section StrFacts.

Import Hex Text3.

Lemma hex_fixed_S w n acc :
  hex_fixed (S w) n acc = hex_fixed w (n / 16) (String (hex_char (n mod 16)) acc).
Proof. reflexivity. Qed.

Lemma hex_fixed_mod w : forall n acc,
  hex_fixed w n acc = hex_fixed w (n mod 16 ^ Z.of_nat w) acc.
Proof.
  induction w as [|w IH]; intros n acc; [reflexivity |].
  rewrite !hex_fixed_S. rewrite (IH (n / 16)), (IH (n mod 16 ^ Z.of_nat (S w) / 16)).
  assert (0 < 16 ^ Z.of_nat w) as Hp by (apply Z.pow_pos_nonneg; lia).
  replace (16 ^ Z.of_nat (S w)) with (16 * 16 ^ Z.of_nat w)
    by (rewrite Nat2Z.inj_succ, Z.pow_succ_r by lia; reflexivity).
  rewrite Z.rem_mul_r by lia.
  set (r := n mod 16). set (q := (n / 16) mod 16 ^ Z.of_nat w).
  assert (0 <= r < 16) as Hr by (apply Z.mod_pos_bound; lia).
  assert (0 <= q < 16 ^ Z.of_nat w) as Hq by (apply Z.mod_pos_bound; lia).
  assert ((r + 16 * q) / 16 = q) as -> by (symmetry; apply Z.div_unique with r; lia).
  assert ((r + 16 * q) mod 16 = r) as -> by (symmetry; apply Z.mod_unique with q; lia).
  by rewrite (Z.mod_small q) by lia.
Qed.

Lemma lower_hex_char_val c d : hex_val c = Some d -> hex_char d = lower_hex_char c.
Proof.
  destruct c as [[] [] [] [] [] [] [] []]; vm_compute; intros [= <-]; reflexivity.
Qed.

Lemma lower_hex_app (a b : string) : lower_hex (a +:+ b) = lower_hex a +:+ lower_hex b.
Proof.
  induction a as [|c a IH]; [by rewrite !app_nil_l_s |].
  rewrite app_cons_s. cbn [lower_hex]. by rewrite app_cons_s, IH.
Qed.

Lemma length_lower_hex (a : string) : String.length (lower_hex a) = String.length a.
Proof. induction a as [|c a IH]; simpl; [done | by rewrite IH]. Qed.

(** The digits [format] renders for the value of a digit string are the
    string itself, in lower case. *)
Lemma hex_fixed_hexval (h : string) :
  all_hex h = true -> hex_fixed (String.length h) (hexval h) "" = lower_hex h.
Proof.
  induction h as [|c h IH]; [reflexivity |].
  intros [Hc Hh]%andb_true_iff. specialize (IH Hh).
  unfold is_hex in Hc. destruct (hex_val c) as [d|] eqn:Ed; [|done].
  pose proof (hex_val_range c d Ed) as Hd.
  pose proof (hexval_bounds h) as Hb.
  assert (hexval (String c h) = d * 16 ^ Z.of_nat (String.length h) + hexval h) as E.
  { unfold hexval at 1. cbn [hexval_from]. rewrite Ed. cbn [default].
    rewrite hexval_from_shift. unfold id. ring. }
  change (String.length (String c h)) with (1 + String.length h)%nat.
  rewrite hex_fixed_app, E.
  rewrite (hex_fixed_mod (String.length h)).
  rewrite Z.add_comm, Z.mod_add, Z.div_add, Z.mod_small, Z.div_small by lia.
  rewrite IH. cbn [lower_hex]. rewrite hex_fixed_S. cbn [hex_fixed Z.add].
  rewrite Z.add_0_l, Z.mod_small by lia. rewrite (lower_hex_char_val c d Ed).
  by rewrite app_cons_s, app_nil_l_s.
Qed.

Lemma lower_hex_hexs w : forall n acc,
  lower_hex acc = acc -> lower_hex (hex_fixed w n acc) = hex_fixed w n acc.
Proof.
  induction w as [|w IH]; intros n acc Hacc; [done |].
  rewrite hex_fixed_S. apply IH. cbn [lower_hex]. rewrite Hacc. f_equal.
  assert (0 <= n mod 16 < 16) as H by (apply Z.mod_pos_bound; lia).
  assert (n mod 16 = 0 \/ n mod 16 = 1 \/ n mod 16 = 2 \/ n mod 16 = 3 \/ n mod 16 = 4
          \/ n mod 16 = 5 \/ n mod 16 = 6 \/ n mod 16 = 7 \/ n mod 16 = 8
          \/ n mod 16 = 9 \/ n mod 16 = 10 \/ n mod 16 = 11 \/ n mod 16 = 12
          \/ n mod 16 = 13 \/ n mod 16 = 14 \/ n mod 16 = 15) as Hd by lia.
  repeat (destruct Hd as [-> | Hd]; [reflexivity |]). by rewrite Hd.
Qed.

(** [str(u)] as five groups of digits. *)
Lemma str_UUID_groups n :
  0 <= n < 2 ^ 128 ->
  str_UUID (uuid.mkUUID n)
  = hex_fixed 8 (n / 2 ^ 96) "" +:+ "-" +:+ hex_fixed 4 (n / 2 ^ 80) "" +:+ "-"
    +:+ hex_fixed 4 (n / 2 ^ 64) "" +:+ "-" +:+ hex_fixed 4 (n / 2 ^ 48) "" +:+ "-"
    +:+ hex_fixed 12 n "".
Proof.
  intros Hn. unfold str_UUID. cbn [uuid.int].
  rewrite format_0x_fixed by (try lia; change (16 ^ Z.of_nat 32) with (2 ^ 128); lia).
  assert (hex_fixed 32 n ""
          = hex_fixed 8 (n / 2 ^ 96) "" +:+ hex_fixed 4 (n / 2 ^ 80) ""
            +:+ hex_fixed 4 (n / 2 ^ 64) "" +:+ hex_fixed 4 (n / 2 ^ 48) ""
            +:+ hex_fixed 12 n "") as ->.
  { change 32%nat with (8 + (4 + (4 + (4 + 12))))%nat.
    rewrite (hex_fixed_app 8), (hex_fixed_app 4 (4 + (4 + 12))),
      (hex_fixed_app 4 (4 + 12)), (hex_fixed_app 4 12).
    reflexivity. }
  set (g1 := hex_fixed 8 _ ""). set (g2 := hex_fixed 4 (n / 2 ^ 80) "").
  set (g3 := hex_fixed 4 (n / 2 ^ 64) ""). set (g4 := hex_fixed 4 (n / 2 ^ 48) "").
  set (g5 := hex_fixed 12 n "").
  assert (String.length g1 = 8%nat) as L1 by apply length_hexs.
  assert (String.length g2 = 4%nat) as L2 by apply length_hexs.
  assert (String.length g3 = 4%nat) as L3 by apply length_hexs.
  assert (String.length g4 = 4%nat) as L4 by apply length_hexs.
  unfold Text.slice.
  change (Text.drop 0 ?s) with s.
  rewrite (take_app_n 8 g1) by done.
  replace (Text.drop 8 (g1 +:+ g2 +:+ g3 +:+ g4 +:+ g5)) with (g2 +:+ g3 +:+ g4 +:+ g5)
    by (symmetry; by apply drop_app_n).
  rewrite (take_app_n 4 g2) by done.
  replace (Text.drop 12 (g1 +:+ g2 +:+ g3 +:+ g4 +:+ g5)) with (g3 +:+ g4 +:+ g5).
  2:{ rewrite <- (app_assoc_s g1 g2). symmetry. apply drop_app_n.
      rewrite length_app_s. lia. }
  rewrite (take_app_n 4 g3) by done.
  replace (Text.drop 16 (g1 +:+ g2 +:+ g3 +:+ g4 +:+ g5)) with (g4 +:+ g5).
  2:{ rewrite <- (app_assoc_s g1 g2), <- (app_assoc_s (g1 +:+ g2) g3). symmetry.
      apply drop_app_n. rewrite !length_app_s. lia. }
  rewrite (take_app_n 4 g4) by done.
  replace (Text.drop 20 (g1 +:+ g2 +:+ g3 +:+ g4 +:+ g5)) with g5; [reflexivity |].
  rewrite <- (app_assoc_s g1 g2), <- (app_assoc_s (g1 +:+ g2) g3),
    <- (app_assoc_s ((g1 +:+ g2) +:+ g3) g4). symmetry.
  apply drop_app_n. rewrite !length_app_s. lia.
Qed.

(** Parsing the canonical string gives the UUID back. *)
Lemma of_hex_str_UUID u :
  0 <= uuid.int u < 2 ^ 128 ->
  UUID_PATTERN (str_UUID u) = true /\ uuid.of_hex (str_UUID u) = Ok u.
Proof.
  destruct u as [n]. cbn [uuid.int]. intros Hn. rewrite str_UUID_groups by done.
  split.
  - apply UUID_PATTERN_groups; try apply length_hexs; apply all_hex_hexs.
  - rewrite of_hex_groups; try apply all_hex_hexs.
    + do 2 f_equal.
      change (hex_fixed 12 n "") with (hex_fixed 12 n "") at 1.
      rewrite <- (hex_fixed_app 4 12), <- (hex_fixed_app 4 (4 + 12)),
        <- (hex_fixed_app 4 (4 + (4 + 12))).
      change (2 ^ 96) with (16 ^ Z.of_nat (4 + (4 + (4 + 12)))).
      rewrite <- (hex_fixed_app 8 (4 + (4 + (4 + 12)))).
      rewrite hexval_hexs. apply Z.mod_small.
      change (16 ^ Z.of_nat (8 + (4 + (4 + (4 + 12))))) with (2 ^ 128). lia.
    + rewrite !length_hexs. reflexivity.
Qed.

(** The canonical string of a parsed UUID is the input in lower case. *)
Lemma str_UUID_of_hex s u :
  UUID_PATTERN s = true -> uuid.of_hex s = Ok u -> str_UUID u = lower_hex s.
Proof.
  intros (g1 & g2 & g3 & g4 & g5 & -> & L1 & L2 & L3 & L4 & L5
          & H1 & H2 & H3 & H4 & H5)%UUID_PATTERN_shape.
  rewrite of_hex_groups by (try done; lia). intros [= <-].
  set (h := g1 +:+ g2 +:+ g3 +:+ g4 +:+ g5).
  assert (String.length h = 32%nat) as Lh by (unfold h; rewrite !length_app_s; lia).
  assert (all_hex h = true) as Hh.
  { unfold h, all_hex in *. rewrite !all_chars_app. by rewrite H1, H2, H3, H4, H5. }
  pose proof (hexval_bounds h) as Hb. rewrite Lh in Hb.
  change (16 ^ Z.of_nat 32) with (2 ^ 128) in Hb.
  pose proof (str_UUID_groups (hexval h) Hb) as E.
  pose proof (hex_fixed_hexval h Hh) as Eh. rewrite Lh in Eh.
  (* the five groups of the rendering are the groups of [h] in lower case *)
  unfold str_UUID. cbn [uuid.int].
  rewrite format_0x_fixed by (try lia; change (16 ^ Z.of_nat 32) with (2 ^ 128); lia).
  rewrite Eh. unfold h. rewrite !lower_hex_app.
  set (l1 := lower_hex g1). set (l2 := lower_hex g2). set (l3 := lower_hex g3).
  set (l4 := lower_hex g4). set (l5 := lower_hex g5).
  assert (String.length l1 = 8%nat) as M1 by (unfold l1; by rewrite length_lower_hex).
  assert (String.length l2 = 4%nat) as M2 by (unfold l2; by rewrite length_lower_hex).
  assert (String.length l3 = 4%nat) as M3 by (unfold l3; by rewrite length_lower_hex).
  assert (String.length l4 = 4%nat) as M4 by (unfold l4; by rewrite length_lower_hex).
  change (lower_hex "-") with "-".
  unfold Text.slice. change (Text.drop 0 ?s) with s.
  rewrite (take_app_n 8 l1) by done.
  replace (Text.drop 8 (l1 +:+ l2 +:+ l3 +:+ l4 +:+ l5)) with (l2 +:+ l3 +:+ l4 +:+ l5)
    by (symmetry; by apply drop_app_n).
  rewrite (take_app_n 4 l2) by done.
  replace (Text.drop 12 (l1 +:+ l2 +:+ l3 +:+ l4 +:+ l5)) with (l3 +:+ l4 +:+ l5).
  2:{ rewrite <- (app_assoc_s l1 l2). symmetry. apply drop_app_n.
      rewrite length_app_s. lia. }
  rewrite (take_app_n 4 l3) by done.
  replace (Text.drop 16 (l1 +:+ l2 +:+ l3 +:+ l4 +:+ l5)) with (l4 +:+ l5).
  2:{ rewrite <- (app_assoc_s l1 l2), <- (app_assoc_s (l1 +:+ l2) l3). symmetry.
      apply drop_app_n. rewrite !length_app_s. lia. }
  rewrite (take_app_n 4 l4) by done.
  replace (Text.drop 20 (l1 +:+ l2 +:+ l3 +:+ l4 +:+ l5)) with l5; [reflexivity |].
  rewrite <- (app_assoc_s l1 l2), <- (app_assoc_s (l1 +:+ l2) l3),
    <- (app_assoc_s ((l1 +:+ l2) +:+ l3) l4). symmetry.
  apply drop_app_n. rewrite !length_app_s. lia.
Qed.

End StrFacts.

(** * Validation of raw text *)

Section ValidationFacts.

Import Hex Text3.

Lemma lstrip_split (s : string) :
  exists pre, s = pre +:+ lstrip s /\ Text.all_chars is_space pre = true.
Proof.
  induction s as [|c s (pre & E & Hpre)].
  - exists "". split; reflexivity.
  - cbn [lstrip]. destruct (is_space c) eqn:Hc.
    + exists (String c pre). rewrite app_cons_s, <- E. split; [done |].
      cbn [Text.all_chars]. by rewrite Hc, Hpre.
    + exists "". split; [by rewrite app_nil_l_s | reflexivity].
Qed.

Lemma rstrip_split (s : string) :
  exists post, s = rstrip s +:+ post /\ Text.all_chars is_space post = true.
Proof.
  induction s as [|c s (post & E & Hpost)].
  - exists "". split; reflexivity.
  - cbn [rstrip]. destruct (rstrip s) as [|c' r] eqn:Er.
    + rewrite app_nil_l_s in E. subst post. destruct (is_space c) eqn:Hc.
      * exists (String c s). rewrite app_nil_l_s. split; [done |].
        cbn [Text.all_chars]. by rewrite Hc, Hpost.
      * exists s. by rewrite app_cons_s, app_nil_l_s.
    + exists post. rewrite app_cons_s, <- E. done.
Qed.

(** A text is its stripped part between two runs of white space. *)
Lemma strip_split (s : string) :
  exists pre post,
    s = pre +:+ strip s +:+ post
    /\ Text.all_chars is_space pre = true /\ Text.all_chars is_space post = true.
Proof.
  destruct (lstrip_split s) as (pre & E & Hpre).
  destruct (rstrip_split (lstrip s)) as (post & E' & Hpost).
  exists pre, post. unfold strip. by rewrite <- E', <- E.
Qed.

Lemma remove_hyphen_space (s : string) :
  Text.all_chars is_space s = true -> Text.remove_char "-" s = s.
Proof.
  induction s as [|c s IH]; [done |]. cbn [Text.all_chars Text.remove_char].
  intros [Hc Hs]%andb_true_iff. rewrite IH by done.
  destruct (Ascii.eqb_spec c "-") as [-> | _]; [discriminate Hc | done].
Qed.

Lemma validate_uuid_empty_strip (s : string) :
  validate_uuid_raw s = validate_uuid (strip s).
Proof.
  unfold validate_uuid_raw, validate_uuid. destruct s as [|c s]; [reflexivity |].
  destruct (strip (String c s)); reflexivity.
Qed.

Lemma validate_uuid_is_pattern (s : string) : validate_uuid s = UUID_PATTERN s.
Proof.
  unfold validate_uuid. destruct s as [|c s]; [reflexivity |].
  destruct (UUID_PATTERN (String c s)) eqn:E; [|reflexivity].
  destruct (of_hex_valid _ E) as (u & -> & _). reflexivity.
Qed.

(** X2. [validate_uuid] accepts a text exactly when the text without its
    surrounding white space matches [UUID_PATTERN]: the parse by the [uuid]
    module that follows the pattern never rejects. *)
Theorem validate_uuid_raw_is_pattern (uuid_str : string) :
  validate_uuid_raw uuid_str = UUID_PATTERN (strip uuid_str).
Proof. by rewrite validate_uuid_empty_strip, validate_uuid_is_pattern. Qed.

Lemma hex_not_space c : is_hex c = true -> is_space c = false.
Proof. destruct c as [[] [] [] [] [] [] [] []]; vm_compute; congruence. Qed.

Lemma no_space_hex (g : string) :
  all_hex g = true -> Text.all_chars (fun c => negb (is_space c)) g = true.
Proof.
  induction g as [|c g IH]; [done |]. cbn [all_hex Text.all_chars].
  intros [Hc Hg]%andb_true_iff. rewrite (hex_not_space c Hc). by apply IH.
Qed.

Lemma no_space_pattern (s : string) :
  UUID_PATTERN s = true -> Text.all_chars (fun c => negb (is_space c)) s = true.
Proof.
  intros (g1 & g2 & g3 & g4 & g5 & -> & _ & _ & _ & _ & _
          & H1 & H2 & H3 & H4 & H5)%UUID_PATTERN_shape.
  rewrite !all_chars_app.
  rewrite (no_space_hex g1), (no_space_hex g2), (no_space_hex g3), (no_space_hex g4),
    (no_space_hex g5) by done.
  reflexivity.
Qed.

Lemma lstrip_no_space (s : string) :
  Text.all_chars (fun c => negb (is_space c)) s = true -> lstrip s = s.
Proof.
  destruct s as [|c s]; [done |]. cbn [Text.all_chars lstrip].
  intros [Hc _]%andb_true_iff. by destruct (is_space c).
Qed.

Lemma rstrip_no_space (s : string) :
  Text.all_chars (fun c => negb (is_space c)) s = true -> rstrip s = s.
Proof.
  induction s as [|c s IH]; [done |]. cbn [Text.all_chars rstrip].
  intros [Hc Hs]%andb_true_iff. rewrite IH by done.
  destruct s; [|done]. by destruct (is_space c).
Qed.

Lemma strip_no_space (s : string) :
  Text.all_chars (fun c => negb (is_space c)) s = true -> strip s = s.
Proof. intros H. unfold strip. by rewrite lstrip_no_space, rstrip_no_space. Qed.

(** With white space around it, a text whose stripped part parses does
    not parse. *)
Lemma of_hex_padded (s : string) u :
  uuid.of_hex (strip s) = Ok u -> s <> strip s -> uuid.of_hex s = Raise ValueError.
Proof.
  intros Hu Hne.
  destruct (strip_split s) as (pre & post & E & Hpre & Hpost).
  assert (String.length (Text.remove_char "-" (strip s)) = 32%nat) as L.
  { unfold uuid.of_hex in Hu.
    destruct (Nat.eqb_spec (String.length (Text.remove_char "-" (strip s))) 32);
      [done | discriminate Hu]. }
  assert (String.length pre + String.length post <> 0)%nat as Hlen.
  { intros H0. apply Hne. destruct pre; [|simpl in H0; lia].
    destruct post; [|simpl in H0; lia].
    by rewrite app_nil_l_s, app_nil_r_s in E. }
  assert (Text.remove_char "-" s
          = pre +:+ Text.remove_char "-" (strip s) +:+ post) as R.
  { rewrite E at 1. rewrite !remove_char_app.
    by rewrite (remove_hyphen_space pre), (remove_hyphen_space post). }
  unfold uuid.of_hex. rewrite R, !length_app_s, L.
  destruct (Nat.eqb_spec (String.length pre + (32 + String.length post)) 32);
    [lia | reflexivity].
Qed.

(** X3. For a text [validate_uuid] accepts, the stripped text parses; the
    canonical string of the UUID is the stripped text in lower case, and
    parses to the same UUID. The text itself parses only if nothing was
    stripped: with white space around it, [uuid.UUID] raises [ValueError]
    although the validation passed. *)
Theorem validated_text_round_trip (uuid_str : string) :
  validate_uuid_raw uuid_str = true ->
  exists u,
    uuid.of_hex (strip uuid_str) = Ok u
    /\ 0 <= uuid.int u < 2 ^ 128
    /\ str_UUID u = lower_hex (strip uuid_str)
    /\ uuid.of_hex (str_UUID u) = Ok u
    /\ validate_uuid_raw (str_UUID u) = true
    /\ (uuid_str <> strip uuid_str -> uuid.of_hex uuid_str = Raise ValueError).
Proof.
  rewrite validate_uuid_empty_strip, validate_uuid_is_pattern. intros Hp.
  destruct (of_hex_valid _ Hp) as (u & Hu & Hr).
  exists u. split; [done |]. split; [done |].
  split; [by apply str_UUID_of_hex |].
  destruct (of_hex_str_UUID u Hr) as [Hp' Hu'].
  split; [done |]. split.
  - rewrite validate_uuid_empty_strip, validate_uuid_is_pattern.
    by rewrite strip_no_space by (by apply no_space_pattern).
  - intros Hne.
    destruct (strip_split uuid_str) as (pre & post & E & Hpre & Hpost).
    assert (String.length (Text.remove_char "-" (strip uuid_str)) = 32%nat) as L.
    { unfold uuid.of_hex in Hu.
      destruct (Nat.eqb_spec (String.length (Text.remove_char "-" (strip uuid_str))) 32);
        [done | discriminate Hu]. }
    assert (String.length pre + String.length post <> 0)%nat as Hlen.
    { intros H0. apply Hne. destruct pre; [|simpl in H0; lia].
      destruct post; [|simpl in H0; lia].
      by rewrite app_nil_l_s, app_nil_r_s in E. }
    assert (Text.remove_char "-" uuid_str
            = pre +:+ Text.remove_char "-" (strip uuid_str) +:+ post) as R.
    { rewrite E at 1. rewrite !remove_char_app.
      by rewrite (remove_hyphen_space pre), (remove_hyphen_space post). }
    unfold uuid.of_hex. rewrite R, !length_app_s, L.
    destruct (Nat.eqb_spec (String.length pre + (32 + String.length post)) 32);
      [lia | reflexivity].
Qed.

Lemma validated_text_round_trip_witness :
  exists u,
    uuid.of_hex (strip " 0867D7EE-f8d5-11ef-8a38-aedb2c11800f ") = Ok u
    /\ 0 <= uuid.int u < 2 ^ 128
    /\ str_UUID u = lower_hex (strip " 0867D7EE-f8d5-11ef-8a38-aedb2c11800f ")
    /\ uuid.of_hex (str_UUID u) = Ok u
    /\ validate_uuid_raw (str_UUID u) = true
    /\ (" 0867D7EE-f8d5-11ef-8a38-aedb2c11800f "
        <> strip " 0867D7EE-f8d5-11ef-8a38-aedb2c11800f " ->
        uuid.of_hex " 0867D7EE-f8d5-11ef-8a38-aedb2c11800f " = Raise ValueError).
Proof.
  apply (validated_text_round_trip " 0867D7EE-f8d5-11ef-8a38-aedb2c11800f ").
  vm_compute; reflexivity.
Defined.

End ValidationFacts.

(** * What the analyzer reports *)

Section ReportFacts.

Import Hex Text3 UUIDv1Generator Analyzer.

(** X4. The analyzer's variant text against the [uuid] module's own
    classification: a UUID is of the RFC 4122 variant exactly when the
    analyzer calls it a Microsoft GUID; what the analyzer calls DCE 1.1 is
    of the reserved NCS variant, and the Microsoft and future variants are
    both reported as reserved for future definition. *)
Theorem variant_desc_against_variant (u : uuid.UUID) :
  (uuid.variant u = uuid.RFC_4122 <-> variant_desc u = "Microsoft GUID")
  /\ (variant_desc u = "DCE 1.1, ISO/IEC 11578:1996"
      \/ variant_desc u = "Reserved (NCS backward compatibility)"
      <-> uuid.variant u = uuid.RESERVED_NCS)
  /\ (variant_desc u = "Reserved for future definition"
      <-> uuid.variant u = uuid.RESERVED_MICROSOFT
          \/ uuid.variant u = uuid.RESERVED_FUTURE).
Proof.
  rewrite variant_of_bits. unfold variant_desc.
  destruct (variant_bits u) as (Hvb & _).
  set (vb := Z.shiftr (uuid.clock_seq_hi_variant u) 6) in *.
  assert (vb = 0 \/ vb = 1 \/ vb = 2 \/ vb = 3) as [E | [E | [E | E]]] by lia;
    rewrite E; cbn [Z.eqb Pos.eqb].
  - split; [split; discriminate |]. split; [split; [done | by right] |].
    split; [discriminate | intros [? | ?]; discriminate].
  - split; [split; discriminate |]. split; [split; [done | by left] |].
    split; [discriminate | intros [? | ?]; discriminate].
  - split; [done |]. split; [split; [intros [? | ?]; discriminate | discriminate] |].
    split; [discriminate | intros [? | ?]; discriminate].
  - destruct (Z.testbit (uuid.int u) 61).
    + split; [split; discriminate |].
      split; [split; [intros [? | ?]; discriminate | discriminate] |].
      split; [by right | done].
    + split; [split; discriminate |].
      split; [split; [intros [? | ?]; discriminate | discriminate] |].
      split; [by left | done].
Qed.

End ReportFacts.
Section V2Facts.

Import Hex Text3 PyFloat UUIDv1Generator Analyzer.

(** The node field [generate_uuid_v2_like] packs, and what
    [extract_posix_info] reads back from it. *)
Lemma posix_node_parts d uid gid :
  0 <= d < 2 ^ 4 -> 0 <= uid < 2 ^ 16 -> 0 <= gid < 2 ^ 16 ->
  let node_field := Z.lor (Z.lor (Z.shiftl d 44) (Z.shiftl uid 28)) (Z.shiftl gid 12) in
  node_field = ((d * 2 ^ 16 + uid) * 2 ^ 16 + gid) * 2 ^ 12
  /\ 0 <= node_field < 2 ^ 48
  /\ Z.land (Z.shiftr node_field 44) 0x0F = d
  /\ Z.land (Z.shiftr node_field 28) 0xFFFF = uid
  /\ Z.land (Z.shiftr node_field 12) 0xFFFF = gid.
Proof.
  intros Hd Hu Hg. cbv zeta.
  assert (Z.lor (Z.lor (Z.shiftl d 44) (Z.shiftl uid 28)) (Z.shiftl gid 12)
          = ((d * 2 ^ 16 + uid) * 2 ^ 16 + gid) * 2 ^ 12) as ->.
  { replace (Z.shiftl d 44) with (Z.shiftl (Z.shiftl d 16) 28)
      by (rewrite Z.shiftl_shiftl by lia; reflexivity).
    rewrite <- Z.shiftl_lor, (lor_shiftl_add d uid 16) by lia.
    replace (Z.shiftl (d * 2 ^ 16 + uid) 28)
      with (Z.shiftl (Z.shiftl (d * 2 ^ 16 + uid) 16) 12)
      by (rewrite Z.shiftl_shiftl by lia; reflexivity).
    rewrite <- Z.shiftl_lor, (lor_shiftl_add _ gid 16) by lia.
    by rewrite Z.shiftl_mul_pow2 by lia. }
  split; [done |]. split; [lia |].
  change 0x0F with (Z.ones 4). change 0xFFFF with (Z.ones 16).
  rewrite !Z.land_ones, !Z.shiftr_div_pow2 by lia.
  split; [|split].
  - replace (((d * 2 ^ 16 + uid) * 2 ^ 16 + gid) * 2 ^ 12)
      with (d * 2 ^ 44 + ((uid * 2 ^ 16 + gid) * 2 ^ 12)) by lia.
    rewrite div_parts by lia. apply Z.mod_small. lia.
  - replace (((d * 2 ^ 16 + uid) * 2 ^ 16 + gid) * 2 ^ 12)
      with ((d * 2 ^ 16 + uid) * 2 ^ 28 + gid * 2 ^ 12) by lia.
    rewrite div_parts by lia. by apply mod_parts.
  - rewrite Z.div_mul by lia. by apply mod_parts.
Qed.

(** The 128-bit value of the UUID [generate_uuid_v2_like] builds. *)
Lemma generate_uuid_v2_like_int uuid1 now ticks csl d uid gid :
  trunc (mul now (of_int 10000000)) = Ok ticks ->
  0 <= csl < 2 ^ 8 -> 0 <= d < 2 ^ 4 -> 0 <= uid < 2 ^ 16 -> 0 <= gid < 2 ^ 16 ->
  uuid.int (generate_uuid_v2_like uuid1 now csl d uid gid)
  = (((((ticks + 122192928000000000) mod 2 ^ 32) * 2 ^ 16
       + ((ticks + 122192928000000000) / 2 ^ 32) mod 2 ^ 16) * 2 ^ 16
      + (1 * 2 ^ 12 + ((ticks + 122192928000000000) / 2 ^ 48) mod 2 ^ 12)) * 2 ^ 16
     + (64 * 2 ^ 8 + csl)) * 2 ^ 48
    + ((d * 2 ^ 16 + uid) * 2 ^ 16 + gid) * 2 ^ 12.
Proof.
  intros Htr Hc Hd Hu Hg. unfold generate_uuid_v2_like.
  rewrite Htr. cbn [mbind result_bind].
  set (T := ticks + 122192928000000000).
  destruct (posix_node_parts d uid gid Hd Hu Hg) as (-> & Hn & _).
  change 0xFFFFFFFF with (Z.ones 32). change 0xFFFF with (Z.ones 16).
  change 0x0FFF with (Z.ones 12). change 0x1000 with (Z.shiftl 1 12).
  rewrite !Z.land_ones, !Z.shiftr_div_pow2 by lia.
  rewrite (Z.lor_comm _ (Z.shiftl 1 12)).
  pose proof (Z.mod_pos_bound T (2 ^ 32) ltac:(lia)) as B1.
  pose proof (Z.mod_pos_bound (T / 2 ^ 32) (2 ^ 16) ltac:(lia)) as B2.
  pose proof (Z.mod_pos_bound (T / 2 ^ 48) (2 ^ 12) ltac:(lia)) as B3.
  rewrite (lor_shiftl_add 1 _ 12) by lia.
  set (L := T mod 2 ^ 32) in *. set (M := (T / 2 ^ 32) mod 2 ^ 16) in *.
  set (H := (T / 2 ^ 48) mod 2 ^ 12) in *.
  set (N := ((d * 2 ^ 16 + uid) * 2 ^ 16 + gid) * 2 ^ 12) in *.
  rewrite (format_0x_fixed 8 L), (format_0x_fixed 4 M), (format_0x_fixed 4 (1 * 2 ^ 12 + H)),
    (format_0x_fixed 2 64), (format_0x_fixed 2 csl), (format_0x_fixed 12 N)
    by (try lia; try (change (16 ^ Z.of_nat 8) with (2 ^ 32); lia);
        try (change (16 ^ Z.of_nat 4) with (2 ^ 16); lia);
        try (change (16 ^ Z.of_nat 2) with (2 ^ 8); lia);
        try (change (16 ^ Z.of_nat 12) with (2 ^ 48); lia)).
  set (g4 := hex_fixed 2 64 "" +:+ hex_fixed 2 csl "").
  assert (forall r, hex_fixed 2 64 "" +:+ hex_fixed 2 csl "" +:+ r = g4 +:+ r) as Eg
    by (intros r; unfold g4; by rewrite app_assoc_s).
  rewrite Eg.
  assert (String.length g4 = 4%nat) as L4
    by (unfold g4; rewrite length_app_s, !length_hexs; reflexivity).
  assert (all_hex g4 = true) as H4.
  { unfold g4, all_hex. by rewrite all_chars_app, !all_hex_hexs. }
  rewrite (of_hex_groups (hex_fixed 8 L "") (hex_fixed 4 M "")
             (hex_fixed 4 (1 * 2 ^ 12 + H) "") g4 (hex_fixed 12 N ""))
    by (try apply all_hex_hexs; try done; rewrite !length_hexs, L4; reflexivity).
  cbn [uuid.int]. unfold g4.
  rewrite !hexval_app, !length_app_s, !length_hexs, !hexval_hexs.
  change (16 ^ Z.of_nat 2) with (2 ^ 8). change (16 ^ Z.of_nat 4) with (2 ^ 16).
  change (16 ^ Z.of_nat 8) with (2 ^ 32). change (16 ^ Z.of_nat 12) with (2 ^ 48).
  change (16 ^ Z.of_nat (2 + 2 + 12)) with (2 ^ 64).
  change (16 ^ Z.of_nat (4 + (2 + 2 + 12))) with (2 ^ 80).
  change (16 ^ Z.of_nat (4 + (4 + (2 + 2 + 12)))) with (2 ^ 96).
  rewrite (Z.mod_small L), (Z.mod_small M), (Z.mod_small (1 * 2 ^ 12 + H)),
    (Z.mod_small 64), (Z.mod_small csl), (Z.mod_small N) by lia.
  ring.
Qed.

(** X5. Whatever the clock and the random draws (within the ranges
    [generate_uuid_v2_like] draws from), the UUID it builds carries the low
    60 bits of the tick count, has no version for the [uuid] module, and is
    reported by the analyzer as version 2 with [possible_v2]; its clock
    sequence is the low byte drawn, so the DCE domain shown is always the
    local one, and [extract_posix_info] reads the drawn domain, UID and GID
    back from the node field. *)
Theorem generate_uuid_v2_like_is_detected
    (uuid1 : uuid.UUID) (now : float) (ticks clock_seq_low dce_domain posix_uid posix_gid : Z) :
  trunc (mul now (of_int 10000000)) = Ok ticks ->
  0x01 <= clock_seq_low <= 0x3F ->
  0x01 <= dce_domain <= 0x0F ->
  1000 <= posix_uid <= 0xFFFF ->
  1000 <= posix_gid <= 0xFFFF ->
  let u := generate_uuid_v2_like uuid1 now clock_seq_low dce_domain posix_uid posix_gid in
  uuid_time u = (ticks + 122192928000000000) mod 2 ^ 60
  /\ uuid.version u = None
  /\ (exists r,
        analyze_uuid (str_UUID u) = Ok r
        /\ version r = Some 2 /\ possible_v2 r = true
        /\ variant_code r = 1 /\ clock_seq r = clock_seq_low)
  /\ v2_dce_domain (get_possible_v2_specific_fields u) = "Local DCE Security Domain"
  /\ v2_posix_uid_gid (get_possible_v2_specific_fields u)
     = "Domain: " +:+ format_d dce_domain +:+ ", UID: " +:+ format_d posix_uid
       +:+ ", GID: " +:+ format_d posix_gid.
Proof.
  intros Htr Hc Hd Hu Hg u.
  pose proof (generate_uuid_v2_like_int uuid1 now ticks clock_seq_low dce_domain
                posix_uid posix_gid Htr ltac:(lia) ltac:(lia) ltac:(lia) ltac:(lia)) as Eint.
  fold u in Eint.
  set (T := ticks + 122192928000000000) in *.
  pose proof (Z.mod_pos_bound T (2 ^ 32) ltac:(lia)) as B1.
  pose proof (Z.mod_pos_bound (T / 2 ^ 32) (2 ^ 16) ltac:(lia)) as B2.
  pose proof (Z.mod_pos_bound (T / 2 ^ 48) (2 ^ 12) ltac:(lia)) as B3.
  destruct (posix_node_parts dce_domain posix_uid posix_gid
              ltac:(lia) ltac:(lia) ltac:(lia)) as (En & Hn & Pd & Pu & Pg).
  rewrite En in Hn, Pd, Pu, Pg.
  assert (0 <= 1 * 2 ^ 12 + (T / 2 ^ 48) mod 2 ^ 12 < 2 ^ 16) as B4 by lia.
  assert (0 <= 64 * 2 ^ 8 + clock_seq_low < 2 ^ 16) as B5 by lia.
  destruct (fields_of_parts u _ _ _ _ _ B1 B2 B4 B5 Hn Eint)
    as (Hr & F1 & F2 & F3 & F4 & F5 & F6).
  rewrite div_parts in F4 by lia. rewrite mod_parts in F5 by lia.
  assert (is_likely_uuid_v2 u = true) as Hv2.
  { unfold is_likely_uuid_v2. rewrite F4, F5.
    change (Z.shiftr 64 6 =? 1) with true. cbv iota.
    change (Z.shiftl (Z.land 64 0x3f) 8) with 0. rewrite Z.lor_0_l.
    destruct (Z.leb_spec 1 clock_seq_low); [|lia].
    destruct (Z.leb_spec clock_seq_low 0x3FFF); [reflexivity | lia]. }
  assert (uuid.version u = None) as Hver.
  { unfold uuid.version. rewrite variant_of_bits, F4. reflexivity. }
  split.
  { rewrite uuid_time_arith, F1, F2, F3 by done.
    rewrite Z.add_comm with (n := 1 * 2 ^ 12), Z.mod_add by lia.
    rewrite Z.mod_mod by lia. apply masked_parts. }
  split; [done |]. split.
  { destruct (of_hex_str_UUID u Hr) as [_ Hp].
    destruct (uuid_to_timestamp_ok u) as (x & Hx).
    unfold analyze_uuid. rewrite Hp. cbn [mbind result_bind].
    rewrite Hver, Hv2, Hx. cbn [mbind result_bind].
    eexists. split; [reflexivity |].
    cbn [version possible_v2 variant_code clock_seq]. rewrite F4, F5.
    split; [reflexivity |]. split; [reflexivity |]. split; [reflexivity |].
    change (Z.shiftl (Z.land 64 0x3f) 8) with 0. apply Z.lor_0_l. }
  unfold get_possible_v2_specific_fields.
  cbn [v2_dce_domain v2_posix_uid_gid]. rewrite F4, F5, F6.
  change (Z.shiftl (Z.land 64 0x3f) 8) with 0. rewrite Z.lor_0_l.
  split.
  - unfold get_dce_domain. destruct (Z.ltb_spec clock_seq_low 0x1000); [done | lia].
  - unfold extract_posix_info. rewrite Pd, Pu, Pg.
    destruct (Z.ltb_spec 0 posix_uid); [reflexivity | lia].
Qed.

Lemma generate_uuid_v2_like_is_detected_witness :
  let u := generate_uuid_v2_like (uuid.mkUUID 0) t_2023 39 3 1000 1001 in
  uuid_time u = (17000000000000002 + 122192928000000000) mod 2 ^ 60
  /\ uuid.version u = None
  /\ (exists r,
        analyze_uuid (str_UUID u) = Ok r
        /\ version r = Some 2 /\ possible_v2 r = true
        /\ variant_code r = 1 /\ clock_seq r = 39)
  /\ v2_dce_domain (get_possible_v2_specific_fields u) = "Local DCE Security Domain"
  /\ v2_posix_uid_gid (get_possible_v2_specific_fields u)
     = "Domain: " +:+ format_d 3 +:+ ", UID: " +:+ format_d 1000
       +:+ ", GID: " +:+ format_d 1001.
Proof.
  apply (generate_uuid_v2_like_is_detected (uuid.mkUUID 0) t_2023
           17000000000000002 39 3 1000 1001).
  - vm_compute; reflexivity.
  - lia.
  - lia.
  - lia.
  - lia.
Defined.

End V2Facts.

Section V1Facts.

Import Hex Text3 PyFloat UUIDv1Generator Analyzer.

(** The version nibble of the value is the top digit of [time_hi_version]. *)
Lemma version_nibble u :
  Z.land (Z.shiftr (uuid.int u) 76) 0xf = Z.shiftr (uuid.time_hi_version u) 12.
Proof.
  rewrite time_hi_version_div. change 0xf with (Z.ones 4).
  rewrite Z.land_ones, !Z.shiftr_div_pow2 by lia.
  change (2 ^ 76) with (2 ^ 64 * 2 ^ 12). rewrite <- Z.div_div by lia.
  set (q := uuid.int u / 2 ^ 64).
  pose proof (Z.div_mod q (2 ^ 16) ltac:(lia)) as E.
  pose proof (Z.mod_pos_bound q (2 ^ 16) ltac:(lia)) as B.
  set (a := q / 2 ^ 16) in *. set (b := q mod 2 ^ 16) in *.
  rewrite E. replace (2 ^ 16 * a + b) with (a * 2 ^ 4 * 2 ^ 12 + b) by lia.
  rewrite Z.div_add_l by lia.
  replace (a * 2 ^ 4 + b / 2 ^ 12) with (b / 2 ^ 12 + a * 2 ^ 4) by lia.
  rewrite Z.mod_add by lia. apply Z.mod_small.
  split; [apply Z.div_pos; lia | apply Z.div_lt_upper_bound; lia].
Qed.

(** The 128-bit value of the UUID [generate_uuid_v1] builds for a
    timestamp. *)
Lemma generate_uuid_v1_int self_node t n micros :
  0 <= self_node < 2 ^ 48 ->
  trunc (mul (add t (of_int 12219292800)) (of_int 10000000)) = Ok n ->
  trunc (mul t (of_int 1000000)) = Ok micros ->
  generate_uuid_v1 self_node t
  = Ok (uuid.mkUUID
          (((((n mod 2 ^ 32) * 2 ^ 16 + (n / 2 ^ 32) mod 2 ^ 16) * 2 ^ 16
             + (1 * 2 ^ 12 + (n / 2 ^ 48) mod 2 ^ 12)) * 2 ^ 16
            + ((1 * 2 ^ 7 + (micros / 2 ^ 8) mod 2 ^ 6) * 2 ^ 8 + micros mod 2 ^ 8))
           * 2 ^ 48 + self_node)).
Proof.
  intros Hnode Hn Hmicros. unfold generate_uuid_v1.
  rewrite Hn, Hmicros. cbn [mbind result_bind].
  change 0xffffffff with (Z.ones 32). change 0xffff with (Z.ones 16).
  change 0x0fff with (Z.ones 12). change 0xff with (Z.ones 8).
  change 0x3f with (Z.ones 6). change 0x80 with (Z.shiftl 1 7).
  rewrite !Z.land_ones, !Z.shiftr_div_pow2 by lia.
  rewrite (Z.lor_comm _ (Z.shiftl 1 12)), (Z.lor_comm _ (Z.shiftl 1 7)).
  pose proof (Z.mod_pos_bound n (2 ^ 32) ltac:(lia)) as B1.
  pose proof (Z.mod_pos_bound (n / 2 ^ 32) (2 ^ 16) ltac:(lia)) as B2.
  pose proof (Z.mod_pos_bound (n / 2 ^ 48) (2 ^ 12) ltac:(lia)) as B3.
  pose proof (Z.mod_pos_bound micros (2 ^ 8) ltac:(lia)) as B4.
  pose proof (Z.mod_pos_bound (micros / 2 ^ 8) (2 ^ 6) ltac:(lia)) as B5.
  rewrite (lor_shiftl_add 1 _ 12), (lor_shiftl_add 1 _ 7) by lia.
  by rewrite of_fields_pack by lia.
Qed.

(** X6. A UUID [generate_uuid_v1] builds for a timestamp is of the RFC 4122
    variant and of version 1 for the [uuid] module, and the analyzer, given
    its string, keeps version 1 (never re-labels it version 2): the
    timestamp it reports is the decoded one, the clock sequence the low 14
    bits of [int(timestamp * 1000000)], the variant code 2, which it
    describes as a Microsoft GUID. *)
Theorem generate_uuid_v1_is_analyzed_as_v1
    (self_node : Z) (t : float) (n micros : Z) :
  0 <= self_node < 2 ^ 48 ->
  trunc (mul (add t (of_int 12219292800)) (of_int 10000000)) = Ok n ->
  trunc (mul t (of_int 1000000)) = Ok micros ->
  exists u r x,
    generate_uuid_v1 self_node t = Ok u
    /\ uuid.variant u = uuid.RFC_4122 /\ uuid.version u = Some 1
    /\ analyze_uuid (str_UUID u) = Ok r
    /\ version r = Some 1 /\ possible_v2 r = false
    /\ uuid_to_timestamp u = Ok x /\ timestamp r = Some x
    /\ variant_code r = 2 /\ clock_seq r = micros mod 2 ^ 14
    /\ variant_desc u = "Microsoft GUID".
Proof.
  intros Hnode Hn Hmicros.
  pose proof (generate_uuid_v1_int self_node t n micros Hnode Hn Hmicros) as Hu.
  set (u := uuid.mkUUID _) in Hu.
  pose proof (Z.mod_pos_bound n (2 ^ 32) ltac:(lia)) as B1.
  pose proof (Z.mod_pos_bound (n / 2 ^ 32) (2 ^ 16) ltac:(lia)) as B2.
  pose proof (Z.mod_pos_bound (n / 2 ^ 48) (2 ^ 12) ltac:(lia)) as B3.
  pose proof (Z.mod_pos_bound micros (2 ^ 8) ltac:(lia)) as B4.
  pose proof (Z.mod_pos_bound (micros / 2 ^ 8) (2 ^ 6) ltac:(lia)) as B5.
  assert (0 <= 1 * 2 ^ 12 + (n / 2 ^ 48) mod 2 ^ 12 < 2 ^ 16) as B6 by lia.
  assert (0 <= (1 * 2 ^ 7 + (micros / 2 ^ 8) mod 2 ^ 6) * 2 ^ 8 + micros mod 2 ^ 8 < 2 ^ 16)
    as B7 by lia.
  destruct (fields_of_parts u _ _ _ _ _ B1 B2 B6 B7 Hnode eq_refl)
    as (Hr & F1 & F2 & F3 & F4 & F5 & F6).
  rewrite div_parts in F4 by lia. rewrite mod_parts in F5 by lia.
  set (ch := (micros / 2 ^ 8) mod 2 ^ 6) in *.
  assert (Z.shiftr (uuid.clock_seq_hi_variant u) 6 = 2) as Hvb.
  { rewrite F4, Z.shiftr_div_pow2 by lia.
    replace (1 * 2 ^ 7 + ch) with (2 * 2 ^ 6 + ch) by lia. apply div_parts. lia. }
  assert (uuid.variant u = uuid.RFC_4122) as Hvar by (by rewrite variant_of_bits, Hvb).
  assert (uuid.version u = Some 1) as Hver.
  { unfold uuid.version. rewrite Hvar, version_nibble, F3, Z.shiftr_div_pow2 by lia.
    by rewrite div_parts by lia. }
  assert (is_likely_uuid_v2 u = false) as Hv2.
  { unfold is_likely_uuid_v2. by rewrite Hvb. }
  destruct (uuid_to_timestamp_ok u) as (x & Hx).
  destruct (of_hex_str_UUID u Hr) as [_ Hp].
  exists u. eexists. exists x. split; [done |]. split; [done |]. split; [done |].
  unfold analyze_uuid. rewrite Hp. cbn [mbind result_bind].
  rewrite Hver, Hv2, Hx. cbn [mbind result_bind].
  split; [reflexivity |]. cbn [version possible_v2 timestamp variant_code clock_seq].
  split; [reflexivity |]. split; [reflexivity |]. split; [done |].
  split; [reflexivity |]. split; [done |]. split.
  - rewrite F4, F5. change 0x3f with (Z.ones 6). rewrite Z.land_ones by lia.
    replace (1 * 2 ^ 7 + ch) with (ch + 2 * 2 ^ 6) by lia.
    rewrite Z.mod_add by lia. rewrite (Z.mod_small ch) by lia.
    rewrite lor_shiftl_add by lia. unfold ch.
    change (2 ^ 14) with (2 ^ 8 * 2 ^ 6). rewrite Z.rem_mul_r by lia. lia.
  - unfold variant_desc. by rewrite Hvb.
Qed.

Lemma generate_uuid_v1_is_analyzed_as_v1_witness :
  exists u r x,
    generate_uuid_v1 0xaedb2c11800f t_2023 = Ok u
    /\ uuid.variant u = uuid.RFC_4122 /\ uuid.version u = Some 1
    /\ analyze_uuid (str_UUID u) = Ok r
    /\ version r = Some 1 /\ possible_v2 r = false
    /\ uuid_to_timestamp u = Ok x /\ timestamp r = Some x
    /\ variant_code r = 2 /\ clock_seq r = 1700000000000000 mod 2 ^ 14
    /\ variant_desc u = "Microsoft GUID".
Proof.
  apply (generate_uuid_v1_is_analyzed_as_v1 0xaedb2c11800f t_2023
           139192928000000000 1700000000000000).
  - lia.
  - vm_compute; reflexivity.
  - vm_compute; reflexivity.
Defined.

End V1Facts.

Section V1Fields.

Import Hex Text3 UUIDv1Generator Analyzer.

Lemma length_12 (m : string) :
  String.length m = 12%nat ->
  exists c0 c1 c2 c3 c4 c5 c6 c7 c8 c9 c10 c11,
    m = String c0 (String c1 (String c2 (String c3 (String c4 (String c5
          (String c6 (String c7 (String c8 (String c9 (String c10 (String c11 ""))))))))))).
Proof.
  intros H.
  do 12 (destruct m as [|? m]; [discriminate H |]; simpl in H).
  destruct m; [|discriminate H]. by eexists _, _, _, _, _, _, _, _, _, _, _, _.
Qed.

Lemma hex_not_colon c : is_hex c = true -> Ascii.eqb c ":" = false.
Proof. destruct c as [[] [] [] [] [] [] [] []]; vm_compute; congruence. Qed.

Lemma remove_colon_pair a b (rest : string) :
  Ascii.eqb a ":" = false -> Ascii.eqb b ":" = false ->
  Text.remove_char ":" (String a (String b (String ":" rest)))
  = String a (String b (Text.remove_char ":" rest)).
Proof. intros Ha Hb. cbn [Text.remove_char]. by rewrite Ha, Hb. Qed.

Lemma split_colon_pair a b (rest : string) :
  Ascii.eqb a ":" = false -> Ascii.eqb b ":" = false ->
  Text.split_on ":" (String a (String b (String ":" rest)))
  = String a (String b "") :: Text.split_on ":" rest.
Proof. intros Ha Hb. cbn [Text.split_on]. by rewrite Ha, Hb. Qed.

(** X7. For a UUID within 128 bits, the fields
    [get_version1_specific_fields] computes: [timestamp_hex] reads as the
    60-bit timestamp plus the version digit times [2^60] (it keeps the
    digit the range estimator drops), [mac_address] reads as the node, and
    [mac_address_formatted] is the same twelve digits in six pairs joined by
    colons. *)
Theorem get_version1_specific_fields_read_back (u : uuid.UUID) :
  0 <= uuid.int u < 2 ^ 128 ->
  let f := get_version1_specific_fields u in
  int16 (v1_timestamp_hex f)
  = Some (Z.shiftr (uuid.time_hi_version u) 12 * 2 ^ 60 + uuid_time u)
  /\ int16 (Text.drop 1 (v1_timestamp_hex f)) = Some (uuid_time u)
  /\ int16 (v1_mac_address f) = Some (uuid.node u)
  /\ String.length (v1_mac_address_formatted f) = 17%nat
  /\ Text.remove_char ":" (v1_mac_address_formatted f) = v1_mac_address f
  /\ (forall piece, piece ∈ Text.split_on ":" (v1_mac_address_formatted f) ->
        String.length piece = 2%nat).
Proof.
  intros Hr f.
  destruct (fields_range u Hr) as (B1 & B2 & B3 & _ & _ & B6).
  unfold f, get_version1_specific_fields.
  cbn [v1_timestamp_hex v1_mac_address v1_mac_address_formatted].
  rewrite (format_0x_fixed 4 (uuid.time_hi_version u)), (format_0x_fixed 4 (uuid.time_mid u)),
    (format_0x_fixed 8 (uuid.time_low u)), (format_0x_fixed 12 (uuid.node u))
    by (try lia; try (change (16 ^ Z.of_nat 8) with (2 ^ 32); lia);
        try (change (16 ^ Z.of_nat 4) with (2 ^ 16); lia);
        try (change (16 ^ Z.of_nat 12) with (2 ^ 48); lia)).
  split; [|split; [|split]].
  - rewrite int16_hexval.
    + f_equal. rewrite !hexval_app, !length_app_s, !length_hexs, !hexval_hexs.
      change (16 ^ Z.of_nat 4) with (2 ^ 16). change (16 ^ Z.of_nat 8) with (2 ^ 32).
      change (16 ^ Z.of_nat (4 + 8)) with (2 ^ 48).
      rewrite !Z.mod_small by lia. rewrite uuid_time_arith by done.
      rewrite Z.shiftr_div_pow2 by lia.
      pose proof (Z.div_mod (uuid.time_hi_version u) (2 ^ 12) ltac:(lia)) as E.
      lia.
    + unfold all_hex. by rewrite !all_chars_app, !all_hex_hexs.
    + intros E. apply (f_equal String.length) in E.
      rewrite !length_app_s, !length_hexs in E. simpl in E. lia.
  - pose proof (timestamp_hex_uuid_time u Hr) as Ht. unfold timestamp_hex in Ht.
    rewrite (format_0x_fixed 4 (uuid.time_hi_version u)), (format_0x_fixed 4 (uuid.time_mid u)),
      (format_0x_fixed 8 (uuid.time_low u)) in Ht
      by (try lia; try (change (16 ^ Z.of_nat 8) with (2 ^ 32); lia);
          try (change (16 ^ Z.of_nat 4) with (2 ^ 16); lia)).
    assert (Text.drop 1 (hex_fixed 4 (uuid.time_hi_version u) ""
                         +:+ hex_fixed 4 (uuid.time_mid u) ""
                         +:+ hex_fixed 8 (uuid.time_low u) "")
            = Text.drop 1 (hex_fixed 4 (uuid.time_hi_version u) "")
              +:+ hex_fixed 4 (uuid.time_mid u) "" +:+ hex_fixed 8 (uuid.time_low u) "") as ->.
    { change 4%nat with (1 + 3)%nat at 1 3. rewrite hex_fixed_app.
      rewrite !app_assoc_s. rewrite !(drop_app_n 1) by apply length_hexs. reflexivity. }
    destruct (int16 _) as [v|]; [|discriminate Ht]. by injection Ht as ->.
  - rewrite int16_hexval.
    + rewrite hexval_hexs. f_equal. apply Z.mod_small.
      change (16 ^ Z.of_nat 12) with (2 ^ 48). lia.
    + apply all_hex_hexs.
    + intros E. apply (f_equal String.length) in E. rewrite length_hexs in E. done.
  - generalize (all_hex_hexs 12 (uuid.node u)) (length_hexs 12 (uuid.node u)).
    generalize (hex_fixed 12 (uuid.node u) ""). intros m Hm Lm.
    destruct (length_12 m Lm)
      as (c0 & c1 & c2 & c3 & c4 & c5 & c6 & c7 & c8 & c9 & c10 & c11 & ->).
    unfold all_hex in Hm. cbn [Text.all_chars] in Hm.
    repeat (apply andb_true_iff in Hm as [?%hex_not_colon Hm]).
    set (fm := join ":" _).
    assert (fm = String c0 (String c1 (String ":" (String c2 (String c3 (String ":" (String c4 (String c5 (String ":" (String c6 (String c7 (String ":" (String c8 (String c9 (String ":" (String c10 (String c11 ""))))))))))))))))) as -> by reflexivity.
    split; [reflexivity |]. split.
    + rewrite !remove_colon_pair by done. cbn [Text.remove_char].
      by repeat match goal with H : Ascii.eqb _ _ = false |- _ => rewrite H; clear H end.
    + rewrite !split_colon_pair by done. cbn [Text.split_on].
      repeat match goal with H : Ascii.eqb _ _ = false |- _ => rewrite H; clear H end.
      intros piece Hp.
      repeat (apply elem_of_cons in Hp as [-> | Hp]; [reflexivity |]).
      by apply elem_of_nil in Hp.
Qed.

Lemma get_version1_specific_fields_read_back_witness :
  let u := uuid.mkUUID 0x0867d7eef8d511ef8a38aedb2c11800f in
  let f := get_version1_specific_fields u in
  int16 (v1_timestamp_hex f)
  = Some (Z.shiftr (uuid.time_hi_version u) 12 * 2 ^ 60 + uuid_time u)
  /\ int16 (Text.drop 1 (v1_timestamp_hex f)) = Some (uuid_time u)
  /\ int16 (v1_mac_address f) = Some (uuid.node u)
  /\ String.length (v1_mac_address_formatted f) = 17%nat
  /\ Text.remove_char ":" (v1_mac_address_formatted f) = v1_mac_address f
  /\ (forall piece, piece ∈ Text.split_on ":" (v1_mac_address_formatted f) ->
        String.length piece = 2%nat).
Proof.
  apply (get_version1_specific_fields_read_back
           (uuid.mkUUID 0x0867d7eef8d511ef8a38aedb2c11800f)).
  cbn [uuid.int]. lia.
Defined.

End V1Fields.

(** * The lines of a generated file *)

Section LineFacts.

Import Hex Text3 FastUUIDv1Generator UUIDv1Generator.

(** A 128-bit value is determined by its six fields. *)
Lemma uuid_int_fields u :
  0 <= uuid.int u < 2 ^ 128 ->
  uuid.int u
  = (((uuid.time_low u * 2 ^ 16 + uuid.time_mid u) * 2 ^ 16 + uuid.time_hi_version u)
      * 2 ^ 16 + (uuid.clock_seq_hi_variant u * 2 ^ 8 + uuid.clock_seq_low u)) * 2 ^ 48
    + uuid.node u.
Proof.
  intros Hr. rewrite time_low_div, time_mid_div, time_hi_version_div,
    clock_seq_hi_variant_div, clock_seq_low_div, node_div.
  set (n := uuid.int u) in *.
  pose proof (Z.div_mod n (2 ^ 48) ltac:(lia)) as E1.
  pose proof (Z.div_mod (n / 2 ^ 48) (2 ^ 8) ltac:(lia)) as E2.
  rewrite Z.div_div in E2 by lia. change (2 ^ 48 * 2 ^ 8) with (2 ^ 56) in E2.
  pose proof (Z.div_mod (n / 2 ^ 56) (2 ^ 8) ltac:(lia)) as E3.
  rewrite Z.div_div in E3 by lia. change (2 ^ 56 * 2 ^ 8) with (2 ^ 64) in E3.
  pose proof (Z.div_mod (n / 2 ^ 64) (2 ^ 16) ltac:(lia)) as E4.
  rewrite Z.div_div in E4 by lia. change (2 ^ 64 * 2 ^ 16) with (2 ^ 80) in E4.
  pose proof (Z.div_mod (n / 2 ^ 80) (2 ^ 16) ltac:(lia)) as E5.
  rewrite Z.div_div in E5 by lia. change (2 ^ 80 * 2 ^ 16) with (2 ^ 96) in E5.
  lia.
Qed.

(** Two UUIDs with the same 60-bit timestamp, clock sequence, node and
    version digit are the same. *)
Lemma uuid_eq_of_fields u v :
  0 <= uuid.int u < 2 ^ 128 -> 0 <= uuid.int v < 2 ^ 128 ->
  uuid_time u = uuid_time v -> same_fixed_fields u v -> u = v.
Proof.
  intros Hu Hv Ht (F4 & F5 & F6 & F3).
  rewrite !uuid_time_arith in Ht by done.
  rewrite !Z.shiftr_div_pow2 in F3 by lia.
  destruct (fields_range u Hu) as (U1 & U2 & U3 & _).
  destruct (fields_range v Hv) as (V1 & V2 & V3 & _).
  pose proof (Z.div_mod (uuid.time_hi_version u) (2 ^ 12) ltac:(lia)) as Eu.
  pose proof (Z.div_mod (uuid.time_hi_version v) (2 ^ 12) ltac:(lia)) as Ev.
  pose proof (Z.mod_pos_bound (uuid.time_hi_version u) (2 ^ 12) ltac:(lia)) as Bu.
  pose proof (Z.mod_pos_bound (uuid.time_hi_version v) (2 ^ 12) ltac:(lia)) as Bv.
  assert (uuid.int u = uuid.int v) as E.
  { rewrite (uuid_int_fields u Hu), (uuid_int_fields v Hv), F4, F5, F6.
    assert (uuid.time_low u = uuid.time_low v) as -> by lia.
    assert (uuid.time_mid u = uuid.time_mid v) as -> by lia.
    assert (uuid.time_hi_version u = uuid.time_hi_version v) as -> by lia.
    reflexivity. }
  destruct u, v. simpl in E. by subst.
Qed.

(** What [uuid.UUID] parses is within 128 bits. *)
Lemma int16_from_bounds (s : string) : forall acc n,
  int16_from acc s = Some n -> n = hexval_from acc s /\ all_hex s = true.
Proof.
  induction s as [|c s IH]; intros acc n; cbn [int16_from hexval_from].
  - by intros [= ->].
  - unfold all_hex. cbn [Text.all_chars]. unfold is_hex.
    destruct (hex_val c) as [d|]; [|done]. cbn [default]. intros H.
    destruct (IH _ _ H) as [-> Hs]. split; [reflexivity | exact Hs].
Qed.

Lemma of_hex_range s u : uuid.of_hex s = Ok u -> 0 <= uuid.int u < 2 ^ 128.
Proof.
  unfold uuid.of_hex.
  destruct (Nat.eqb_spec (String.length (Text.remove_char "-" s)) 32) as [L|]; [|done].
  destruct (int16 (Text.remove_char "-" s)) as [n|] eqn:E; [|done].
  cbn [of_option mbind result_bind]. intros [= <-]. cbn [uuid.int].
  unfold int16 in E. destruct (Text.remove_char "-" s) as [|c h] eqn:Eh; [done |].
  apply int16_from_bounds in E as [-> _].
  pose proof (hexval_bounds (String c h)) as Hb. rewrite L in Hb.
  change (16 ^ Z.of_nat 32) with (2 ^ 128) in Hb. exact Hb.
Qed.

(** The line rendered for a timestamp of the range: a valid UUID string in
    canonical (lower-case) form, with that timestamp and the fixed fields
    of the start UUID. *)
Lemma render_canonical A B uA uB a t :
  UUID_PATTERN A = true -> UUID_PATTERN B = true ->
  uuid.of_hex A = Ok uA -> uuid.of_hex B = Ok uB ->
  loop_args_of A B = Ok a ->
  t ∈ timestamps a ->
  exists u,
    uuid.of_hex (render a t) = Ok u
    /\ 0 <= uuid.int u < 2 ^ 128
    /\ UUID_PATTERN (render a t) = true
    /\ render a t = str_UUID u
    /\ uuid_time u = t
    /\ same_fixed_fields u uA.
Proof.
  intros VA VB EA EB Ha Ht.
  destruct (render_decode A B uA uB a t VA VB EA EB Ha Ht)
    as (Hrange & u & Eu & Ets & F4 & F5 & F6 & F3).
  pose proof (of_hex_range _ _ Eu) as Ru.
  destruct (loop_args_of_valid A B VA VB) as (uA' & uB' & EA' & EB' & RA & RB & Ha').
  rewrite EA in EA'. rewrite EB in EB'. injection EA' as <-. injection EB' as <-.
  rewrite Ha in Ha'. apply Ok_inj in Ha'.
  pose proof (uuid_time_range uA RA) as TA. pose proof (uuid_time_range uB RB) as TB.
  assert (0 <= t < 2 ^ 60) as Ht60 by lia.
  assert (render a t
          = hex_fixed 8 t "" +:+ "-" +:+ hex_fixed 4 (t / 2 ^ 32) "" +:+ "-"
            +:+ (hex_fixed 1 (uuid.time_hi_version uA / 2 ^ 12) ""
                 +:+ hex_fixed 3 (t / 2 ^ 48) "") +:+ "-"
            +:+ (hex_fixed 2 (uuid.clock_seq_hi_variant uA) ""
                 +:+ hex_fixed 2 (uuid.clock_seq_low uA) "") +:+ "-"
            +:+ hex_fixed 12 (uuid.node uA) "") as Er.
  { unfold render. rewrite generate_uuid_v1_custom_eq by done. rewrite Ha'.
    cbn [clock_seq mac_address save_char default]. by rewrite !app_assoc_s. }
  assert (UUID_PATTERN (render a t) = true) as Hp.
  { rewrite Er. apply UUID_PATTERN_groups;
      rewrite ?length_app_s, ?length_hexs; try reflexivity;
      unfold all_hex; rewrite ?all_chars_app, ?all_hex_hexs; try reflexivity;
      apply all_hex_hexs. }
  assert (lower_hex (render a t) = render a t) as Hl.
  { rewrite Er. rewrite !lower_hex_app. by rewrite !lower_hex_hexs. }
  exists u. split; [done |]. split; [done |]. split; [done |].
  split; [by rewrite (str_UUID_of_hex _ _ Hp Eu) |].
  split; [|done].
  unfold line_timestamp in Ets. rewrite Eu in Ets. cbn [mbind result_bind] in Ets.
  rewrite timestamp_hex_uuid_time in Ets by done. by injection Ets.
Qed.

End LineFacts.

Section LineClaims.

Import Hex Text3 FastUUIDv1Generator UUIDv1Generator.

(** X8. With both UUID strings valid, the task registered and not cancelled
    and no write failing, both workers leave the same file; each of its
    lines is a valid UUID string in canonical lower-case form. The start
    UUID is always one of the lines; the end UUID is one of them exactly
    when it has the clock sequence, node and version digit of the start
    UUID. *)
Theorem generated_file_holds_endpoints
    (fl : Q -> Q) (write_fails : Z -> bool) (filename task_id A B : string)
    (total : Z) (w : world) (tk : task) :
  validate_uuid A = true -> validate_uuid B = true ->
  generation_tasks w !! task_id = Some tk ->
  is_cancelled task_id w = false ->
  (forall t, write_fails t = false) ->
  exists uA uB lines,
    uuid.of_hex A = Ok uA /\ uuid.of_hex B = Ok uB
    /\ str_UUID uA = lower_hex A /\ str_UUID uB = lower_hex B
    /\ files (generate_range_background fl write_fails filename A B task_id total w).1
         !! filename = Some lines
    /\ files (generate_uuids_fast_background fl write_fails A B task_id w).1
         !! fast_filename task_id = Some lines
    /\ (forall line, line ∈ lines ->
          validate_uuid line = true
          /\ exists u, uuid.of_hex line = Ok u /\ str_UUID u = line)
    /\ str_UUID uA ∈ lines
    /\ (str_UUID uB ∈ lines <-> same_fixed_fields uB uA).
Proof.
  intros VA VB Htk Hc Hw.
  pose proof (validate_uuid_pattern A VA) as PA.
  pose proof (validate_uuid_pattern B VB) as PB.
  destruct (loop_args_of_valid A B PA PB) as (uA & uB & EA & EB & RA & RB & Ha).
  set (a := Build_loop_args _ _ _ _ _) in Ha.
  destruct (generate_range_background_completes fl write_fails filename task_id
              A B w tk a total Htk Hc Ha) as (wr & Er & _ & Fr).
  destruct (generate_uuids_fast_background_completes fl write_fails task_id
              A B w tk a Htk Hc Ha) as (wf & Ef & _ & Ff).
  rewrite written_no_failure in Fr, Ff by done.
  pose proof (uuid_time_range uA RA) as TA. pose proof (uuid_time_range uB RB) as TB.
  assert (forall t, Z.min (uuid_time uA) (uuid_time uB) <= t
                    <= Z.max (uuid_time uA) (uuid_time uB) -> t ∈ timestamps a) as Hin.
  { intros t Ht. unfold timestamps, a. simpl. apply elem_of_seqZ. lia. }
  exists uA, uB, (render a <$> timestamps a).
  split; [done |]. split; [done |].
  split; [by apply str_UUID_of_hex |]. split; [by apply str_UUID_of_hex |].
  split; [by rewrite Er |]. split; [by rewrite Ef |].
  split; [|split].
  - intros line (t & -> & Ht)%list_elem_of_fmap.
    destruct (render_canonical A B uA uB a t PA PB EA EB Ha Ht)
      as (u & Eu & _ & Hp & Es & _).
    split; [by rewrite validate_uuid_is_pattern |]. exists u. by rewrite <- Es.
  - apply list_elem_of_fmap. exists (uuid_time uA). split; [|apply Hin; lia].
    destruct (render_canonical A B uA uB a (uuid_time uA) PA PB EA EB Ha ltac:(apply Hin; lia))
      as (u & Eu & Ru & _ & Es & Et & Hf).
    by rewrite Es, (uuid_eq_of_fields u uA Ru RA Et Hf).
  - split.
    + intros (t & Es & Ht)%list_elem_of_fmap.
      destruct (render_canonical A B uA uB a t PA PB EA EB Ha Ht)
        as (u & Eu & _ & _ & _ & _ & Hf).
      rewrite <- Es in Eu. destruct (of_hex_str_UUID uB RB) as [_ EuB].
      rewrite EuB in Eu. by injection Eu as ->.
    + intros (F4 & F5 & F6 & F3).
      apply list_elem_of_fmap. exists (uuid_time uB). split; [|apply Hin; lia].
      destruct (render_canonical A B uA uB a (uuid_time uB) PA PB EA EB Ha ltac:(apply Hin; lia))
        as (u & Eu & Ru & _ & Es & Et & (G4 & G5 & G6 & G3)).
      rewrite Es. f_equal. symmetry. apply uuid_eq_of_fields; try done.
      split; [congruence |]. split; [congruence |]. split; congruence.
Qed.

Lemma generated_file_holds_endpoints_witness :
  exists uA uB lines,
    uuid.of_hex demo_start = Ok uA /\ uuid.of_hex demo_end = Ok uB
    /\ str_UUID uA = lower_hex demo_start /\ str_UUID uB = lower_hex demo_end
    /\ files (generate_range_background exact no_failure demo_file
                demo_start demo_end demo_task 3 demo_world).1
         !! demo_file = Some lines
    /\ files (generate_uuids_fast_background exact no_failure
                demo_start demo_end demo_task demo_world).1
         !! fast_filename demo_task = Some lines
    /\ (forall line, line ∈ lines ->
          validate_uuid line = true
          /\ exists u, uuid.of_hex line = Ok u /\ str_UUID u = line)
    /\ str_UUID uA ∈ lines
    /\ (str_UUID uB ∈ lines <-> same_fixed_fields uB uA).
Proof.
  eapply (generated_file_holds_endpoints exact no_failure demo_file demo_task
            demo_start demo_end 3 demo_world).
  - vm_compute; reflexivity.
  - vm_compute; reflexivity.
  - vm_compute; reflexivity.
  - vm_compute; reflexivity.
  - intros t; reflexivity.
Defined.

End LineClaims.

(** * What a worker leaves alone *)

Section IsolationFacts.

Variable fl : Q -> Q.
Variable write_fails : Z -> bool.
Variable task_id : string.

Lemma update_task_others f w w' :
  update_task task_id f w = Ok w' ->
  (forall k, k <> task_id -> generation_tasks w' !! k = generation_tasks w !! k)
  /\ files w' = files w.
Proof.
  unfold update_task. destruct (generation_tasks w !! task_id) as [t|]; [|done].
  intros [= <-]. split; [|done]. intros k Hk. simpl. by rewrite lookup_insert_ne.
Qed.

Lemma range_handler_others temp_file e w :
  (forall k, k <> task_id ->
     generation_tasks (range_handler task_id temp_file e w).1 !! k = generation_tasks w !! k)
  /\ (forall f, temp_file <> Some f ->
        files (range_handler task_id temp_file e w).1 !! f = files w !! f).
Proof.
  unfold range_handler. destruct (update_task _ _ w) as [w1|] eqn:E; [|done].
  apply update_task_others in E as [Ht Hf].
  destruct temp_file as [filename|]; cbn [fst]; split; try done.
  - intros f Hne. simpl. rewrite lookup_delete_ne by congruence. by rewrite Hf.
  - intros f _. by rewrite Hf.
Qed.

Lemma fast_handler_others e w :
  (forall k, k <> task_id ->
     generation_tasks (fast_handler task_id e w).1 !! k = generation_tasks w !! k)
  /\ files (fast_handler task_id e w).1 = files w.
Proof.
  unfold fast_handler. destruct (update_task _ _ w) as [w1|] eqn:E; [|done].
  by apply update_task_others in E.
Qed.

(** The range worker changes no entry of the registry but its own, and no
    file but its own, apart from the files [cleanup_all_uuid_files]
    deletes at the start. *)
Lemma generate_range_background_others filename A B total w :
  let w' := (generate_range_background fl write_fails filename A B task_id total w).1 in
  (forall k, k <> task_id -> generation_tasks w' !! k = generation_tasks w !! k)
  /\ (forall f, f <> filename -> files w' !! f = files (cleanup_all_uuid_files w) !! f).
Proof.
  cbv zeta. unfold generate_range_background, range_prepare.
  set (w0 := cleanup_all_uuid_files w).
  assert (generation_tasks w0 = generation_tasks w) as T0 by reflexivity.
  destruct (update_task task_id (set_status "generating") w0) as [w1|] eqn:E1.
  2:{ destruct (range_handler_others None e w0) as [Ht Hf]. split.
      - intros k Hk. by rewrite Ht, T0.
      - intros f _. by apply Hf. }
  apply update_task_others in E1 as [T1 F1].
  set (w2 := create_file filename w1).
  assert (forall k, k <> task_id -> generation_tasks w2 !! k = generation_tasks w !! k) as T2
    by (intros k Hk; cbn; by rewrite T1, T0).
  assert (forall f, f <> filename -> files w2 !! f = files w0 !! f) as F2
    by (intros f Hf; cbn; by rewrite lookup_insert_ne, F1).
  destruct (update_task task_id (set_file_path filename) w2) as [w3|] eqn:E3.
  2:{ destruct (range_handler_others (Some filename) e w2) as [Ht Hf]. split.
      - intros k Hk. by rewrite Ht, T2.
      - intros f Hne. rewrite Hf by congruence. by apply F2. }
  apply update_task_others in E3 as [T3 F3].
  destruct (loop_args_of A B) as [a|e] eqn:Ea.
  2:{ destruct (range_handler_others (Some filename) e w3) as [Ht Hf]. split.
      - intros k Hk. by rewrite Ht, T3, T2.
      - intros f Hne. rewrite Hf, F3 by congruence. by apply F2. }
  destruct (range_loop_spec fl write_fails filename task_id a total (timestamps a) w3)
    as (w4 & b & -> & [T4 _] & F4 & _).
  assert (forall k, k <> task_id -> generation_tasks w4 !! k = generation_tasks w !! k) as T4'
    by (intros k Hk; by rewrite T4, T3, T2).
  assert (forall f, f <> filename -> files w4 !! f = files w0 !! f) as F4'
    by (intros f Hf; by rewrite F4, F3, F2).
  unfold range_finish. destruct b; [done |].
  destruct (is_cancelled task_id w4).
  { split; [done |]. intros f Hf. cbn. rewrite lookup_delete_ne by done. by apply F4'. }
  destruct (update_task _ _ w4) as [w5|] eqn:E5.
  - apply update_task_others in E5 as [T5 F5]. cbn [fst]. split.
    + intros k Hk. by rewrite T5, T4'.
    + intros f Hf. rewrite F5. by apply F4'.
  - destruct (range_handler_others (Some filename) e w4) as [Ht Hf]. split.
    + intros k Hk. by rewrite Ht, T4'.
    + intros f Hne. rewrite Hf by congruence. by apply F4'.
Qed.

(** The same for the fast worker, whose file is [fast_uuids_<task_id>.txt]. *)
Lemma generate_uuids_fast_background_others A B w :
  let w' := (generate_uuids_fast_background fl write_fails A B task_id w).1 in
  (forall k, k <> task_id -> generation_tasks w' !! k = generation_tasks w !! k)
  /\ (forall f, f <> fast_filename task_id ->
        files w' !! f = files (cleanup_all_uuid_files w) !! f).
Proof.
  cbv zeta. unfold generate_uuids_fast_background.
  set (w0 := cleanup_all_uuid_files w).
  assert (generation_tasks w0 = generation_tasks w) as T0 by reflexivity.
  destruct (update_task task_id (set_status "generating") w0) as [w1|] eqn:E1.
  2:{ destruct (fast_handler_others e w0) as [Ht Hf]. split.
      - intros k Hk. by rewrite Ht, T0.
      - intros f _. by rewrite Hf. }
  apply update_task_others in E1 as [T1 F1].
  destruct (is_cancelled task_id w1).
  { cbn [fst]. split; [intros k Hk; by rewrite T1, T0 | intros f _; by rewrite F1]. }
  assert (forall w2 r,
            (forall k, k <> task_id -> generation_tasks w2 !! k = generation_tasks w !! k) ->
            (forall f, f <> fast_filename task_id -> files w2 !! f = files w0 !! f) ->
            (forall k, k <> task_id ->
               generation_tasks (fast_finish A B task_id (w2, r)).1 !! k
               = generation_tasks w !! k)
            /\ (forall f, f <> fast_filename task_id ->
                  files (fast_finish A B task_id (w2, r)).1 !! f = files w0 !! f)) as Fin.
  { intros w2 [[success msg] cnt] T2 F2. unfold fast_finish.
    destruct (is_cancelled task_id w2).
    { split; [done |]. intros f Hf. cbn. rewrite lookup_delete_ne by done. by apply F2. }
    destruct success.
    - destruct (update_task _ _ w2) as [w3|] eqn:E3.
      + apply update_task_others in E3 as [T3 F3]. cbn [fst]. split.
        * intros k Hk. by rewrite T3, T2.
        * intros f Hf. rewrite F3. by apply F2.
      + destruct (fast_handler_others e w2) as [Ht Hf]. split.
        * intros k Hk. by rewrite Ht, T2.
        * intros f Hne. rewrite Hf. by apply F2.
    - destruct (update_task _ _ w2) as [w3|] eqn:E3.
      + apply update_task_others in E3 as [T3 F3]. cbn [fst]. split.
        * intros k Hk. by rewrite T3, T2.
        * intros f Hf. rewrite F3. by apply F2.
      + destruct (fast_handler_others e w2) as [Ht Hf]. split.
        * intros k Hk. by rewrite Ht, T2.
        * intros f Hne. rewrite Hf. by apply F2. }
  unfold generate_uuids_to_file_fast_with_progress.
  destruct (loop_args_of A B) as [a|e] eqn:Ea.
  2:{ apply Fin; [intros k Hk; by rewrite T1, T0 | intros f _; by rewrite F1]. }
  set (w2 := fast_open (fast_filename task_id) task_id w1).
  assert ((forall k, k <> task_id -> generation_tasks w2 !! k = generation_tasks w !! k)
          /\ (forall f, f <> fast_filename task_id -> files w2 !! f = files w0 !! f))
    as [T2 F2].
  { unfold w2, fast_open.
    destruct (update_task _ _ (create_file (fast_filename task_id) w1)) as [w'|] eqn:E.
    - apply update_task_others in E as [T F]. split.
      + intros k Hk. rewrite T by done. cbn. by rewrite T1, T0.
      + intros f Hf. rewrite F. cbn. by rewrite lookup_insert_ne, F1.
    - split.
      + intros k Hk. cbn. by rewrite T1, T0.
      + intros f Hf. cbn. by rewrite lookup_insert_ne, F1. }
  destruct (fast_loop_spec fl write_fails (fast_filename task_id) task_id a
              (fast_total (fast_precomputed_total A B) a) (timestamps a) w2 0)
    as (w3 & c3 & b & -> & [T3 _] & F3 & _).
  destruct b; apply Fin.
  all: try (intros k Hk; by rewrite T3, T2).
  all: intros f Hf; by rewrite F3, F2.
Qed.

End IsolationFacts.

(** * File names *)

Section NameFacts.

Lemma prefix_refl_app (p r : string) : String.prefix p (p +:+ r) = true.
Proof.
  induction p as [|c p IH]; [by destruct r |].
  rewrite app_cons_s. cbn [String.prefix]. by destruct (ascii_dec c c).
Qed.

Lemma rev_app_acc (s : string) : forall acc,
  String.rev_app s acc = String.rev_app s "" +:+ acc.
Proof.
  induction s as [|c s IH]; intros acc; cbn [String.rev_app]; [by rewrite app_nil_l_s |].
  rewrite (IH (String c acc)), (IH (String c "")).
  by rewrite app_assoc_s, app_cons_s, app_nil_l_s.
Qed.

Lemma rev_app_s (a b : string) : String.rev (a +:+ b) = String.rev b +:+ String.rev a.
Proof.
  unfold String.rev. induction a as [|c a IH].
  - by rewrite app_nil_l_s, app_nil_r_s.
  - rewrite app_cons_s. cbn [String.rev_app].
    rewrite (rev_app_acc (a +:+ b)), IH, (rev_app_acc a (String c "")).
    by rewrite app_assoc_s.
Qed.

Lemma endswith_app (x p : string) : Text2.endswith p (x +:+ p) = true.
Proof. unfold Text2.endswith. rewrite rev_app_s. apply prefix_refl_app. Qed.

(** Every [fast_uuids_<task_id>.txt] is a file [cleanup_all_uuid_files]
    deletes. *)
Lemma is_uuid_file_fast_filename task_id : is_uuid_file (fast_filename task_id) = true.
Proof.
  unfold is_uuid_file, fast_filename. apply andb_true_iff. split.
  - rewrite <- app_assoc_s. apply endswith_app.
  - apply orb_true_iff. right. apply prefix_refl_app.
Qed.

Lemma app_inv_tail_s (x y z : string) : x +:+ z = y +:+ z -> x = y.
Proof.
  revert y. induction x as [|c x IH]; intros [|d y] E.
  - done.
  - apply (f_equal String.length) in E. rewrite app_nil_l_s, app_cons_s in E.
    cbn [String.length] in E. rewrite length_app_s in E. lia.
  - apply (f_equal String.length) in E. rewrite app_nil_l_s, app_cons_s in E.
    cbn [String.length] in E. rewrite length_app_s in E. lia.
  - rewrite !app_cons_s in E. injection E as -> E. f_equal. by apply IH.
Qed.

Lemma app_inv_head_s (z x y : string) : z +:+ x = z +:+ y -> x = y.
Proof.
  induction z as [|c z IH]; [by rewrite !app_nil_l_s |].
  rewrite !app_cons_s. intros [= E]. by apply IH.
Qed.

Lemma fast_filename_inj t1 t2 : fast_filename t1 = fast_filename t2 -> t1 = t2.
Proof.
  unfold fast_filename. intros E%app_inv_head_s. by apply app_inv_tail_s in E.
Qed.

Lemma fast_filename_cons task_id :
  fast_filename task_id = String "f" ("ast_uuids_" +:+ task_id +:+ ".txt").
Proof. reflexivity. Qed.

Lemma cleanup_lookup w f :
  files (cleanup_all_uuid_files w) !! f
  = if is_uuid_file f then None else files w !! f.
Proof.
  unfold cleanup_all_uuid_files. cbn [files with_files].
  destruct (is_uuid_file f) eqn:E.
  - apply map_lookup_filter_None. right. intros x _. cbn. by rewrite E.
  - destruct (files w !! f) as [x|] eqn:Ef.
    + apply map_lookup_filter_Some. split; [done |]. done.
    + apply map_lookup_filter_None. by left.
Qed.

End NameFacts.

(** * Workers and the other tasks *)

Section IsolationClaims.


(** X10. Starting a worker for another task deletes the output of an
    earlier, completed fast run: the earlier task keeps its entry, still
    marked completed, but its file is gone and its download is refused. *)
Theorem new_run_deletes_earlier_fast_output
    (fl : Q -> Q) (write_fails : Z -> bool) (filename earlier task_id A B : string)
    (total : Z) (w : world) (tk : task) (lines : list string) :
  earlier <> task_id -> filename <> fast_filename earlier ->
  generation_tasks w !! earlier = Some tk ->
  status tk = "completed" -> file_path tk = Some (fast_filename earlier) ->
  files w !! fast_filename earlier = Some lines ->
  let wr := (generate_range_background fl write_fails filename A B task_id total w).1 in
  let wf := (generate_uuids_fast_background fl write_fails A B task_id w).1 in
  download_generated_file earlier w = Reply (fast_filename earlier, lines)
  /\ get_generation_status earlier wr = Reply tk
  /\ get_generation_status earlier wf = Reply tk
  /\ download_generated_file earlier wr = Refused 404 "Generated file not found"
  /\ download_generated_file earlier wf = Refused 404 "Generated file not found".
Proof.
  intros Hne Hfn Htk Hst Hfp Hfile. cbv zeta.
  destruct (generate_range_background_others fl write_fails task_id filename A B total w)
    as [Tr Fr].
  destruct (generate_uuids_fast_background_others fl write_fails task_id A B w) as [Tf Ff].
  specialize (Tr earlier Hne). specialize (Tf earlier Hne).
  specialize (Fr (fast_filename earlier) ltac:(congruence)).
  specialize (Ff (fast_filename earlier)
                 ltac:(intros E; by apply fast_filename_inj in E)).
  rewrite cleanup_lookup, is_uuid_file_fast_filename in Fr, Ff.
  unfold download_generated_file, get_generation_status.
  rewrite Tr, Tf, Htk, Hst, Hfp. cbn [negb bool_decide].
  rewrite bool_decide_eq_true_2 by done. cbn [negb].
  rewrite fast_filename_cons in *. by rewrite Hfile, Fr, Ff.
Qed.

Lemma new_run_deletes_earlier_fast_output_witness :
  exists tk lines,
    let w := (generate_uuids_fast_background exact no_failure
                demo_start demo_end demo_task demo_world).1 in
    let wr := (generate_range_background exact no_failure demo_file
                 demo_end demo_start "next" 3 w).1 in
    let wf := (generate_uuids_fast_background exact no_failure
                 demo_end demo_start "next" w).1 in
    download_generated_file demo_task w = Reply (fast_filename demo_task, lines)
    /\ get_generation_status demo_task wr = Reply tk
    /\ get_generation_status demo_task wf = Reply tk
    /\ download_generated_file demo_task wr = Refused 404 "Generated file not found"
    /\ download_generated_file demo_task wf = Refused 404 "Generated file not found".
Proof.
  eexists _, _.
  eapply (new_run_deletes_earlier_fast_output exact no_failure demo_file demo_task "next"
            demo_end demo_start 3
            (generate_uuids_fast_background exact no_failure
               demo_start demo_end demo_task demo_world).1).
  - discriminate.
  - vm_compute; discriminate.
  - vm_compute; reflexivity.
  - reflexivity.
  - reflexivity.
  - vm_compute; reflexivity.
Defined.

End IsolationClaims.

(** * Workers on tasks that are cancelled, missing or malformed *)

Section EdgeFacts.

Variable fl : Q -> Q.
Variable write_fails : Z -> bool.
Variable task_id : string.

Lemma cancel_generation_task w tk :
  generation_tasks w !! task_id = Some tk ->
  generation_tasks (cancel_generation task_id w).1 !! task_id
  = Some (set_cancelled true
            (set_error "Generation cancelled by user" (set_status "cancelled" tk)))
  /\ is_cancelled task_id (cancel_generation task_id w).1 = true.
Proof.
  intros Htk. unfold cancel_generation. rewrite Htk.
  set (t' := set_cancelled true _).
  assert (forall w',
            generation_tasks w' = <[task_id := t']> (generation_tasks w) ->
            generation_tasks w' !! task_id = Some t' /\ is_cancelled task_id w' = true) as H.
  { intros w' E. unfold is_cancelled. rewrite E, lookup_insert_eq. done. }
  cbn [fst]. destruct (file_path t') as [p|]; [|by apply H].
  destruct (decide _); by apply H.
Qed.

(** A range worker that finds the cancellation flag set stops at the first
    check of its loop. *)
Lemma generate_range_background_cancelled filename A B total w tk a :
  generation_tasks w !! task_id = Some tk ->
  is_cancelled task_id w = true ->
  loop_args_of A B = Ok a ->
  start_timestamp_hex a <= end_timestamp_hex a ->
  exists w',
    generate_range_background fl write_fails filename A B task_id total w = (w', Returned)
    /\ generation_tasks w' !! task_id
       = Some (set_file_path filename (set_status "generating" tk))
    /\ files w' !! filename = None.
Proof.
  intros Htk Hc Ha Hle. unfold generate_range_background.
  destruct (range_prepare_spec filename task_id A B w tk a Htk Ha) as (w1 & -> & T1 & F1).
  assert (is_cancelled task_id w1 = true) as Hc1.
  { unfold is_cancelled in *. rewrite T1, lookup_insert_eq. simpl. by rewrite Htk in Hc. }
  unfold timestamps. rewrite seqZ_cons by lia. cbn [range_loop].
  rewrite Z.sub_diag. change (0 mod 1000 =? 0) with true. rewrite Hc1. cbn [andb range_finish].
  eexists. split; [reflexivity |]. split.
  - cbn. by rewrite T1, lookup_insert_eq.
  - cbn. by rewrite lookup_delete_eq.
Qed.

Lemma generate_uuids_fast_background_cancelled A B w tk :
  generation_tasks w !! task_id = Some tk ->
  is_cancelled task_id w = true ->
  exists w',
    generate_uuids_fast_background fl write_fails A B task_id w = (w', Returned)
    /\ generation_tasks w' !! task_id = Some (set_status "generating" tk)
    /\ files w' !! fast_filename task_id = None.
Proof.
  intros Htk Hc. unfold generate_uuids_fast_background, update_task.
  change (generation_tasks (cleanup_all_uuid_files w)) with (generation_tasks w).
  rewrite Htk.
  set (w1 := with_tasks _ (cleanup_all_uuid_files w)).
  assert (generation_tasks w1 !! task_id = Some (set_status "generating" tk)) as T1
    by (unfold w1; cbn [generation_tasks with_tasks]; by rewrite lookup_insert_eq).
  assert (is_cancelled task_id w1 = true) as Hc1.
  { unfold is_cancelled in *. rewrite T1. simpl. by rewrite Htk in Hc. }
  rewrite Hc1. eexists. split; [reflexivity |]. split; [done |].
  change (files w1) with (files (cleanup_all_uuid_files w)).
  by rewrite cleanup_lookup, is_uuid_file_fast_filename.
Qed.

End EdgeFacts.

Section EdgeClaims.

(** X11. A worker that starts on a task already cancelled (the cancel
    request came between queueing and the start of the thread) generates
    nothing and returns at its first cancellation check, but it has first
    overwritten the status: the task is left in state [generating], with
    its cancellation flag and message, no output file, and a download is
    refused as not ready. *)
Theorem worker_started_after_cancel
    (fl : Q -> Q) (write_fails : Z -> bool) (filename task_id A B : string)
    (total : Z) (w : world) (tk : task) :
  validate_uuid A = true -> validate_uuid B = true ->
  generation_tasks w !! task_id = Some tk ->
  let w1 := (cancel_generation task_id w).1 in
  exists wr wf tr tf,
    generate_range_background fl write_fails filename A B task_id total w1 = (wr, Returned)
    /\ generate_uuids_fast_background fl write_fails A B task_id w1 = (wf, Returned)
    /\ generation_tasks wr !! task_id = Some tr
    /\ generation_tasks wf !! task_id = Some tf
    /\ status tr = "generating" /\ status tf = "generating"
    /\ cancelled tr = Some true /\ cancelled tf = Some true
    /\ error tr = Some "Generation cancelled by user"
    /\ error tf = Some "Generation cancelled by user"
    /\ progress tr = progress tk /\ count tr = count tk
    /\ progress tf = progress tk /\ count tf = count tk
    /\ files wr !! filename = None
    /\ files wf !! fast_filename task_id = None
    /\ download_generated_file task_id wr = Refused 400 "File not ready yet"
    /\ download_generated_file task_id wf = Refused 400 "File not ready yet".
Proof.
  intros VA VB Htk w1.
  pose proof (validate_uuid_pattern A VA) as PA.
  pose proof (validate_uuid_pattern B VB) as PB.
  destruct (loop_args_of_valid A B PA PB) as (uA & uB & _ & _ & _ & _ & Ha).
  set (a := Build_loop_args _ _ _ _ _) in Ha.
  destruct (cancel_generation_task task_id w tk Htk) as [T1 Hc1]. fold w1 in T1, Hc1.
  destruct (generate_range_background_cancelled fl write_fails task_id filename A B total
              w1 _ a T1 Hc1 Ha) as (wr & Er & Tr & Fr).
  { unfold a. simpl. lia. }
  destruct (generate_uuids_fast_background_cancelled fl write_fails task_id A B w1 _ T1 Hc1)
    as (wf & Ef & Tf & Ff).
  eexists wr, wf, _, _.
  split; [exact Er |]. split; [exact Ef |]. split; [exact Tr |]. split; [exact Tf |].
  do 10 (split; [reflexivity |]).
  split; [exact Fr |]. split; [exact Ff |].
  unfold download_generated_file. rewrite Tr, Tf. done.
Qed.

Lemma worker_started_after_cancel_witness :
  let w1 := (cancel_generation demo_task demo_world).1 in
  exists wr wf tr tf,
    generate_range_background exact no_failure demo_file demo_start demo_end demo_task 3 w1
    = (wr, Returned)
    /\ generate_uuids_fast_background exact no_failure demo_start demo_end demo_task w1
       = (wf, Returned)
    /\ generation_tasks wr !! demo_task = Some tr
    /\ generation_tasks wf !! demo_task = Some tf
    /\ status tr = "generating" /\ status tf = "generating"
    /\ cancelled tr = Some true /\ cancelled tf = Some true
    /\ error tr = Some "Generation cancelled by user"
    /\ error tf = Some "Generation cancelled by user"
    /\ progress tr = progress (mk_task "queued" 0 0 demo_start demo_end (Some 3) 0 "range"
                                 None None None None)
    /\ count tr = count (mk_task "queued" 0 0 demo_start demo_end (Some 3) 0 "range"
                           None None None None)
    /\ progress tf = progress (mk_task "queued" 0 0 demo_start demo_end (Some 3) 0 "range"
                                 None None None None)
    /\ count tf = count (mk_task "queued" 0 0 demo_start demo_end (Some 3) 0 "range"
                           None None None None)
    /\ files wr !! demo_file = None
    /\ files wf !! fast_filename demo_task = None
    /\ download_generated_file demo_task wr = Refused 400 "File not ready yet"
    /\ download_generated_file demo_task wf = Refused 400 "File not ready yet".
Proof.
  apply (worker_started_after_cancel exact no_failure demo_file demo_task
           demo_start demo_end 3 demo_world).
  - vm_compute; reflexivity.
  - vm_compute; reflexivity.
  - vm_compute; reflexivity.
Defined.

(** X12. A worker that finds no entry for its task (the task was removed
    before the thread started) ends with an uncaught [KeyError], raised a
    second time by its own exception handler: the registry is unchanged
    and no output file is created, but the files
    [cleanup_all_uuid_files] deletes are already gone. *)
Theorem worker_without_entry
    (fl : Q -> Q) (write_fails : Z -> bool) (filename task_id A B : string)
    (total : Z) (w : world) :
  generation_tasks w !! task_id = None ->
  generate_range_background fl write_fails filename A B task_id total w
  = (cleanup_all_uuid_files w, Died KeyError)
  /\ generate_uuids_fast_background fl write_fails A B task_id w
     = (cleanup_all_uuid_files w, Died KeyError)
  /\ generation_tasks (cleanup_all_uuid_files w) = generation_tasks w
  /\ forall f, files (cleanup_all_uuid_files w) !! f
               = if is_uuid_file f then None else files w !! f.
Proof.
  intros Htk.
  unfold generate_range_background, range_prepare, generate_uuids_fast_background,
    range_handler, fast_handler, update_task.
  change (generation_tasks (cleanup_all_uuid_files w)) with (generation_tasks w).
  rewrite Htk. split; [reflexivity |]. split; [reflexivity |]. split; [reflexivity |].
  intros f. apply cleanup_lookup.
Qed.

Lemma worker_without_entry_witness :
  generate_range_background exact no_failure demo_file demo_start demo_end demo_task 3
    (cleanup_task demo_task demo_world).1
  = (cleanup_all_uuid_files (cleanup_task demo_task demo_world).1, Died KeyError)
  /\ generate_uuids_fast_background exact no_failure demo_start demo_end demo_task
       (cleanup_task demo_task demo_world).1
     = (cleanup_all_uuid_files (cleanup_task demo_task demo_world).1, Died KeyError)
  /\ generation_tasks (cleanup_all_uuid_files (cleanup_task demo_task demo_world).1)
     = generation_tasks (cleanup_task demo_task demo_world).1
  /\ forall f, files (cleanup_all_uuid_files (cleanup_task demo_task demo_world).1) !! f
               = if is_uuid_file f then None
                 else files (cleanup_task demo_task demo_world).1 !! f.
Proof.
  apply (worker_without_entry exact no_failure demo_file demo_task demo_start demo_end 3
           (cleanup_task demo_task demo_world).1).
  vm_compute; reflexivity.
Defined.

End EdgeClaims.

Section MalformedFacts.

Variable fl : Q -> Q.
Variable write_fails : Z -> bool.
Variable task_id : string.

(** A range worker whose UUID strings do not parse. *)
Lemma generate_range_background_unparsed filename A B total w tk e :
  generation_tasks w !! task_id = Some tk ->
  loop_args_of A B = Raise e ->
  exists w',
    generate_range_background fl write_fails filename A B task_id total w = (w', Returned)
    /\ generation_tasks w' !! task_id
       = Some (set_error (str_exception e)
                 (set_status "error" (set_file_path filename tk)))
    /\ files w' !! filename = None.
Proof.
  intros Htk Ha. unfold generate_range_background, range_prepare, update_task.
  change (generation_tasks (cleanup_all_uuid_files w)) with (generation_tasks w).
  rewrite Htk. cbn [generation_tasks create_file with_files with_tasks].
  rewrite lookup_insert_eq, Ha. unfold range_handler, update_task.
  cbn [generation_tasks create_file with_files with_tasks].
  rewrite lookup_insert_eq. eexists. split; [reflexivity |]. split.
  - cbn. by rewrite lookup_insert_eq.
  - cbn. by rewrite lookup_delete_eq.
Qed.

Lemma generate_uuids_fast_background_unparsed A B w tk e :
  generation_tasks w !! task_id = Some tk ->
  is_cancelled task_id w = false ->
  loop_args_of A B = Raise e ->
  exists w',
    generate_uuids_fast_background fl write_fails A B task_id w = (w', Returned)
    /\ generation_tasks w' !! task_id
       = Some (set_error (str_exception e) (set_status "error" tk))
    /\ files w' !! fast_filename task_id = None.
Proof.
  intros Htk Hc Ha. unfold generate_uuids_fast_background, update_task.
  change (generation_tasks (cleanup_all_uuid_files w)) with (generation_tasks w).
  rewrite Htk.
  set (w1 := with_tasks _ (cleanup_all_uuid_files w)).
  assert (generation_tasks w1 !! task_id = Some (set_status "generating" tk)) as T1
    by (unfold w1; cbn [generation_tasks with_tasks]; by rewrite lookup_insert_eq).
  assert (is_cancelled task_id w1 = false) as Hc1.
  { unfold is_cancelled in *. rewrite T1. simpl. by rewrite Htk in Hc. }
  rewrite Hc1. unfold generate_uuids_to_file_fast_with_progress. rewrite Ha.
  unfold fast_finish. rewrite Hc1. unfold update_task. rewrite T1.
  eexists. split; [reflexivity |]. split.
  - cbn. by rewrite lookup_insert_eq.
  - change (files (with_tasks _ w1)) with (files (cleanup_all_uuid_files w)).
    by rewrite cleanup_lookup, is_uuid_file_fast_filename.
Qed.

End MalformedFacts.

Section MalformedClaims.

Import Text3.

(** X13. A start UUID with white space around it passes [validate_uuid],
    but the workers parse the text as it is: each ends in state [error]
    with the message of [uuid.UUID]'s [ValueError], progress and count
    untouched, and leaves no output file. *)
Theorem padded_start_uuid_fails_in_worker
    (fl : Q -> Q) (write_fails : Z -> bool) (filename task_id A B : string)
    (total : Z) (w : world) (tk : task) :
  validate_uuid_raw A = true -> A <> strip A ->
  generation_tasks w !! task_id = Some tk ->
  is_cancelled task_id w = false ->
  exists wr wf tr tf,
    generate_range_background fl write_fails filename A B task_id total w = (wr, Returned)
    /\ generate_uuids_fast_background fl write_fails A B task_id w = (wf, Returned)
    /\ generation_tasks wr !! task_id = Some tr
    /\ generation_tasks wf !! task_id = Some tf
    /\ status tr = "error" /\ status tf = "error"
    /\ error tr = Some "badly formed hexadecimal UUID string"
    /\ error tf = Some "badly formed hexadecimal UUID string"
    /\ progress tr = progress tk /\ count tr = count tk
    /\ progress tf = progress tk /\ count tf = count tk
    /\ files wr !! filename = None
    /\ files wf !! fast_filename task_id = None.
Proof.
  intros VA Hne Htk Hc.
  rewrite validate_uuid_empty_strip, validate_uuid_is_pattern in VA.
  destruct (of_hex_valid _ VA) as (u & Hu & _).
  pose proof (of_hex_padded A u Hu Hne) as EA.
  assert (loop_args_of A B = Raise ValueError) as Ha
    by (unfold loop_args_of; by rewrite EA).
  destruct (generate_range_background_unparsed fl write_fails task_id filename A B total
              w tk ValueError Htk Ha) as (wr & Er & Tr & Fr).
  destruct (generate_uuids_fast_background_unparsed fl write_fails task_id A B
              w tk ValueError Htk Hc Ha) as (wf & Ef & Tf & Ff).
  eexists wr, wf, _, _.
  split; [exact Er |]. split; [exact Ef |]. split; [exact Tr |]. split; [exact Tf |].
  do 8 (split; [reflexivity |]). split; [exact Fr | exact Ff].
Qed.

Lemma padded_start_uuid_fails_in_worker_witness :
  exists wr wf tr tf,
    generate_range_background exact no_failure demo_file
      " 0867d7f0-f8d5-21ef-9a39-aedb2c118010" demo_end demo_task 3 demo_world
    = (wr, Returned)
    /\ generate_uuids_fast_background exact no_failure
         " 0867d7f0-f8d5-21ef-9a39-aedb2c118010" demo_end demo_task demo_world
       = (wf, Returned)
    /\ generation_tasks wr !! demo_task = Some tr
    /\ generation_tasks wf !! demo_task = Some tf
    /\ status tr = "error" /\ status tf = "error"
    /\ error tr = Some "badly formed hexadecimal UUID string"
    /\ error tf = Some "badly formed hexadecimal UUID string"
    /\ progress tr = progress (mk_task "queued" 0 0 demo_start demo_end (Some 3) 0 "range"
                                 None None None None)
    /\ count tr = count (mk_task "queued" 0 0 demo_start demo_end (Some 3) 0 "range"
                           None None None None)
    /\ progress tf = progress (mk_task "queued" 0 0 demo_start demo_end (Some 3) 0 "range"
                                 None None None None)
    /\ count tf = count (mk_task "queued" 0 0 demo_start demo_end (Some 3) 0 "range"
                           None None None None)
    /\ files wr !! demo_file = None
    /\ files wf !! fast_filename demo_task = None.
Proof.
  apply (padded_start_uuid_fails_in_worker exact no_failure demo_file demo_task
           " 0867d7f0-f8d5-21ef-9a39-aedb2c118010" demo_end 3 demo_world).
  - vm_compute; reflexivity.
  - vm_compute; discriminate.
  - vm_compute; reflexivity.
  - vm_compute; reflexivity.
Defined.

End MalformedClaims.

(** * Downloading what a run produced *)

Section DownloadClaims.



End DownloadClaims.

(** * The analyzer on validated text *)

Section AnalyzeValid.

Import Hex UUIDv1Generator.




End AnalyzeValid.

(** * The encoder outside the 60-bit range *)

Section EncoderRange.

Import Hex FastUUIDv1Generator.

Lemma take_drop_s n : forall s : string, Text.take n s +:+ Text.drop n s = s.
Proof.
  induction n as [|n IH]; intros [|c s]; cbn [Text.take Text.drop];
    rewrite ?app_nil_l_s, ?app_cons_s; try done. by rewrite IH.
Qed.

Lemma length_take_s n : forall s : string,
  String.length (Text.take n s) = Nat.min n (String.length s).
Proof.
  induction n as [|n IH]; intros [|c s]; cbn [Text.take String.length]; try done.
  by rewrite IH.
Qed.

Lemma length_drop_s n : forall s : string,
  String.length (Text.drop n s) = (String.length s - n)%nat.
Proof.
  induction n as [|n IH]; intros [|c s]; cbn [Text.drop String.length]; try done.
  all: try (by rewrite IH).
Qed.

Lemma length_remove_char_le c (s : string) :
  (String.length (Text.remove_char c s) <= String.length s)%nat.
Proof.
  induction s as [|a s IH]; cbn [Text.remove_char String.length]; [done |].
  destruct (Ascii.eqb a c); cbn [String.length]; lia.
Qed.

(** A string matching the pattern has 36 characters, 32 of them not
    hyphens. *)
Lemma UUID_PATTERN_lengths s :
  UUID_PATTERN s = true ->
  String.length s = 36%nat /\ String.length (Text.remove_char "-" s) = 32%nat.
Proof.
  intros (g1 & g2 & g3 & g4 & g5 & -> & L1 & L2 & L3 & L4 & L5
          & H1 & H2 & H3 & H4 & H5)%UUID_PATTERN_shape.
  split.
  - rewrite !length_app_s, L1, L2, L3, L4, L5. reflexivity.
  - rewrite !remove_char_app.
    rewrite (remove_hyphen_hex g1), (remove_hyphen_hex g2), (remove_hyphen_hex g3),
      (remove_hyphen_hex g4), (remove_hyphen_hex g5) by done.
    change (Text.remove_char "-" "-") with "".
    rewrite !length_app_s, L1, L2, L3, L4, L5. reflexivity.
Qed.

(** The zero-padded rendering of a timestamp has at least 15 characters;
    exactly 15, none of them a hyphen, only for a 60-bit timestamp. *)
Lemma zfill_15_lengths t :
  let hex_str := Text.zfill 15 (format_x t) in
  (15 <= String.length hex_str)%nat
  /\ (String.length hex_str = 15%nat ->
      String.length (Text.remove_char "-" hex_str) = 15%nat ->
      0 <= t < 2 ^ 60).
Proof.
  cbv zeta. unfold format_x. destruct (Z.ltb_spec t 0) as [Hneg | Hpos].
  - set (d := hex_of_nonneg (- t)). cbn [Text.zfill].
    cbn [String.length]. rewrite length_app_s, length_repeat_char.
    split; [cbn [String.length]; lia |].
    intros HL Hrm. cbn [Text.remove_char] in Hrm.
    change (Ascii.eqb "-" "-") with true in Hrm. cbv iota in Hrm.
    pose proof (length_remove_char_le "-"
                  (Text.repeat_char "0" (15 - String.length (String "-" d)) +:+ d)) as Hle.
    rewrite length_app_s, length_repeat_char in Hle.
    cbn [String.length] in Hle. lia.
  - unfold hex_of_nonneg.
    destruct (hex_digits_fixed (Z.to_nat (Z.log2 t)) t "") as (k & Hk1 & Hk2 & Hk3 & ->).
    { split; [lia |]. rewrite Nat2Z.inj_succ, Z2Nat.id by apply Z.log2_nonneg.
      destruct (Z.eq_dec t 0) as [-> | Hne]; [done |].
      apply Z.log2_spec. lia. }
    rewrite zfill_hex by apply all_hex_hexs.
    rewrite length_app_s, length_repeat_char, length_hexs.
    split; [lia |]. intros HL _. split; [lia |].
    assert (k <= 15)%nat as Hk by lia.
    eapply Z.lt_le_trans; [exact Hk2 |].
    change (2 ^ 60) with (16 ^ Z.of_nat 15).
    apply Z.pow_le_mono_r; lia.
Qed.

(** X16. For a 4-digit clock sequence, a 12-digit node and a one-digit
    version marker, [generate_uuid_v1_custom] always returns a string, and
    [validate_uuid] accepts it exactly when the timestamp is within 60
    bits: a negative or larger timestamp yields a malformed UUID string. *)
Theorem generate_uuid_v1_custom_valid_iff
    (t : Z) (clock_seq mac_address save_char : string) :
  String.length clock_seq = 4%nat -> all_hex clock_seq = true ->
  String.length mac_address = 12%nat -> all_hex mac_address = true ->
  String.length save_char = 1%nat -> all_hex save_char = true ->
  exists line,
    generate_uuid_v1_custom t clock_seq mac_address save_char = Some line
    /\ (validate_uuid line = true <-> 0 <= t < 2 ^ 60).
Proof.
  intros Lc Hc Lm Hm Ls Hs. eexists. split; [reflexivity |].
  rewrite validate_uuid_is_pattern. split.
  - intros Hp. apply UUID_PATTERN_lengths in Hp as [Hlen Hrm].
    destruct (zfill_15_lengths t) as [H15 Hin]. cbv zeta in H15, Hin.
    set (hex_str := Text.zfill 15 (format_x t)) in *.
    unfold Text.slice in Hlen, Hrm. change (Text.drop 0 hex_str) with hex_str in Hlen, Hrm.
    assert (String.length hex_str = 15%nat) as HL.
    { rewrite !length_app_s, !length_take_s, !length_drop_s, Lc, Lm, Ls in Hlen.
      cbn [String.length] in Hlen. lia. }
    apply Hin; [exact HL |].
    assert (hex_str = Text.take 3 hex_str +:+ Text.take 4 (Text.drop 3 hex_str)
                      +:+ Text.drop 7 hex_str) as E.
    { rewrite <- (take_drop_s 3 hex_str) at 1. f_equal.
      rewrite <- (take_drop_s 4 (Text.drop 3 hex_str)) at 1. f_equal.
      clear. generalize hex_str. intros s.
      do 3 (destruct s as [|? s]; [reflexivity |]). reflexivity. }
    rewrite !remove_char_app in Hrm.
    rewrite (remove_hyphen_hex clock_seq), (remove_hyphen_hex mac_address),
      (remove_hyphen_hex save_char) in Hrm by done.
    change (Text.remove_char "-" "-") with "" in Hrm.
    rewrite !length_app_s, Lc, Lm, Ls in Hrm. cbn [String.length] in Hrm.
    rewrite E, !remove_char_app, !length_app_s.
    change (7 - 3)%nat with 4%nat in Hrm. change (3 - 0)%nat with 3%nat in Hrm. lia.
  - intros Ht.
    destruct (decode_generated t clock_seq mac_address save_char Ht Lc Hc Lm Hm Ls Hs)
      as (line & u & E & _ & Hp & _).
    match goal with
    | |- UUID_PATTERN ?x = true =>
        assert (x = line) as -> by (unfold generate_uuid_v1_custom in E; congruence)
    end.
    exact Hp.
Qed.

Lemma generate_uuid_v1_custom_valid_iff_witness :
  exists line,
    generate_uuid_v1_custom (2 ^ 60) "8a38" "aedb2c11800f" "1" = Some line
    /\ (validate_uuid line = true <-> 0 <= 2 ^ 60 < 2 ^ 60).
Proof.
  apply (generate_uuid_v1_custom_valid_iff (2 ^ 60) "8a38" "aedb2c11800f" "1");
    reflexivity.
Defined.

End EncoderRange.

(** * Validation of names *)

Section TextInputFacts.

Import Text3.

Lemma lstrip_space_app (pre x : string) :
  Text.all_chars is_space pre = true -> lstrip (pre +:+ x) = lstrip x.
Proof.
  induction pre as [|c pre IH]; [by rewrite app_nil_l_s |].
  cbn [Text.all_chars]. intros [Hc Hp]%andb_true_iff.
  rewrite app_cons_s. cbn [lstrip]. rewrite Hc. by apply IH.
Qed.

Lemma rstrip_space (post : string) :
  Text.all_chars is_space post = true -> rstrip post = "".
Proof.
  induction post as [|c post IH]; [done |].
  cbn [Text.all_chars rstrip]. intros [Hc Hp]%andb_true_iff.
  by rewrite IH, Hc.
Qed.

Lemma rstrip_app_space (y post : string) :
  Text.all_chars is_space post = true -> rstrip (y +:+ post) = rstrip y.
Proof.
  intros Hp. induction y as [|c y IH].
  - rewrite app_nil_l_s. by apply rstrip_space.
  - rewrite app_cons_s. cbn [rstrip]. by rewrite IH.
Qed.

Lemma lstrip_space (pre : string) :
  Text.all_chars is_space pre = true -> lstrip pre = "".
Proof.
  induction pre as [|c pre IH]; [done |].
  cbn [Text.all_chars lstrip]. intros [Hc Hp]%andb_true_iff.
  rewrite Hc. by apply IH.
Qed.

(** White space around a text does not change what [strip] returns. *)
Lemma strip_padding (pre text post : string) :
  Text.all_chars is_space pre = true -> Text.all_chars is_space post = true ->
  strip (pre +:+ text +:+ post) = strip text.
Proof.
  intros Hpre Hpost. unfold strip. rewrite lstrip_space_app by done.
  destruct (lstrip_split text) as (p & E & Hp).
  rewrite E at 1. rewrite app_assoc_s, lstrip_space_app by done.
  destruct (lstrip text) as [|c y] eqn:Ey.
  - rewrite app_nil_l_s, lstrip_space by done. reflexivity.
  - assert (is_space c = false) as Hc.
    { destruct (is_space c) eqn:Hc; [|done].
      assert (lstrip (lstrip text) = lstrip text) as Hidem.
      { clear. induction text as [|a s IH]; [done |]. cbn [lstrip].
        destruct (is_space a) eqn:Ha; [exact IH |]. cbn [lstrip]. by rewrite Ha. }
      rewrite Ey in Hidem. cbn [lstrip] in Hidem. rewrite Hc in Hidem.
      apply (f_equal String.length) in Hidem. cbn [String.length] in Hidem.
      destruct (lstrip_split y) as (q & Eq & _).
      apply (f_equal String.length) in Eq. rewrite length_app_s in Eq. lia. }
    rewrite app_cons_s. cbn [lstrip]. rewrite Hc.
    rewrite <- app_cons_s. by apply rstrip_app_space.
Qed.

Lemma validate_text_input_strip (s s' : string) (max_length : Z) :
  strip s = strip s' ->
  validate_text_input s max_length = validate_text_input s' max_length.
Proof.
  intros E. unfold validate_text_input. destruct s as [|c s], s' as [|c' s'].
  - reflexivity.
  - rewrite <- E. reflexivity.
  - rewrite E. reflexivity.
  - by rewrite E.
Qed.

(** X17. White space before and after a name (spaces, tabs, line breaks)
    never changes whether [validate_text_input] accepts it: the length
    bound and the character checks apply to the stripped text only. A
    control character inside the name, a quote or an angle bracket is
    refused. *)
Theorem validate_text_input_ignores_padding
    (pre text post : string) (max_length : Z) :
  Text.all_chars is_space pre = true ->
  Text.all_chars is_space post = true ->
  validate_text_input (pre +:+ text +:+ post) max_length
  = validate_text_input text max_length
  /\ (validate_text_input text max_length = true ->
      1 <= Z.of_nat (String.length (strip text)) <= max_length
      /\ Text.all_chars
           (fun c => (32 <=? ord c) && negb (ord c =? 127)
                     && negb ((ord c =? 60) || (ord c =? 62)
                              || (ord c =? 34) || (ord c =? 39)))
           (strip text) = true).
Proof.
  intros Hpre Hpost. split.
  - apply validate_text_input_strip. by apply strip_padding.
  - unfold validate_text_input. destruct text as [|c s]; [done |].
    set (t := strip (String c s)).
    destruct (Z.eqb_spec (Z.of_nat (String.length t)) 0); [done |].
    destruct (Z.ltb_spec max_length (Z.of_nat (String.length t))); [done |].
    cbn [orb].
    destruct (Text.all_chars _ t) eqn:H1; [|done]. cbn [negb].
    destruct (Text.all_chars (fun c => (32 <=? ord c) && negb (ord c =? 127)) t) eqn:H2;
      [|done].
    intros _. split; [lia |].
    clear -H1 H2. induction t as [|a t IH]; [done |].
    cbn [Text.all_chars] in *.
    apply andb_true_iff in H1 as [Ha1 Ht1]. apply andb_true_iff in H2 as [Ha2 Ht2].
    rewrite Ha1, Ha2. by apply IH.
Qed.

Lemma validate_text_input_ignores_padding_witness :
  validate_text_input (String (ascii_of_nat 9) " " +:+ "example.com"
                       +:+ String (ascii_of_nat 10) "") 1000
  = validate_text_input "example.com" 1000
  /\ (validate_text_input "example.com" 1000 = true ->
      1 <= Z.of_nat (String.length (strip "example.com")) <= 1000
      /\ Text.all_chars
           (fun c => (32 <=? ord c) && negb (ord c =? 127)
                     && negb ((ord c =? 60) || (ord c =? 62)
                              || (ord c =? 34) || (ord c =? 39)))
           (strip "example.com") = true).
Proof.
  apply (validate_text_input_ignores_padding
           (String (ascii_of_nat 9) " ") "example.com" (String (ascii_of_nat 10) "") 1000);
    reflexivity.
Defined.

End TextInputFacts.
(** * The DCE domain text *)

Section DomainFacts.

Import Hex UUIDv1Generator Analyzer.

Lemma land_byte a : 0 <= Z.land a 0xff < 256.
Proof.
  change 0xff with (Z.ones 8). rewrite Z.land_ones by lia.
  apply Z.mod_pos_bound. lia.
Qed.

(** X18. Whatever the UUID, the DCE domain text of the version-2 report is
    chosen by bits 4 and 5 of the clock-sequence high byte alone, so it is
    one of the four named domains: the custom-domain text is never
    reported. *)
Theorem dce_domain_by_two_bits (u : uuid.UUID) :
  let k := Z.land (Z.shiftr (uuid.clock_seq_hi_variant u) 4) 3 in
  v2_dce_domain (get_possible_v2_specific_fields u)
  = nth (Z.to_nat k)
      ["Local DCE Security Domain"; "Network DCE Security Domain";
       "Distributed DCE Security Domain"; "Enterprise DCE Security Domain"] ""
  /\ 0 <= k < 4
  /\ v2_dce_domain (get_possible_v2_specific_fields u) <> "Custom DCE Security Domain".
Proof.
  intros k. unfold get_possible_v2_specific_fields. cbn [v2_dce_domain].
  pose proof (land_byte (Z.shiftr (uuid.int u) 56)) as Hh.
  pose proof (land_byte (Z.shiftr (uuid.int u) 48)) as Hl.
  fold (uuid.clock_seq_hi_variant u) in Hh. fold (uuid.clock_seq_low u) in Hl.
  subst k. revert Hh Hl.
  generalize (uuid.clock_seq_hi_variant u) as h, (uuid.clock_seq_low u) as l.
  intros h l Hh Hl.
  change 0x3f with (Z.ones 6). change 3 with (Z.ones 2).
  rewrite !Z.land_ones, Z.shiftr_div_pow2 by lia.
  pose proof (Z.mod_pos_bound h (2 ^ 6) ltac:(lia)) as H6.
  rewrite lor_shiftl_add by lia.
  assert ((h / 2 ^ 4) mod 2 ^ 2 = (h mod 2 ^ 6) / 2 ^ 4) as ->.
  { change (2 ^ 6) with (2 ^ 4 * 2 ^ 2). rewrite Z.rem_mul_r by lia.
    rewrite Z.mul_comm, Z.div_add by lia.
    rewrite (Z.div_small (h mod 2 ^ 4)) by (apply Z.mod_pos_bound; lia). lia. }
  set (m := h mod 2 ^ 6) in *.
  assert (0 <= m / 2 ^ 4 < 4) as Hk
    by (split; [apply Z.div_pos; lia | apply Z.div_lt_upper_bound; lia]).
  pose proof (Z.div_mod m (2 ^ 4) ltac:(lia)) as Hm.
  pose proof (Z.mod_pos_bound m (2 ^ 4) ltac:(lia)) as Hm'.
  unfold get_dce_domain.
  assert (m / 2 ^ 4 = 0 \/ m / 2 ^ 4 = 1 \/ m / 2 ^ 4 = 2 \/ m / 2 ^ 4 = 3)
    as [E | [E | [E | E]]] by lia; rewrite E in *;
    repeat match goal with
           | |- context [?a <? ?b] => destruct (Z.ltb_spec a b); try lia
           end;
    (split; [reflexivity | split; [lia | discriminate]]).
Qed.

End DomainFacts.
